(** * CNJSaude: multi-valued cell parsing and frequency aggregation

    Shallow embedding of the analysis scripts of the repository:
    - [parse_multi_valor], [eh_ente_publico] (identical in
      analise_output.py, analise_output_sus.py and
      gerar_relatorio_analise_cnj.py);
    - [analisar_frequencias] of gerar_relatorio_analise_cnj.py and of
      analise_output.py, [analisar_frequencias_entes_publicos] of
      analise_output_sus.py;
    - [formatar_tabela_analise] of relatorio_export.py and of
      gerar_relatorio_analise_cnj.py.

    Modelling conventions.
    - A Python [str] is a [list ascii]; the model covers ASCII text:
      [isspace] and [upper] act on code points below 128 exactly as
      Python does, larger codes are opaque caseless symbols.
    - A cell read by pandas with [dtype=str] is [option str]: [None] is
      NaN ([pd.isna]).
    - Python dicts, [Counter] and [pd.Series] are association lists in
      insertion order.
    - Python [int] is [Z]; the floats of the percentage column are
      IEEE binary64 values, computed with the [SpecFloat] operations.
    - An exception caught by the outer [except Exception] of a scan is
      the [None] of an option-valued loop state. *)

From Stdlib Require Import String.
From Stdlib Require Import List ZArith NArith Bool Ascii Lia.
From Stdlib Require Import Permutation DecimalString Recdef.
From Stdlib Require Import SpecFloat.
Import ListNotations.

Open Scope Z_scope.

(* ===================================================================== *)
(** * Text                                                               *)
(* ===================================================================== *)

Module Texto.

Definition str := list ascii.

(** Literal of the source text. *)
Definition py (s : String.string) : str := String.list_ascii_of_string s.

Fixpoint str_eqb (a b : str) : bool :=
  match a, b with
  | [], [] => true
  | x :: a', y :: b' => Ascii.eqb x y && str_eqb a' b'
  | _, _ => false
  end.

(** Truth value of a [str]: [if s], [if not s]. *)
Definition truthy {A} (l : list A) : bool :=
  match l with [] => false | _ :: _ => true end.

(** [c.isspace()] below 128: TAB, LF, VT, FF, CR, FS, GS, RS, US, space.
    The same class is the [\s] of [re] on [str] patterns. *)
Definition isspace (c : ascii) : bool :=
  let n := N_of_ascii c in
  ((9 <=? n)%N && (n <=? 13)%N) || ((28 <=? n)%N && (n <=? 32)%N).

Fixpoint lstrip (s : str) : str :=
  match s with
  | [] => []
  | c :: s' => if isspace c then lstrip s' else s
  end.

Definition rstrip (s : str) : str := rev (lstrip (rev s)).

(** [s.strip()] *)
Definition strip (s : str) : str := rstrip (lstrip s).

Definition upper_char (c : ascii) : ascii :=
  let n := N_of_ascii c in
  if ((97 <=? n)%N && (n <=? 122)%N) then ascii_of_N (n - 32) else c.

(** [s.upper()] *)
Definition upper (s : str) : str := map upper_char s.

(** [s.startswith(c)] and [s.endswith(c)] for a one-character [c]. *)
Definition startswith (c : ascii) (s : str) : bool :=
  match s with
  | [] => false
  | x :: _ => Ascii.eqb x c
  end.

Definition endswith (c : ascii) (s : str) : bool := startswith c (rev s).

(** [s[1:-1]] *)
Definition miolo (s : str) : str := removelast (tl s).

Fixpoint prefixo (p s : str) : bool :=
  match p, s with
  | [], _ => true
  | x :: p', y :: s' => Ascii.eqb x y && prefixo p' s'
  | _ :: _, [] => false
  end.

(** [sub in s] *)
Fixpoint contem (sub s : str) : bool :=
  prefixo sub s ||
  match s with
  | [] => false
  | _ :: s' => contem sub s'
  end.

(** [sep.join(l)] *)
Fixpoint join (sep : str) (l : list str) : str :=
  match l with
  | [] => []
  | [x] => x
  | x :: l' => x ++ sep ++ join sep l'
  end.

(** [str(n)] for an [int]. *)
Definition str_of_Z (n : Z) : str := py (NilZero.string_of_int (Z.to_int n)).

(** ** [re.split(r'\s*,\s*', s)]

    [casa_separador s] is the match of the pattern at the start of [s]:
    the greedy [\s*] takes the whole run of spaces, a comma must follow
    (no shorter run can be followed by one), and the second [\s*] takes
    the run after it.  The result is the text after the match. *)
Definition casa_separador (s : str) : option str :=
  match lstrip s with
  | c :: r => if Ascii.eqb c "," then Some (lstrip r) else None
  | [] => None
  end.

Lemma lstrip_length s : (length (lstrip s) <= length s)%nat.
Proof.
  induction s as [|c s IH]; simpl; [lia|].
  destruct (isspace c); simpl; lia.
Qed.

Lemma casa_separador_length s r :
  casa_separador s = Some r -> (length r < length s)%nat.
Proof.
  unfold casa_separador. intros H.
  pose proof (lstrip_length s) as Hs.
  destruct (lstrip s) as [|c t]; [discriminate|].
  destruct (Ascii.eqb c ","); [|discriminate].
  injection H as <-. pose proof (lstrip_length t). simpl in Hs. lia.
Qed.

(** The scan looks for the leftmost match: [atual] holds, reversed, the
    characters read since the last separator. *)
Function re_split_desde (atual : str) (s : str) {measure length s} : list str :=
  match casa_separador s with
  | Some r => rev atual :: re_split_desde [] r
  | None =>
      match s with
      | [] => [rev atual]
      | c :: s' => re_split_desde (c :: atual) s'
      end
  end.
Proof.
  - intros _ s r H. apply casa_separador_length. exact H.
  - intros _ s c s' _ _. simpl. lia.
Defined.

Definition re_split (s : str) : list str := re_split_desde [] s.

End Texto.
Import Texto.

(* ===================================================================== *)
(** * Floats of the percentage column                                    *)
(* ===================================================================== *)

Module Flutuante.

Definition prec : Z := 53.
Definition emax : Z := 1024.

(** [a / b] for two ints with [b <> 0] (every division of the source is
    guarded by [total_ocorrencias > 0]): the quotient rounded to the
    nearest binary64, ties to even.  This is Python's [int / int]; the
    pandas division of an int64 column by an int converts both sides to
    float64 first and gives the same value for counts below 2^53. *)
Definition truediv (a b : Z) : spec_float :=
  let s := xorb (a <? 0) (b <? 0) in
  match a with
  | Z0 => S754_zero s
  | _ =>
      let '(q, e, l) := SFdiv_core_binary prec emax (Z.abs a) 0 (Z.abs b) 0 in
      binary_round_aux prec emax s q e l
  end.

(** The float [100.0]. *)
Definition cem : spec_float := Eval vm_compute in binary_normalize prec emax 100 0 false.

Definition vezes (x y : spec_float) : spec_float := SFmul prec emax x y.

(** [n / d] rounded to the nearest integer, ties to even ([0 <= n], [0 < d]). *)
Definition arredonda_par (n d : Z) : Z :=
  let q := n / d in
  let r := n mod d in
  match (2 * r ?= d) with
  | Lt => q
  | Gt => q + 1
  | Eq => if Z.even q then q else q + 1
  end.

Definition sinal (s : bool) : str := if s then py "-" else [].

(** ['{:.2f}'.format(x)]: the exact value of [x] rounded to two decimals,
    ties to even. *)
Definition formata_2f (x : spec_float) : str :=
  match x with
  | S754_zero s => sinal s ++ py "0.00"
  | S754_infinity s => sinal s ++ py "inf"
  | S754_nan => py "nan"
  | S754_finite s m e =>
      let h := match e with
               | Zneg p => arredonda_par (Zpos m * 100) (2 ^ Zpos p)
               | _ => Zpos m * 100 * 2 ^ e
               end in
      sinal s ++ str_of_Z (h / 100) ++ py "." ++ str_of_Z (h mod 100 / 10) ++ str_of_Z (h mod 10)
  end.

End Flutuante.

(* ===================================================================== *)
(** * The cell tokenizer and the entity classifier                       *)
(* ===================================================================== *)

(** [parse_multi_valor(valor_celula)] *)
Definition parse_multi_valor (valor_celula : option str) : list str :=
  match valor_celula with
  | None => []
  | Some v =>
      let texto_str := strip v in
      if negb (truthy texto_str) then []
      else
        let texto_interno :=
          if startswith "{" texto_str && endswith "}" texto_str
          then miolo texto_str
          else texto_str in
        map strip (filter (fun item => truthy (strip item)) (re_split texto_interno))
  end.

(** [eh_ente_publico(texto_natjur, palavras_chave)]; the keyword set is
    listed in some order, the loops stop at the first hit. *)
Definition eh_ente_publico (texto_natjur : option str) (palavras_chave : list str) : bool :=
  match texto_natjur with
  | None => false
  | Some _ =>
      let lista_naturezas := parse_multi_valor texto_natjur in
      if negb (truthy lista_naturezas) then false
      else
        existsb (fun natureza =>
                   let natureza_upper := upper natureza in
                   existsb (fun chave => contem chave natureza_upper) palavras_chave)
                lista_naturezas
  end.

(* ===================================================================== *)
(** * Dicts, Counter, Series, the chunked reader                         *)
(* ===================================================================== *)

Module Dict.

(** A Python dict with [str] keys, in insertion order. *)
Definition dict (V : Type) := list (str * V).

(** [d.get(k)] *)
Fixpoint dict_get {V} (d : dict V) (k : str) : option V :=
  match d with
  | [] => None
  | (k', v) :: d' => if str_eqb k' k then Some v else dict_get d' k
  end.

(** [d[k] = v]: an existing key keeps its place. *)
Fixpoint dict_set {V} (d : dict V) (k : str) (v : V) : dict V :=
  match d with
  | [] => [(k, v)]
  | (k', v') :: d' =>
      if str_eqb k' k then (k', v) :: d' else (k', v') :: dict_set d' k v
  end.

(** [d.get(k, padrao)] *)
Definition dict_get_ou {V} (d : dict V) (k : str) (padrao : V) : V :=
  match dict_get d k with
  | Some v => v
  | None => padrao
  end.

(** [{k: v for k in ks}] *)
Definition dict_de {V} (ks : list str) (v : V) : dict V :=
  fold_left (fun d k => dict_set d k v) ks [].

(** [k in l] *)
Definition pertence (k : str) (l : list str) : bool := existsb (str_eqb k) l.

(** [list(set(l))], in the order of first occurrence. *)
Fixpoint conjunto (l : list str) : list str :=
  match l with
  | [] => []
  | x :: l' => x :: filter (fun y => negb (str_eqb x y)) (conjunto l')
  end.

End Dict.
Import Dict.

(** [collections.Counter]: a missing key counts 0. *)
Definition Counter := dict Z.

(** [c[item] += 1] *)
Definition counter_incr (c : Counter) (item : str) : Counter :=
  dict_set c item (dict_get_ou c item 0 + 1).

(** [c.update(itens)] *)
Definition counter_update (c : Counter) (itens : list str) : Counter :=
  fold_left counter_incr itens c.

(** [sum(c.values())], [serie.sum()] *)
Definition soma (c : list (str * Z)) : Z := fold_right Z.add 0 (map snd c).

Module Pandas.

(** A [pd.Series] of counts indexed by item. *)
Definition Series := list (str * Z).

Fixpoint insere_desc (x : str * Z) (l : Series) : Series :=
  match l with
  | [] => [x]
  | y :: l' => if snd y <=? snd x then x :: l else y :: insere_desc x l'
  end.

(** [serie.sort_values(ascending=False)].  Equal counts keep their
    insertion order here; pandas does not fix that order, and nothing
    below depends on it. *)
Definition sort_values_desc (s : Series) : Series := fold_right insere_desc [] s.

(** [serie.head(n)]: the first [n] entries, all but the last [-n] when
    [n] is negative. *)
Definition head (n : Z) (s : Series) : Series :=
  if 0 <=? n then firstn (Z.to_nat n) s
  else firstn (length s - Z.to_nat (- n)) s.

(** [col.dropna()] *)
Fixpoint dropna {A} (l : list (option A)) : list A :=
  match l with
  | [] => []
  | Some x :: l' => x :: dropna l'
  | None :: l' => dropna l'
  end.

(** A row of the CSV: column name to text, absent when the cell is NaN. *)
Definition linha := dict str.

Record fonte := { colunas_presentes : list str; linhas : list linha }.

(** [chunk[coluna]] *)
Definition coluna_de (chunk : list linha) (coluna : str) : list (option str) :=
  map (fun l => dict_get l coluna) chunk.

Fixpoint agrupa {A} (n k : nat) (atual : list A) (ls : list A) : list (list A) :=
  match ls with
  | [] => match atual with [] => [] | _ :: _ => [rev atual] end
  | l :: ls' =>
      match k with
      | S (S k') => agrupa n (S k') (l :: atual) ls'
      | _ => rev (l :: atual) :: agrupa n n [] ls'
      end
  end.

(** The iterator of [pd.read_csv(..., chunksize=n)]: chunks of [n] rows,
    the last one shorter; a source without rows yields one empty chunk. *)
Definition read_csv_chunks (chunksize : positive) (ls : list linha) : list (list linha) :=
  match ls with
  | [] => [[]]
  | _ :: _ => agrupa (Pos.to_nat chunksize) (Pos.to_nat chunksize) [] ls
  end.

End Pandas.
Import Pandas.

(** The value of one column in [resultados_finais]; [contagens] is
    [None] when the key is missing. *)
Record dados_contagem := {
  contagens : option Series;
  total_ocorrencias : Z;
  contagem_sigiloso : Z
}.

(** [{'contagens': pd.Series(dtype=int), 'total_ocorrencias': 0, 'contagem_sigiloso': 0}] *)
Definition dados_vazios : dados_contagem :=
  {| contagens := Some []; total_ocorrencias := 0; contagem_sigiloso := 0 |}.

(** Messages logged at warning and error level. *)
Inductive evento :=
| ErroNenhumaColuna
| ErroFiltroAusente
| ErroColunasEssenciais
| ErroInesperado
| AvisoColunasAusentes
| AvisoColunaSemValores (coluna : str).

(** Option-valued loops: [None] is a raised exception. *)
Fixpoint foldM {S A} (f : S -> A -> option S) (l : list A) (s : S) : option S :=
  match l with
  | [] => Some s
  | a :: l' =>
      match f s a with
      | Some s' => foldM f l' s'
      | None => None
      end
  end.

Definition SIGILOSO : str := py "SIGILOSO".

(** The local variables of the chunk loop that outlive an iteration:
    the two dicts, and whether the names [col_data] and [items_parsed]
    ([items_exploded] in analise_output.py) are bound, which the [del]
    at the end of the iteration needs. *)
Record estado := {
  v_contadores : dict Counter;
  v_contagem_sigiloso : dict Z;
  v_col_data : bool;
  v_items_parsed : bool
}.

Definition estado_inicial (colunas : list str) : estado :=
  {| v_contadores := dict_de colunas ([] : Counter);
     v_contagem_sigiloso := dict_de colunas 0;
     v_col_data := false;
     v_items_parsed := false |}.

(** [del col_data, items_parsed]: raises when a name is unbound. *)
Definition del_locais (est : estado) : option estado :=
  if v_col_data est && v_items_parsed est
  then Some {| v_contadores := v_contadores est;
               v_contagem_sigiloso := v_contagem_sigiloso est;
               v_col_data := false;
               v_items_parsed := false |}
  else None.

(** The body of [for item in lista_items] (the same in
    gerar_relatorio_analise_cnj.py and analise_output_sus.py). *)
Definition conta_item (coluna : str) (est : estado) (item : str) : option estado :=
  let item_strip_upper := upper (strip item) in
  if str_eqb item_strip_upper SIGILOSO then
    match dict_get (v_contagem_sigiloso est) coluna with
    | Some n =>
        Some {| v_contadores := v_contadores est;
                v_contagem_sigiloso := dict_set (v_contagem_sigiloso est) coluna (n + 1);
                v_col_data := v_col_data est;
                v_items_parsed := v_items_parsed est |}
    | None => None
    end
  else if truthy item_strip_upper then
    match dict_get (v_contadores est) coluna with
    | Some c =>
        Some {| v_contadores := dict_set (v_contadores est) coluna (counter_incr c item);
                v_contagem_sigiloso := v_contagem_sigiloso est;
                v_col_data := v_col_data est;
                v_items_parsed := v_items_parsed est |}
    | None => None
    end
  else Some est.

(** The body of [for coluna in ...] from [col_data = ...] on. *)
Definition conta_coluna (chunk_processar : list linha) (est : estado) (coluna : str) : option estado :=
  let col_data := dropna (coluna_de chunk_processar coluna) in
  let est := {| v_contadores := v_contadores est;
                v_contagem_sigiloso := v_contagem_sigiloso est;
                v_col_data := true;
                v_items_parsed := v_items_parsed est |} in
  if truthy col_data then
    let items_parsed := map (fun v => parse_multi_valor (Some v)) col_data in
    let est := {| v_contadores := v_contadores est;
                  v_contagem_sigiloso := v_contagem_sigiloso est;
                  v_col_data := true;
                  v_items_parsed := true |} in
    foldM (fun est lista_items => foldM (conta_item coluna) lista_items est) items_parsed est
  else Some est.

(** Lines 150-153 (112-115 in analise_output_sus.py): one column of
    [resultados_finais]. *)
Definition finaliza (contador : Counter) (sigilosos : Z) : dados_contagem :=
  let total_ocorrencias_geral := soma contador + sigilosos in
  if total_ocorrencias_geral =? 0 then dados_vazios
  else {| contagens := Some (sort_values_desc contador);
          total_ocorrencias := total_ocorrencias_geral;
          contagem_sigiloso := sigilosos |}.

(* ===================================================================== *)
(** * gerar_relatorio_analise_cnj.py                                     *)
(* ===================================================================== *)

(** One row of the formatted table (columns Item, Contagem, Percentual). *)
Record linha_tabela := { Item : str; Contagem : Z; Percentual : str }.

(** [(contagem / total * 100) if total > 0 else 0], shown with
    ['{:.2f}%']. *)
Definition percentual (contagem total : Z) : str :=
  (if 0 <? total
   then Flutuante.formata_2f (Flutuante.vezes (Flutuante.truediv contagem total) Flutuante.cem)
   else py "0.00") ++ py "%".

Definition linhas_top_n (top_n_contagens : Series) (total : Z) : list linha_tabela :=
  map (fun ic => {| Item := fst ic; Contagem := snd ic;
                    Percentual := percentual (snd ic) total |}) top_n_contagens.

Definition linha_outros (total_itens_unicos_validos top_n contagem_outros total : Z) : linha_tabela :=
  {| Item := py "Outros (" ++ str_of_Z (total_itens_unicos_validos - top_n) ++ py " itens)";
     Contagem := contagem_outros;
     Percentual := percentual contagem_outros total |}.

Definition linha_sigiloso (sigiloso total : Z) : linha_tabela :=
  {| Item := py "Sigiloso"; Contagem := sigiloso; Percentual := percentual sigiloso total |}.

Definition linha_total (total : Z) : linha_tabela :=
  {| Item := py "TOTAL GERAL"; Contagem := total; Percentual := py "100.00%" |}.

Module GerarRelatorio.

(** One iteration of [for i, chunk in enumerate(iterador_csv)].  [filtro]
    is the filter column when
    [filtrar_por_ente_publico and coluna_filtro_ente_existe] holds;
    [colunas_lidas] are the columns of the chunk ([usecols]). *)
Definition processa_chunk (filtro : option str) (palavras_chave_entes : list str)
    (colunas_lidas colunas_analise_existentes : list str)
    (est : estado) (chunk : list linha) : option estado :=
  let chunk_processar :=
    match filtro with
    | Some coluna_filtro_ente =>
        filter (fun l => eh_ente_publico (dict_get l coluna_filtro_ente) palavras_chave_entes) chunk
    | None => chunk
    end in
  if negb (truthy chunk_processar) then Some est
  else
    match foldM (fun est coluna =>
                   if negb (pertence coluna colunas_lidas) then Some est
                   else conta_coluna chunk_processar est coluna)
                colunas_analise_existentes est with
    | Some est' => del_locais est'
    | None => None
    end.

(** Lines 147-153. *)
Definition resultados_finais (colunas_analise colunas_analise_existentes : list str)
    (est : estado) : dict dados_contagem :=
  fold_left
    (fun res coluna =>
       dict_set res coluna
         (if negb (pertence coluna colunas_analise_existentes) then dados_vazios
          else finaliza (dict_get_ou (v_contadores est) coluna [])
                        (dict_get_ou (v_contagem_sigiloso est) coluna 0)))
    colunas_analise [].

(** The scan from [iterador_csv = pd.read_csv(...)] on. *)
Definition varre (chunksize : positive) (csv : fonte) (colunas_analise colunas_analise_existentes : list str)
    (filtro : option str) (palavras_chave_entes : list str)
    : option (dict dados_contagem) :=
  let colunas_para_ler_final :=
    conjunto (colunas_analise_existentes ++ match filtro with Some f => [f] | None => [] end) in
  match foldM (processa_chunk filtro palavras_chave_entes colunas_para_ler_final colunas_analise_existentes)
              (read_csv_chunks chunksize (linhas csv))
              (estado_inicial colunas_analise_existentes) with
  | Some est => Some (resultados_finais colunas_analise colunas_analise_existentes est)
  | None => None
  end.

Definition com_erro_inesperado (registro : list evento) (r : option (dict dados_contagem))
    : list evento * option (dict dados_contagem) :=
  match r with
  | Some res => (registro, Some res)
  | None => (registro ++ [ErroInesperado], None)
  end.

(** [analisar_frequencias(caminho_csv, colunas_analise,
    filtrar_por_ente_publico, coluna_filtro_ente, palavras_chave_entes)]
    for a file that exists and whose header can be read; [chunksize] is
    the constant CHUNKSIZE_ANALISE.  The result is the list of logged
    errors and the returned value. *)
Definition analisar_frequencias (chunksize : positive) (csv : fonte) (colunas_analise : list str)
    (filtrar_por_ente_publico : bool) (coluna_filtro_ente : option str)
    (palavras_chave_entes : list str)
    : list evento * option (dict dados_contagem) :=
  let colunas_analise_existentes :=
    filter (fun col => pertence col (colunas_presentes csv)) colunas_analise in
  let coluna_filtro_ente_existe :=
    match coluna_filtro_ente with
    | Some f => if truthy f then pertence f (colunas_presentes csv) else true
    | None => true
    end in
  if negb (truthy colunas_analise_existentes) then ([ErroNenhumaColuna], None)
  else
    let registro :=
      if filtrar_por_ente_publico && negb coluna_filtro_ente_existe
      then [ErroFiltroAusente] else [] in
    let filtrar_por_ente_publico :=
      if filtrar_por_ente_publico && negb coluna_filtro_ente_existe
      then false else filtrar_por_ente_publico in
    if filtrar_por_ente_publico && coluna_filtro_ente_existe then
      match coluna_filtro_ente with
      | Some f =>
          (* [usecols] must name columns of the file *)
          if pertence f (colunas_presentes csv)
          then com_erro_inesperado registro
                 (varre chunksize csv colunas_analise colunas_analise_existentes (Some f) palavras_chave_entes)
          else (registro ++ [ErroInesperado], None)
      | None => (registro ++ [ErroInesperado], None)
      end
    else com_erro_inesperado registro
           (varre chunksize csv colunas_analise colunas_analise_existentes None palavras_chave_entes).

(** [formatar_tabela_analise(dados_contagem, top_n)] *)
Definition formatar_tabela_analise (dados : dados_contagem) (top_n : Z) : option (list linha_tabela) :=
  let total_ocorrencias := total_ocorrencias dados in
  let contagem_sigiloso := contagem_sigiloso dados in
  match contagens dados with
  | None => None
  | Some contagens =>
      if total_ocorrencias =? 0 then None
      else
        let total_validas := total_ocorrencias - contagem_sigiloso in
        let total_itens_unicos_validos := Z.of_nat (length contagens) in
        let top_n_contagens := head top_n contagens in
        let soma_top_n := soma top_n_contagens in
        let contagem_outros := total_validas - soma_top_n in
        let df_tabela := linhas_top_n top_n_contagens total_ocorrencias in
        let df_tabela :=
          if (top_n <? total_itens_unicos_validos) && (0 <? contagem_outros)
          then df_tabela ++ [linha_outros total_itens_unicos_validos top_n contagem_outros total_ocorrencias]
          else df_tabela in
        let df_tabela :=
          if 0 <? contagem_sigiloso
          then df_tabela ++ [linha_sigiloso contagem_sigiloso total_ocorrencias]
          else df_tabela in
        let df_tabela :=
          if truthy df_tabela || (0 <? contagem_sigiloso)
          then df_tabela ++ [linha_total total_ocorrencias]
          else df_tabela in
        if truthy df_tabela then Some df_tabela else None
  end.

End GerarRelatorio.

(* ===================================================================== *)
(** * relatorio_export.py                                                *)
(* ===================================================================== *)

Module RelatorioExport.

(** [formatar_tabela_analise(dados_contagem, top_n)] *)
Definition formatar_tabela_analise (dados : dados_contagem) (top_n : Z) : option (list linha_tabela) :=
  let total_ocorrencias := total_ocorrencias dados in
  let contagem_sigiloso := contagem_sigiloso dados in
  match contagens dados with
  | None => None
  | Some contagens =>
      if total_ocorrencias =? 0 then None
      else
        let total_validas := total_ocorrencias - contagem_sigiloso in
        let total_itens_unicos_validos := Z.of_nat (length contagens) in
        let top_n_contagens := head top_n contagens in
        let soma_top_n := soma top_n_contagens in
        let contagem_outros := total_validas - soma_top_n in
        let df_tabela := linhas_top_n top_n_contagens total_ocorrencias in
        let df_tabela :=
          if (top_n <? total_itens_unicos_validos) && (0 <? contagem_outros)
          then df_tabela ++ [linha_outros total_itens_unicos_validos top_n contagem_outros total_ocorrencias]
          else df_tabela in
        let df_tabela :=
          if 0 <? contagem_sigiloso
          then df_tabela ++ [linha_sigiloso contagem_sigiloso total_ocorrencias]
          else df_tabela in
        let df_tabela :=
          if truthy df_tabela
          then df_tabela ++ [linha_total total_ocorrencias]
          else df_tabela in
        if truthy df_tabela then Some df_tabela else None
  end.

End RelatorioExport.

(* ===================================================================== *)
(** * analise_output_sus.py                                              *)
(* ===================================================================== *)

Module AnaliseOutputSus.

(** One iteration of the chunk loop; [colunas_lidas] are the columns of
    the chunk ([usecols=colunas_analise_existentes]). *)
Definition processa_chunk (coluna_natjur_passivo : str) (palavras_chave_entes_publicos : list str)
    (colunas_lidas colunas_analise : list str)
    (est : estado) (chunk : list linha) : option estado :=
  let chunk_filtrado_inicial :=
    filter (fun l => eh_ente_publico (dict_get l coluna_natjur_passivo) palavras_chave_entes_publicos)
           chunk in
  if negb (truthy chunk_filtrado_inicial) then Some est
  else
    match foldM (fun est coluna =>
                   if negb (pertence coluna colunas_lidas) then Some est
                   else conta_coluna chunk_filtrado_inicial est coluna)
                colunas_analise est with
    | Some est' => del_locais est'
    | None => None
    end.

(** Lines 109-115; [contadores[coluna]] raises on a missing key. *)
Definition resultados_finais (colunas_analise colunas_presentes : list str)
    (est : estado) : option (dict dados_contagem) :=
  foldM
    (fun res coluna =>
       if negb (pertence coluna colunas_presentes) then Some (dict_set res coluna dados_vazios)
       else
         match dict_get (v_contadores est) coluna, dict_get (v_contagem_sigiloso est) coluna with
         | Some contador, Some sigilosos => Some (dict_set res coluna (finaliza contador sigilosos))
         | _, _ => None
         end)
    colunas_analise [].

(** [analisar_frequencias_entes_publicos(caminho_csv, colunas_analise,
    coluna_natjur_passivo, palavras_chave_entes_publicos)] for a file
    that exists and whose header can be read. *)
Definition analisar_frequencias_entes_publicos (chunksize : positive) (csv : fonte)
    (colunas_analise : list str) (coluna_natjur_passivo : str)
    (palavras_chave_entes_publicos : list str)
    : list evento * option (dict dados_contagem) :=
  let colunas_para_ler := conjunto (colunas_analise ++ [coluna_natjur_passivo]) in
  let colunas_analise_existentes :=
    filter (fun col => pertence col (colunas_presentes csv)) colunas_para_ler in
  let registro :=
    if forallb (fun col => pertence col (colunas_presentes csv)) colunas_para_ler
    then [] else [AvisoColunasAusentes] in
  if negb (truthy colunas_analise_existentes)
     || negb (pertence coluna_natjur_passivo colunas_analise_existentes)
  then (registro ++ [ErroColunasEssenciais], None)
  else
    match foldM (processa_chunk coluna_natjur_passivo palavras_chave_entes_publicos
                                colunas_analise_existentes colunas_analise)
                (read_csv_chunks chunksize (linhas csv))
                (estado_inicial colunas_analise) with
    | Some est =>
        match resultados_finais colunas_analise (colunas_presentes csv) est with
        | Some res => (registro, Some res)
        | None => (registro ++ [ErroInesperado], None)
        end
    | None => (registro ++ [ErroInesperado], None)
    end.

End AnaliseOutputSus.

(* ===================================================================== *)
(** * analise_output.py                                                  *)
(* ===================================================================== *)

Module AnaliseOutput.

(** The value of one column in the result of this script: there is no
    ['contagem_sigiloso'] key. *)
Record dados_simples := { s_contagens : Series; s_total_ocorrencias : Z }.

(** Locals of the chunk loop: one dict of counters, and whether
    [col_data] and [items_exploded] are bound. *)
Record estado_simples := {
  w_contadores : dict Counter;
  w_col_data : bool;
  w_items_exploded : bool
}.

(** The body of [for coluna in colunas_analise_existentes]. *)
Definition conta_coluna (chunk : list linha) (est : estado_simples) (coluna : str)
    : option estado_simples :=
  let col_data := dropna (coluna_de chunk coluna) in
  if truthy col_data then
    let items_exploded := concat (map (fun v => parse_multi_valor (Some v)) col_data) in
    if truthy items_exploded then
      match dict_get (w_contadores est) coluna with
      | Some c =>
          Some {| w_contadores := dict_set (w_contadores est) coluna (counter_update c items_exploded);
                  w_col_data := true; w_items_exploded := true |}
      | None => None
      end
    else Some {| w_contadores := w_contadores est; w_col_data := true; w_items_exploded := true |}
  else Some {| w_contadores := w_contadores est; w_col_data := true;
               w_items_exploded := w_items_exploded est |}.

(** One iteration of the chunk loop, ending in
    [del chunk, col_data, items_exploded]. *)
Definition processa_chunk (colunas_analise_existentes : list str)
    (est : estado_simples) (chunk : list linha) : option estado_simples :=
  match foldM (conta_coluna chunk) colunas_analise_existentes est with
  | Some est' =>
      if w_col_data est' && w_items_exploded est'
      then Some {| w_contadores := w_contadores est'; w_col_data := false; w_items_exploded := false |}
      else None
  | None => None
  end.

(** Lines 135-151, with the warnings logged on the way. *)
Definition resultados_finais (colunas_analise_existentes : list str) (est : estado_simples)
    : option (list evento * dict dados_simples) :=
  foldM
    (fun (acc : list evento * dict dados_simples) coluna =>
       match dict_get (w_contadores est) coluna with
       | Some contador =>
           if negb (truthy contador)
           then Some (fst acc ++ [AvisoColunaSemValores coluna],
                      dict_set (snd acc) coluna {| s_contagens := []; s_total_ocorrencias := 0 |})
           else
             let series_contagem := sort_values_desc contador in
             Some (fst acc,
                   dict_set (snd acc) coluna
                     {| s_contagens := series_contagem; s_total_ocorrencias := soma series_contagem |})
       | None => None
       end)
    colunas_analise_existentes ([], []).

(** [analisar_frequencias(caminho_csv, colunas_analise)] for a file that
    exists and whose header can be read. *)
Definition analisar_frequencias (chunksize : positive) (csv : fonte) (colunas_analise : list str)
    : list evento * option (dict dados_simples) :=
  let colunas_analise_existentes :=
    filter (fun col => pertence col (colunas_presentes csv)) colunas_analise in
  let registro :=
    if (length colunas_analise_existentes <? length colunas_analise)%nat
    then [AvisoColunasAusentes] else [] in
  if negb (truthy colunas_analise_existentes) then (registro ++ [ErroNenhumaColuna], None)
  else
    match foldM (processa_chunk colunas_analise_existentes)
                (read_csv_chunks chunksize (linhas csv))
                {| w_contadores := dict_de colunas_analise ([] : Counter);
                   w_col_data := false; w_items_exploded := false |} with
    | Some est =>
        match resultados_finais colunas_analise_existentes est with
        | Some (avisos, res) => (registro ++ avisos, Some res)
        | None => (registro ++ [ErroInesperado], None)
        end
    | None => (registro ++ [ErroInesperado], None)
    end.

End AnaliseOutput.

(* ===================================================================== *)
(** * Basic facts on text and dicts                                      *)
(* ===================================================================== *)

Section FatosBasicos.

Lemma str_eqb_eq (a b : str) : str_eqb a b = true <-> a = b.
Proof.
  revert b. induction a as [|x a IH]; intros [|y b]; simpl; split; intros H;
    try reflexivity; try discriminate.
  - apply andb_true_iff in H as [Hx Hab].
    apply Ascii.eqb_eq in Hx. apply IH in Hab. congruence.
  - injection H as -> ->. apply andb_true_iff. split.
    + apply Ascii.eqb_refl.
    + apply IH. reflexivity.
Qed.

Lemma str_eqb_refl (a : str) : str_eqb a a = true.
Proof. apply str_eqb_eq. reflexivity. Qed.

Lemma str_eqb_neq (a b : str) : str_eqb a b = false <-> a <> b.
Proof.
  split.
  - intros H E. apply str_eqb_eq in E. congruence.
  - intros H. destruct (str_eqb a b) eqn:E; [|reflexivity].
    apply str_eqb_eq in E. contradiction.
Qed.

Lemma pertence_In (k : str) (l : list str) : pertence k l = true <-> In k l.
Proof.
  unfold pertence. rewrite existsb_exists. split.
  - intros [x [Hx E]]. apply str_eqb_eq in E. subst. exact Hx.
  - intros H. exists k. split; [exact H | apply str_eqb_refl].
Qed.

Lemma pertence_not_In (k : str) (l : list str) : pertence k l = false <-> ~ In k l.
Proof.
  split.
  - intros H1 H2. apply pertence_In in H2. congruence.
  - intros H. destruct (pertence k l) eqn:E; [|reflexivity].
    apply pertence_In in E. contradiction.
Qed.

Context {V : Type}.

Lemma dict_get_set_eq (d : dict V) (k : str) (v : V) :
  dict_get (dict_set d k v) k = Some v.
Proof.
  induction d as [|[k' v'] d IH]; simpl.
  - rewrite str_eqb_refl. reflexivity.
  - destruct (str_eqb k' k) eqn:E; simpl; rewrite E; [reflexivity | exact IH].
Qed.

Lemma dict_get_set_neq (d : dict V) (k k' : str) (v : V) :
  k <> k' -> dict_get (dict_set d k v) k' = dict_get d k'.
Proof.
  intros Hk. induction d as [|[k0 v0] d IH]; simpl.
  - apply str_eqb_neq in Hk. rewrite Hk. reflexivity.
  - destruct (str_eqb k0 k) eqn:E; simpl.
    + apply str_eqb_eq in E. subst k0.
      apply str_eqb_neq in Hk. rewrite Hk. reflexivity.
    + destruct (str_eqb k0 k'); [reflexivity | exact IH].
Qed.

(** A dict built by assigning [g k] to every key [k] of a list. *)
Lemma dict_get_fold_set (g : str -> V) (ks : list str) (d0 : dict V) (k : str) :
  dict_get (fold_left (fun d c => dict_set d c (g c)) ks d0) k =
  if pertence k ks then Some (g k) else dict_get d0 k.
Proof.
  revert d0. induction ks as [|c ks IH]; intros d0; simpl; [reflexivity|].
  rewrite IH. unfold pertence in *.
  destruct (str_eqb k c) eqn:E; simpl.
  - apply str_eqb_eq in E. subst c.
    rewrite dict_get_set_eq. destruct (existsb (str_eqb k) ks); reflexivity.
  - apply str_eqb_neq in E.
    rewrite dict_get_set_neq by congruence. reflexivity.
Qed.

Lemma dict_get_dict_de (ks : list str) (v : V) (k : str) :
  dict_get (dict_de ks v) k = if pertence k ks then Some v else None.
Proof. unfold dict_de. apply (dict_get_fold_set (fun _ => v)). Qed.

End FatosBasicos.

Lemma filter_vazio_se_nenhum {A} (f : A -> bool) (l : list A) :
  (forall x, In x l -> f x = false) -> filter f l = [].
Proof.
  induction l as [|x l IH]; intros H; simpl; [reflexivity|].
  rewrite (H x (or_introl eq_refl)). apply IH. intros y Hy. apply H. right. exact Hy.
Qed.

Lemma filter_truthy_se_algum {A} (f : A -> bool) (l : list A) (x : A) :
  In x l -> f x = true -> truthy (filter f l) = true.
Proof.
  intros Hx Hf. assert (Hin : In x (filter f l)) by (apply filter_In; split; assumption).
  destruct (filter f l); [destruct Hin | reflexivity].
Qed.

(* ===================================================================== *)
(** * Missing columns (error handling of the scans)                      *)
(* ===================================================================== *)

Definition X_ : str := py "X".
Definition Y_ : str := py "Y".
Definition F_ : str := py "F".

(** Source with header [X] and the three rows of the accumulator
    scenario. *)
Definition fonte_cenario : fonte :=
  {| colunas_presentes := [X_];
     linhas := [[(X_, py "{A, B}")]; [(X_, py "{A}")]; [(X_, py "{SIGILOSO}")]] |}.

(** C8. When none of the requested columns is in the header, the scan of
    gerar_relatorio_analise_cnj.py logs "no analysis column" and returns
    None, and so does the scan of analise_output.py (after its warning
    on missing columns): no result, not even a partial one. *)
Theorem C8_nenhuma_coluna_de_analise
    (chunksize : positive) (csv : fonte) (colunas_analise : list str)
    (filtrar : bool) (coluna_filtro_ente : option str) (palavras : list str) :
  (forall col, In col colunas_analise -> ~ In col (colunas_presentes csv)) ->
  GerarRelatorio.analisar_frequencias chunksize csv colunas_analise filtrar coluna_filtro_ente palavras
    = ([ErroNenhumaColuna], None)
  /\ AnaliseOutput.analisar_frequencias chunksize csv colunas_analise
    = ((if truthy colunas_analise then [AvisoColunasAusentes] else []) ++ [ErroNenhumaColuna], None).
Proof.
  intros H.
  assert (E : filter (fun col => pertence col (colunas_presentes csv)) colunas_analise = []).
  { apply filter_vazio_se_nenhum. intros x Hx. apply pertence_not_In. apply H. exact Hx. }
  split.
  - unfold GerarRelatorio.analisar_frequencias. rewrite E. reflexivity.
  - unfold AnaliseOutput.analisar_frequencias. rewrite E. simpl.
    destruct colunas_analise; reflexivity.
Qed.

Lemma C8_nenhuma_coluna_de_analise_witness :
  GerarRelatorio.analisar_frequencias 2 fonte_cenario [Y_] true (Some X_) [py "A"]
    = ([ErroNenhumaColuna], None)
  /\ AnaliseOutput.analisar_frequencias 2 fonte_cenario [Y_]
    = ([AvisoColunasAusentes; ErroNenhumaColuna], None).
Proof.
  apply (C8_nenhuma_coluna_de_analise 2 fonte_cenario [Y_] true (Some X_) [py "A"]).
  intros col [<- | []]. simpl. intros [E | []]. discriminate E.
Defined.

(** A completed scan of gerar_relatorio_analise_cnj.py or of
    analise_output_sus.py: the function returned [res]. *)
Definition varredura_completa (chunksize : positive) (csv : fonte) (colunas_analise : list str)
    (res : dict dados_contagem) : Prop :=
  (exists filtrar filtro palavras registro,
      GerarRelatorio.analisar_frequencias chunksize csv colunas_analise filtrar filtro palavras
      = (registro, Some res))
  \/ (exists natjur palavras registro,
      AnaliseOutputSus.analisar_frequencias_entes_publicos chunksize csv colunas_analise natjur palavras
      = (registro, Some res)).

Definition existentes_em (csv : fonte) (colunas : list str) : list str :=
  filter (fun col => pertence col (colunas_presentes csv)) colunas.

Lemma com_erro_inesperado_Some registro r registro' res :
  GerarRelatorio.com_erro_inesperado registro r = (registro', Some res) -> r = Some res.
Proof.
  unfold GerarRelatorio.com_erro_inesperado. destruct r; intros H; inversion H. reflexivity.
Qed.

(** The filter column in force, when the function returns a result. *)
Definition filtro_ativo (csv : fonte) (filtrar : bool) (filtro : option str) : option str :=
  if filtrar then
    match filtro with
    | Some f => if pertence f (colunas_presentes csv) then Some f else None
    | None => None
    end
  else None.

Lemma gerar_analisar_varre chunksize csv cols filtrar filtro palavras registro res :
  GerarRelatorio.analisar_frequencias chunksize csv cols filtrar filtro palavras = (registro, Some res) ->
  GerarRelatorio.varre chunksize csv cols (existentes_em csv cols)
                       (filtro_ativo csv filtrar filtro) palavras = Some res.
Proof.
  unfold GerarRelatorio.analisar_frequencias, filtro_ativo. fold (existentes_em csv cols).
  destruct (negb (truthy (existentes_em csv cols))); [discriminate|].
  destruct filtrar; cbn [andb negb].
  - destruct filtro as [f|].
    + destruct (truthy f); destruct (pertence f (colunas_presentes csv)) eqn:Ef;
        cbn [andb negb]; try rewrite Ef; try discriminate;
        apply com_erro_inesperado_Some.
    + discriminate.
  - apply com_erro_inesperado_Some.
Qed.

Lemma gerar_varre_Some chunksize csv cols fl palavras res :
  GerarRelatorio.varre chunksize csv cols (existentes_em csv cols) fl palavras = Some res ->
  exists lidas est,
    foldM (GerarRelatorio.processa_chunk fl palavras lidas (existentes_em csv cols))
          (read_csv_chunks chunksize (linhas csv))
          (estado_inicial (existentes_em csv cols)) = Some est
    /\ res = GerarRelatorio.resultados_finais cols (existentes_em csv cols) est.
Proof.
  unfold GerarRelatorio.varre. intros H.
  match type of H with
  | match foldM (GerarRelatorio.processa_chunk _ _ ?l _) _ _ with _ => _ end = _ => exists l
  end.
  destruct (foldM _ _ _) as [est|]; [|discriminate].
  exists est. split; [reflexivity|]. congruence.
Qed.

(** What a returned result of gerar_relatorio_analise_cnj.py is made of. *)
Lemma gerar_analisar_Some chunksize csv cols filtrar filtro palavras registro res :
  GerarRelatorio.analisar_frequencias chunksize csv cols filtrar filtro palavras = (registro, Some res) ->
  exists fl lidas est,
    foldM (GerarRelatorio.processa_chunk fl palavras lidas (existentes_em csv cols))
          (read_csv_chunks chunksize (linhas csv))
          (estado_inicial (existentes_em csv cols)) = Some est
    /\ res = GerarRelatorio.resultados_finais cols (existentes_em csv cols) est.
Proof.
  unfold GerarRelatorio.analisar_frequencias. fold (existentes_em csv cols).
  destruct (negb (truthy (existentes_em csv cols))); [discriminate|].
  set (existe := match filtro with
                 | Some f => if truthy f then pertence f (colunas_presentes csv) else true
                 | None => true end).
  assert (Hvarre : forall fl reg,
             GerarRelatorio.com_erro_inesperado reg
               (GerarRelatorio.varre chunksize csv cols (existentes_em csv cols) fl palavras)
             = (registro, Some res) ->
             exists fl lidas est,
               foldM (GerarRelatorio.processa_chunk fl palavras lidas (existentes_em csv cols))
                     (read_csv_chunks chunksize (linhas csv))
                     (estado_inicial (existentes_em csv cols)) = Some est
               /\ res = GerarRelatorio.resultados_finais cols (existentes_em csv cols) est).
  { intros fl reg H. apply com_erro_inesperado_Some in H.
    unfold GerarRelatorio.varre in H.
    match type of H with
    | match foldM (GerarRelatorio.processa_chunk _ _ ?l _) _ _ with _ => _ end = _ =>
        exists fl, l
    end.
    destruct (foldM _ _ _) as [est|]; [|discriminate].
    exists est. split; [reflexivity|]. congruence. }
  destruct ((if filtrar && negb existe then false else filtrar) && existe).
  - destruct filtro as [f|]; [|discriminate].
    destruct (pertence f (colunas_presentes csv)); [|discriminate].
    apply Hvarre.
  - apply Hvarre.
Qed.

Lemma foldM_ext {S A} (f g : S -> A -> option S) (l : list A) (s : S) :
  (forall s a, f s a = g s a) -> foldM f l s = foldM g l s.
Proof.
  intros H. revert s. induction l as [|a l IH]; intros s; simpl; [reflexivity|].
  rewrite H. destruct (g s a); [apply IH | reflexivity].
Qed.

(** A dict built by assigning [h k] to every key, failing when [h]
    fails. *)
Lemma dict_get_foldM_set {V} (h : str -> option V) (ks : list str) (d0 res : dict V) (k : str) :
  foldM (fun d c => match h c with Some v => Some (dict_set d c v) | None => None end) ks d0
    = Some res ->
  dict_get res k = if pertence k ks then h k else dict_get d0 k.
Proof.
  revert d0. induction ks as [|c ks IH]; intros d0; simpl.
  - intros H. injection H as <-. reflexivity.
  - destruct (h c) as [v|] eqn:Hc; [|discriminate].
    intros H. rewrite (IH _ H). unfold pertence.
    destruct (str_eqb k c) eqn:E; simpl.
    + apply str_eqb_eq in E. subst c.
      rewrite dict_get_set_eq. destruct (existsb (str_eqb k) ks); congruence.
    + apply str_eqb_neq in E. rewrite dict_get_set_neq by congruence. reflexivity.
Qed.

(** The value that analise_output_sus.py stores for a column. *)
Definition sus_entrada (presentes : list str) (est : estado) (coluna : str) : option dados_contagem :=
  if negb (pertence coluna presentes) then Some dados_vazios
  else match dict_get (v_contadores est) coluna, dict_get (v_contagem_sigiloso est) coluna with
       | Some contador, Some sigilosos => Some (finaliza contador sigilosos)
       | _, _ => None
       end.

Lemma sus_resultados_finais_get cols presentes est res col :
  AnaliseOutputSus.resultados_finais cols presentes est = Some res ->
  In col cols ->
  dict_get res col = sus_entrada presentes est col.
Proof.
  intros H Hin. unfold AnaliseOutputSus.resultados_finais in H.
  rewrite (foldM_ext _ (fun d c => match sus_entrada presentes est c with
                                   | Some v => Some (dict_set d c v)
                                   | None => None end)) in H.
  - rewrite (dict_get_foldM_set _ _ _ _ col H).
    apply pertence_In in Hin. rewrite Hin. reflexivity.
  - intros s a. unfold sus_entrada.
    destruct (negb (pertence a presentes)); [reflexivity|].
    destruct (dict_get (v_contadores est) a); [|reflexivity].
    destruct (dict_get (v_contagem_sigiloso est) a); reflexivity.
Qed.

(** The final loop of analise_output_sus.py reached its end, so no
    column failed. *)
Lemma sus_entrada_Some cols presentes est res col :
  AnaliseOutputSus.resultados_finais cols presentes est = Some res ->
  In col cols ->
  exists d, sus_entrada presentes est col = Some d.
Proof.
  unfold AnaliseOutputSus.resultados_finais.
  generalize (@nil (str * dados_contagem)).
  induction cols as [|c cs IH]; intros d0 H Hin; [destruct Hin|].
  simpl in H. destruct Hin as [-> | Hin].
  - unfold sus_entrada.
    destruct (negb (pertence col presentes)); [eexists; reflexivity|].
    destruct (dict_get (v_contadores est) col); [|discriminate].
    destruct (dict_get (v_contagem_sigiloso est) col); [|discriminate].
    eexists; reflexivity.
  - match type of H with match ?x with _ => _ end = _ => destruct x; [|discriminate] end.
    eapply IH; eassumption.
Qed.

(** What a returned result of analise_output_sus.py is made of. *)
Lemma sus_analisar_Some chunksize csv cols natjur palavras registro res :
  AnaliseOutputSus.analisar_frequencias_entes_publicos chunksize csv cols natjur palavras
    = (registro, Some res) ->
  exists lidas est,
    foldM (AnaliseOutputSus.processa_chunk natjur palavras lidas cols)
          (read_csv_chunks chunksize (linhas csv))
          (estado_inicial cols) = Some est
    /\ AnaliseOutputSus.resultados_finais cols (colunas_presentes csv) est = Some res.
Proof.
  unfold AnaliseOutputSus.analisar_frequencias_entes_publicos.
  match goal with |- (if ?c then _ else _) = _ -> _ => destruct c; [discriminate|] end.
  match goal with
  | |- match foldM (AnaliseOutputSus.processa_chunk _ _ ?l _) _ _ with _ => _ end = _ -> _ =>
      exists l
  end.
  destruct (foldM _ _ _) as [est|]; [|discriminate].
  exists est. split; [reflexivity|].
  destruct (AnaliseOutputSus.resultados_finais cols (colunas_presentes csv) est); [|discriminate].
  congruence.
Qed.

Lemma existentes_em_In csv cols col :
  In col (existentes_em csv cols) <-> In col cols /\ In col (colunas_presentes csv).
Proof.
  unfold existentes_em. rewrite filter_In, pertence_In. reflexivity.
Qed.

(** C9 (amended). In a completed scan of gerar_relatorio_analise_cnj.py
    or analise_output_sus.py every requested column has an entry in the
    result, and a requested column that is absent from the header has
    the explicit empty entry: empty distribution, total 0, confidential
    count 0. *)
Theorem C9_coluna_ausente_tem_entrada_vazia
    (chunksize : positive) (csv : fonte) (colunas_analise : list str)
    (res : dict dados_contagem) (coluna : str) :
  varredura_completa chunksize csv colunas_analise res ->
  In coluna colunas_analise ->
  (exists d, dict_get res coluna = Some d)
  /\ (~ In coluna (colunas_presentes csv) -> dict_get res coluna = Some dados_vazios).
Proof.
  intros [(filtrar & filtro & palavras & registro & H) | (natjur & palavras & registro & H)] Hin.
  - apply gerar_analisar_Some in H as (fl & lidas & est & _ & ->).
    unfold GerarRelatorio.resultados_finais.
    rewrite (dict_get_fold_set
               (fun c => if negb (pertence c (existentes_em csv colunas_analise)) then dados_vazios
                         else finaliza (dict_get_ou (v_contadores est) c [])
                                       (dict_get_ou (v_contagem_sigiloso est) c 0))).
    apply pertence_In in Hin. rewrite Hin. split; [eexists; reflexivity|].
    intros Hau.
    assert (E : pertence coluna (existentes_em csv colunas_analise) = false).
    { apply pertence_not_In. rewrite existentes_em_In. tauto. }
    rewrite E. reflexivity.
  - apply sus_analisar_Some in H as (lidas & est & _ & H).
    pose proof (sus_resultados_finais_get _ _ _ _ coluna H Hin) as Hg.
    pose proof (sus_entrada_Some _ _ _ _ coluna H Hin) as Hs.
    rewrite Hg. split; [exact Hs|].
    intros Hau. unfold sus_entrada.
    apply pertence_not_In in Hau. rewrite Hau. reflexivity.
Qed.

Lemma C9_coluna_ausente_tem_entrada_vazia_witness :
  (exists d,
      dict_get [(X_, {| contagens := Some [(py "A", 2); (py "B", 1)];
                        total_ocorrencias := 4; contagem_sigiloso := 1 |});
                (Y_, dados_vazios)] Y_ = Some d)
  /\ (~ In Y_ (colunas_presentes fonte_cenario) ->
      dict_get [(X_, {| contagens := Some [(py "A", 2); (py "B", 1)];
                        total_ocorrencias := 4; contagem_sigiloso := 1 |});
                (Y_, dados_vazios)] Y_ = Some dados_vazios).
Proof.
  apply (C9_coluna_ausente_tem_entrada_vazia 2 fonte_cenario [X_; Y_]).
  - left. exists false, None, [], []. vm_compute. reflexivity.
  - simpl. right. left. reflexivity.
Defined.

(** C9 as stated fails for analise_output.py: its result has entries
    only for the columns found in the header, so the requested column Y,
    absent from the header, has none although the scan succeeds. *)
Lemma C9_contraexemplo_analise_output :
  exists registro res,
    AnaliseOutput.analisar_frequencias 2 fonte_cenario [X_; Y_] = (registro, Some res)
    /\ In Y_ [X_; Y_]
    /\ ~ In Y_ (colunas_presentes fonte_cenario)
    /\ dict_get res Y_ = None.
Proof.
  eexists. eexists. split; [vm_compute; reflexivity|].
  split; [simpl; tauto|].
  split; [|vm_compute; reflexivity].
  simpl. intros [E | []]. discriminate E.
Qed.

(** C7 (amended). In gerar_relatorio_analise_cnj.py, when the filtered
    mode is requested, the (non-empty) filter column name is absent from
    the header and some requested column is present, the scan logs the
    missing filter column and then behaves as the scan without filter:
    same further log, same returned value. *)
Theorem C7_filtro_ausente_degrada
    (chunksize : positive) (csv : fonte) (colunas_analise : list str)
    (coluna_filtro_ente : str) (palavras : list str) :
  truthy coluna_filtro_ente = true ->
  ~ In coluna_filtro_ente (colunas_presentes csv) ->
  (exists col, In col colunas_analise /\ In col (colunas_presentes csv)) ->
  GerarRelatorio.analisar_frequencias chunksize csv colunas_analise true (Some coluna_filtro_ente) palavras
  = (ErroFiltroAusente
       :: fst (GerarRelatorio.analisar_frequencias chunksize csv colunas_analise false None []),
     snd (GerarRelatorio.analisar_frequencias chunksize csv colunas_analise false None [])).
Proof.
  intros Ht Hau (col & Hc & Hp).
  unfold GerarRelatorio.analisar_frequencias. fold (existentes_em csv colunas_analise).
  assert (Hex : truthy (existentes_em csv colunas_analise) = true).
  { assert (Hin : In col (existentes_em csv colunas_analise)) by (apply existentes_em_In; tauto).
    destruct (existentes_em csv colunas_analise); [destruct Hin | reflexivity]. }
  rewrite Hex, Ht. apply pertence_not_In in Hau. rewrite Hau. simpl.
  unfold GerarRelatorio.varre, GerarRelatorio.processa_chunk.
  destruct (foldM _ _ _); reflexivity.
Qed.

Lemma C7_filtro_ausente_degrada_witness :
  GerarRelatorio.analisar_frequencias 2 fonte_cenario [X_; Y_] true (Some F_) [py "A"]
  = (ErroFiltroAusente
       :: fst (GerarRelatorio.analisar_frequencias 2 fonte_cenario [X_; Y_] false None []),
     snd (GerarRelatorio.analisar_frequencias 2 fonte_cenario [X_; Y_] false None [])).
Proof.
  apply (C7_filtro_ausente_degrada 2 fonte_cenario [X_; Y_] F_ [py "A"]).
  - reflexivity.
  - simpl. intros [E | []]. discriminate E.
  - exists X_. simpl. split; left; reflexivity.
Defined.

(** C7 as stated fails for analise_output_sus.py: the filter column is
    essential there, and the scan returns None when it is absent even
    though the requested column X is present. *)
Lemma C7_contraexemplo_analise_output_sus :
  In X_ [X_] /\ In X_ (colunas_presentes fonte_cenario)
  /\ ~ In F_ (colunas_presentes fonte_cenario)
  /\ AnaliseOutputSus.analisar_frequencias_entes_publicos 2 fonte_cenario [X_] F_ [py "A"]
     = ([AvisoColunasAusentes; ErroColunasEssenciais], None).
Proof.
  split; [simpl; tauto|]. split; [simpl; tauto|].
  split; [|vm_compute; reflexivity].
  simpl. intros [E | []]. discriminate E.
Qed.

(* ===================================================================== *)
(** * The presentation table                                             *)
(* ===================================================================== *)

(** The percentage of a row: [contagem / total * 100] in binary64,
    shown with two decimals. *)
Definition porcento (contagem total : Z) : str :=
  Flutuante.formata_2f (Flutuante.vezes (Flutuante.truediv contagem total) Flutuante.cem)
  ++ py "%".

Lemma percentual_porcento contagem total :
  0 < total -> percentual contagem total = porcento contagem total.
Proof.
  intros H. unfold percentual, porcento.
  apply Z.ltb_lt in H. rewrite H. reflexivity.
Qed.

(** Dividing a positive count by itself gives exactly 1.0. *)
Lemma truediv_mesmo (z : Z) :
  0 < z -> Flutuante.truediv z z = S754_finite false 4503599627370496 (-52).
Proof.
  intros Hz. destruct z as [|p|p]; try lia.
  unfold Flutuante.truediv.
  assert (Hcore : SFdiv_core_binary Flutuante.prec Flutuante.emax (Z.abs (Z.pos p)) 0 (Z.abs (Z.pos p)) 0
                  = (2 ^ 53, -53, loc_Exact)).
  { unfold SFdiv_core_binary. simpl Z.abs.
    replace (Zdigits2 (Z.pos p) + 0 - (Zdigits2 (Z.pos p) + 0)) with 0 by lia.
    change (Z.min (fexp Flutuante.prec Flutuante.emax 0) (0 - 0)) with (-53).
    change (0 - 0 - -53) with 53.
    cbv beta iota zeta.
    rewrite Z.shiftl_mul_pow2 by lia.
    assert (Hd : Z.div_eucl (Z.pos p * 2 ^ 53) (Z.pos p) = (2 ^ 53, 0)).
    { pose proof (Z.div_mul (2 ^ 53) (Z.pos p) ltac:(lia)) as Hq.
      pose proof (Z.mod_mul (2 ^ 53) (Z.pos p) ltac:(lia)) as Hr.
      rewrite Z.mul_comm in Hq, Hr.
      unfold Z.div, Z.modulo in Hq, Hr.
      destruct (Z.div_eucl (Z.pos p * 2 ^ 53) (Z.pos p)) as [q r].
      cbn [fst snd] in Hq, Hr. rewrite Hq, Hr. reflexivity. }
    rewrite Hd.
    unfold new_location, new_location_even, new_location_odd.
    destruct (Z.even (Z.pos p)); reflexivity. }
  rewrite Hcore. vm_compute. reflexivity.
Qed.

Lemma porcento_mesmo (z : Z) : 0 < z -> porcento z z = py "100.00%".
Proof.
  intros Hz. unfold porcento. rewrite (truediv_mesmo z Hz). vm_compute. reflexivity.
Qed.

Lemma head_nil (n : Z) : head n [] = [].
Proof.
  unfold head. destruct (0 <=? n); apply firstn_nil.
Qed.

(** The two copies of [formatar_tabela_analise] agree: the extra
    [or contagem_sigiloso > 0] of gerar_relatorio_analise_cnj.py holds
    only when the Sigiloso row has already made the table non-empty. *)
Lemma formatar_tabela_analise_copias (dados : dados_contagem) (top_n : Z) :
  GerarRelatorio.formatar_tabela_analise dados top_n
  = RelatorioExport.formatar_tabela_analise dados top_n.
Proof.
  unfold GerarRelatorio.formatar_tabela_analise, RelatorioExport.formatar_tabela_analise.
  destruct (contagens dados) as [c|]; [|reflexivity].
  destruct (total_ocorrencias dados =? 0); [reflexivity|].
  cbv zeta.
  set (df1 := if (_ && _)%bool then _ else _).
  destruct (0 <? contagem_sigiloso dados) eqn:Hs.
  - destruct df1; reflexivity.
  - rewrite orb_false_r. reflexivity.
Qed.

(** C10. For a field result with an empty distribution and a positive
    confidential count (the total equals that count), both copies of
    formatar_tabela_analise return exactly two rows: the Sigiloso row
    with the confidential count and "100.00%", then the TOTAL GERAL
    row; no item row and no Outros row. *)
Theorem C10_apenas_sigiloso (sigiloso top_n : Z) :
  0 < sigiloso ->
  RelatorioExport.formatar_tabela_analise
    {| contagens := Some []; total_ocorrencias := sigiloso; contagem_sigiloso := sigiloso |} top_n
  = Some [ {| Item := py "Sigiloso"; Contagem := sigiloso; Percentual := py "100.00%" |};
           {| Item := py "TOTAL GERAL"; Contagem := sigiloso; Percentual := py "100.00%" |} ]
  /\ GerarRelatorio.formatar_tabela_analise
    {| contagens := Some []; total_ocorrencias := sigiloso; contagem_sigiloso := sigiloso |} top_n
  = Some [ {| Item := py "Sigiloso"; Contagem := sigiloso; Percentual := py "100.00%" |};
           {| Item := py "TOTAL GERAL"; Contagem := sigiloso; Percentual := py "100.00%" |} ].
Proof.
  intros Hs. rewrite formatar_tabela_analise_copias.
  assert (E : RelatorioExport.formatar_tabela_analise
    {| contagens := Some []; total_ocorrencias := sigiloso; contagem_sigiloso := sigiloso |} top_n
  = Some [ {| Item := py "Sigiloso"; Contagem := sigiloso; Percentual := py "100.00%" |};
           {| Item := py "TOTAL GERAL"; Contagem := sigiloso; Percentual := py "100.00%" |} ]).
  { unfold RelatorioExport.formatar_tabela_analise. cbn [contagens total_ocorrencias contagem_sigiloso].
    assert (E0 : (sigiloso =? 0) = false) by (apply Z.eqb_neq; lia).
    assert (E1 : (0 <? sigiloso) = true) by (apply Z.ltb_lt; lia).
    rewrite E0, head_nil. cbv zeta.
    replace (0 <? sigiloso - sigiloso - soma []) with false
      by (symmetry; apply Z.ltb_ge; unfold soma; simpl; lia).
    rewrite andb_false_r, E1. cbn [linhas_top_n map app truthy].
    unfold linha_sigiloso, linha_total.
    rewrite (percentual_porcento _ _ Hs), (porcento_mesmo _ Hs). reflexivity. }
  split; exact E.
Qed.

Lemma C10_apenas_sigiloso_witness :
  RelatorioExport.formatar_tabela_analise
    {| contagens := Some []; total_ocorrencias := 7; contagem_sigiloso := 7 |} 10
  = Some [ {| Item := py "Sigiloso"; Contagem := 7; Percentual := py "100.00%" |};
           {| Item := py "TOTAL GERAL"; Contagem := 7; Percentual := py "100.00%" |} ]
  /\ GerarRelatorio.formatar_tabela_analise
    {| contagens := Some []; total_ocorrencias := 7; contagem_sigiloso := 7 |} 10
  = Some [ {| Item := py "Sigiloso"; Contagem := 7; Percentual := py "100.00%" |};
           {| Item := py "TOTAL GERAL"; Contagem := 7; Percentual := py "100.00%" |} ].
Proof.
  apply (C10_apenas_sigiloso 7 10). lia.
Defined.

Lemma linhas_top_n_porcento (s : Series) (total : Z) :
  0 < total ->
  Forall (fun l => Percentual l = porcento (Contagem l) total) (linhas_top_n s total).
Proof.
  intros Ht. unfold linhas_top_n. apply Forall_map. apply Forall_forall.
  intros ic _. cbn [Percentual Contagem]. apply percentual_porcento. exact Ht.
Qed.

Lemma soma_positiva (c : Series) :
  c <> [] -> Forall (fun ic => 0 < snd ic) c -> 0 < soma c.
Proof.
  unfold soma. intros Hne Hpos. destruct c as [|x c]; [congruence|].
  clear Hne. revert x Hpos. induction c as [|y c IH]; intros x Hpos; simpl.
  - inversion Hpos; subst. lia.
  - inversion Hpos as [|? ? Hx Hrest]; subst.
    specialize (IH y Hrest). simpl in IH. lia.
Qed.

(** When [head] keeps nothing of a non-empty series, [top_n] is below
    its length.  *)
Lemma head_vazio (n : Z) (c : Series) :
  c <> [] -> head n c = [] -> n < Z.of_nat (length c).
Proof.
  intros Hne H. unfold head in H.
  destruct (0 <=? n) eqn:E.
  - apply Z.leb_le in E.
    destruct c as [|x c]; [congruence|].
    destruct (Z.to_nat n) eqn:En; [|discriminate H].
    simpl length. lia.
  - apply Z.leb_gt in E. lia.
Qed.

(** The table of the summarizer scenario: {A:2, B:1}, confidential 1,
    total 4. *)
Definition dados_cenario : dados_contagem :=
  {| contagens := Some [(py "A", 2); (py "B", 1)];
     total_ocorrencias := 4; contagem_sigiloso := 1 |}.

(** C3. For a field result with a positive total, every table returned
    by formatar_tabela_analise (both copies agree) ends with the row
    TOTAL GERAL, total, "100.00%", and every row before it (item rows,
    Outros, Sigiloso) has the percentage of its own count over the
    grand total; for a result of a scan (counts positive, distribution
    plus confidential count equal to the total) a table is always
    returned.  On {A:2, B:1}, confidential 1, total 4, top_n 1, the rows
    are A 2 50.00%, Outros (1 itens) 1 25.00%, Sigiloso 1 25.00%,
    TOTAL GERAL 4 100.00%. *)
Theorem C3_percentuais_sobre_total_geral
    (dados : dados_contagem) (top_n : Z) (c : Series) :
  0 < total_ocorrencias dados ->
  contagens dados = Some c ->
  (forall tabela,
      RelatorioExport.formatar_tabela_analise dados top_n = Some tabela ->
      exists linhas,
        tabela = linhas ++ [ {| Item := py "TOTAL GERAL";
                                Contagem := total_ocorrencias dados;
                                Percentual := py "100.00%" |} ]
        /\ Forall (fun l => Percentual l = porcento (Contagem l) (total_ocorrencias dados)) linhas)
  /\ (soma c + contagem_sigiloso dados = total_ocorrencias dados ->
      0 <= contagem_sigiloso dados ->
      Forall (fun ic => 0 < snd ic) c ->
      RelatorioExport.formatar_tabela_analise dados top_n <> None)
  /\ GerarRelatorio.formatar_tabela_analise dados top_n
     = RelatorioExport.formatar_tabela_analise dados top_n
  /\ RelatorioExport.formatar_tabela_analise dados_cenario 1
     = Some [ {| Item := py "A"; Contagem := 2; Percentual := py "50.00%" |};
              {| Item := py "Outros (1 itens)"; Contagem := 1; Percentual := py "25.00%" |};
              {| Item := py "Sigiloso"; Contagem := 1; Percentual := py "25.00%" |};
              {| Item := py "TOTAL GERAL"; Contagem := 4; Percentual := py "100.00%" |} ].
Proof.
  intros Ht Hc.
  split; [|split; [|split; [apply formatar_tabela_analise_copias | vm_compute; reflexivity]]].
  - intros tabela. unfold RelatorioExport.formatar_tabela_analise. rewrite Hc.
    replace (total_ocorrencias dados =? 0) with false by (symmetry; apply Z.eqb_neq; lia).
    cbv zeta.
    set (df0 := linhas_top_n (head top_n c) (total_ocorrencias dados)).
    assert (H0 : Forall (fun l => Percentual l = porcento (Contagem l) (total_ocorrencias dados)) df0)
      by (apply linhas_top_n_porcento; exact Ht).
    set (df1 := if (_ && _)%bool then _ else df0).
    assert (H1 : Forall (fun l => Percentual l = porcento (Contagem l) (total_ocorrencias dados)) df1).
    { unfold df1. destruct (_ && _)%bool; [|exact H0].
      apply Forall_app. split; [exact H0|]. constructor; [|constructor].
      cbn [linha_outros Percentual Contagem]. apply percentual_porcento. exact Ht. }
    set (df2 := if 0 <? contagem_sigiloso dados then _ else df1).
    assert (H2 : Forall (fun l => Percentual l = porcento (Contagem l) (total_ocorrencias dados)) df2).
    { unfold df2. destruct (0 <? contagem_sigiloso dados); [|exact H1].
      apply Forall_app. split; [exact H1|]. constructor; [|constructor].
      cbn [linha_sigiloso Percentual Contagem]. apply percentual_porcento. exact Ht. }
    clearbody df2. destruct df2 as [|l df2]; cbn [truthy]; [discriminate|].
    cbn [app truthy]. intros H. injection H as <-.
    exists (l :: df2). split; [reflexivity | exact H2].
  - intros Hsum Hsig Hpos. unfold RelatorioExport.formatar_tabela_analise. rewrite Hc.
    replace (total_ocorrencias dados =? 0) with false by (symmetry; apply Z.eqb_neq; lia).
    cbv zeta.
    assert (Hne : forall (df : list linha_tabela) x, truthy (df ++ [x]) = true)
      by (intros [|? ?] ?; reflexivity).
    assert (Hfim : forall df : list linha_tabela,
               truthy df = true ->
               (if truthy (if truthy df then df ++ [linha_total (total_ocorrencias dados)] else df)
                then Some (if truthy df then df ++ [linha_total (total_ocorrencias dados)] else df)
                else None) <> None).
    { intros df Hdf. rewrite Hdf, Hne. discriminate. }
    apply Hfim.
    destruct (0 <? contagem_sigiloso dados) eqn:Es; [apply Hne|].
    apply Z.ltb_ge in Es. assert (Hs0 : contagem_sigiloso dados = 0) by lia.
    assert (Hcne : c <> []).
    { intros ->. unfold soma in Hsum. simpl in Hsum. lia. }
    destruct (head top_n c) as [|x h] eqn:Eh.
    + pose proof (head_vazio _ _ Hcne Eh) as Hlt.
      pose proof (soma_positiva _ Hcne Hpos) as Hsp.
      replace (top_n <? Z.of_nat (length c)) with true by (symmetry; apply Z.ltb_lt; lia).
      replace (0 <? total_ocorrencias dados - contagem_sigiloso dados - soma [])
        with true by (symmetry; apply Z.ltb_lt; unfold soma at 1; simpl; lia).
      apply Hne.
    + destruct (_ && _)%bool; [apply Hne | reflexivity].
Qed.

Lemma C3_percentuais_sobre_total_geral_witness :
  (forall tabela,
      RelatorioExport.formatar_tabela_analise dados_cenario 1 = Some tabela ->
      exists linhas,
        tabela = linhas ++ [ {| Item := py "TOTAL GERAL";
                                Contagem := total_ocorrencias dados_cenario;
                                Percentual := py "100.00%" |} ]
        /\ Forall (fun l => Percentual l = porcento (Contagem l) (total_ocorrencias dados_cenario))
                  linhas)
  /\ (soma [(py "A", 2); (py "B", 1)] + contagem_sigiloso dados_cenario
      = total_ocorrencias dados_cenario ->
      0 <= contagem_sigiloso dados_cenario ->
      Forall (fun ic => 0 < snd ic) [(py "A", 2); (py "B", 1)] ->
      RelatorioExport.formatar_tabela_analise dados_cenario 1 <> None)
  /\ GerarRelatorio.formatar_tabela_analise dados_cenario 1
     = RelatorioExport.formatar_tabela_analise dados_cenario 1
  /\ RelatorioExport.formatar_tabela_analise dados_cenario 1
     = Some [ {| Item := py "A"; Contagem := 2; Percentual := py "50.00%" |};
              {| Item := py "Outros (1 itens)"; Contagem := 1; Percentual := py "25.00%" |};
              {| Item := py "Sigiloso"; Contagem := 1; Percentual := py "25.00%" |};
              {| Item := py "TOTAL GERAL"; Contagem := 4; Percentual := py "100.00%" |} ].
Proof.
  apply (C3_percentuais_sobre_total_geral dados_cenario 1 [(py "A", 2); (py "B", 1)]).
  - simpl. lia.
  - reflexivity.
Defined.

(* ===================================================================== *)
(** * The entity classifier                                              *)
(* ===================================================================== *)

Lemma prefixo_spec (p s : str) : prefixo p s = true <-> exists suf, s = p ++ suf.
Proof.
  revert s. induction p as [|x p IH]; intros s; simpl.
  - split; [intros _; exists s; reflexivity | reflexivity].
  - destruct s as [|y s].
    + split; [discriminate | intros [suf H]; discriminate H].
    + rewrite andb_true_iff, Ascii.eqb_eq, IH. split.
      * intros [-> [suf ->]]. exists suf. reflexivity.
      * intros [suf H]. injection H as -> ->. split; [reflexivity | exists suf; reflexivity].
Qed.

(** [sub in s] is substring containment. *)
Lemma contem_spec (sub s : str) :
  contem sub s = true <-> exists pre suf, s = pre ++ sub ++ suf.
Proof.
  induction s as [|y s IH].
  - simpl. rewrite orb_false_r, prefixo_spec. split.
    + intros [suf H]. exists [], suf. exact H.
    + intros [pre [suf H]]. destruct pre; [exists suf; exact H | discriminate H].
  - cbn [contem]. rewrite orb_true_iff, prefixo_spec, IH. split.
    + intros [[suf H] | [pre [suf H]]].
      * exists [], suf. exact H.
      * exists (y :: pre), suf. rewrite H. reflexivity.
    + intros [[|z pre] [suf H]].
      * left. exists suf. exact H.
      * right. injection H as -> H. exists pre, suf. exact H.
Qed.

(** C5. eh_ente_publico is true exactly when some token of the cell,
    uppercased, contains some keyword as a substring; it is false for a
    missing cell (and so for a cell without tokens or without a matching
    token).  With keywords MUNICIPIO and UNIAO, "{Autarquia Municipal}"
    gives false and "{Municipio de Exemplo}" gives true. *)
Theorem C5_ente_publico_por_substring (celula : option str) (palavras_chave : list str) :
  (eh_ente_publico celula palavras_chave = true <->
   exists natureza chave pre suf,
     In natureza (parse_multi_valor celula)
     /\ In chave palavras_chave
     /\ upper natureza = pre ++ chave ++ suf)
  /\ eh_ente_publico None palavras_chave = false
  /\ eh_ente_publico (Some (py "{Autarquia Municipal}")) [py "MUNICIPIO"; py "UNIAO"] = false
  /\ eh_ente_publico (Some (py "{Municipio de Exemplo}")) [py "MUNICIPIO"; py "UNIAO"] = true.
Proof.
  split; [|split; [reflexivity | split; vm_compute; reflexivity]].
  assert (Hex : forall l,
             existsb (fun natureza =>
                        existsb (fun chave => contem chave (upper natureza)) palavras_chave) l = true
             <-> exists natureza chave pre suf,
                 In natureza l /\ In chave palavras_chave /\ upper natureza = pre ++ chave ++ suf).
  { intros l. rewrite existsb_exists. split.
    - intros [natureza [Hn H]]. apply existsb_exists in H as [chave [Hk H]].
      apply contem_spec in H as [pre [suf H]]. exists natureza, chave, pre, suf. tauto.
    - intros (natureza & chave & pre & suf & Hn & Hk & H).
      exists natureza. split; [exact Hn|]. apply existsb_exists.
      exists chave. split; [exact Hk|]. apply contem_spec. exists pre, suf. exact H. }
  unfold eh_ente_publico. destruct celula as [v|].
  - destruct (parse_multi_valor (Some v)) as [|t l] eqn:E; cbn [truthy negb].
    + split; [discriminate|]. intros (natureza & _ & _ & _ & [] & _).
    + apply Hex.
  - split; [discriminate|]. intros (natureza & _ & _ & _ & [] & _).
Qed.

(** Substring, not token equality: MUNICIPAL is found inside a longer
    token. *)
Example eh_ente_publico_substring :
  eh_ente_publico (Some (py "{Autarquia Municipal}")) [py "MUNICIPAL"] = true
  /\ eh_ente_publico (Some (py "{Autarquia, Fundo}")) [py "AUTARQUIA MUNICIPAL"] = false.
Proof. split; vm_compute; reflexivity. Qed.

(* ===================================================================== *)
(** * Invariants of the chunk loop                                       *)
(* ===================================================================== *)

Lemma foldM_inv {S A} (I : S -> Prop) (f : S -> A -> option S) (l : list A) :
  (forall s a s', In a l -> I s -> f s a = Some s' -> I s') ->
  forall s s', I s -> foldM f l s = Some s' -> I s'.
Proof.
  induction l as [|a l IH]; intros Hf s s' Hs H; simpl in H.
  - injection H as <-. exact Hs.
  - destruct (f s a) as [s1|] eqn:E; [|discriminate].
    apply (IH (fun s0 a0 s0' Hin => Hf s0 a0 s0' (or_intror Hin)) s1 s'); [|exact H].
    apply (Hf s a s1); [left; reflexivity | exact Hs | exact E].
Qed.

Lemma dropna_In {A} (l : list (option A)) (x : A) : In x (dropna l) <-> In (Some x) l.
Proof.
  induction l as [|[y|] l IH]; simpl.
  - reflexivity.
  - rewrite IH. split; intros [H | H]; auto; left; congruence.
  - rewrite IH. split; [auto | intros [H | H]; [discriminate | exact H]].
Qed.

Lemma col_data_In (chunk : list linha) (coluna v : str) :
  In v (dropna (coluna_de chunk coluna)) <-> exists l, In l chunk /\ dict_get l coluna = Some v.
Proof.
  rewrite dropna_In. unfold coluna_de. rewrite in_map_iff.
  split; intros [l [H1 H2]]; exists l; auto.
Qed.

Lemma agrupa_In {A} (n k : nat) (atual ls chunk : list A) (x : A) :
  In chunk (agrupa n k atual ls) -> In x chunk -> In x atual \/ In x ls.
Proof.
  revert k atual. induction ls as [|l ls IH]; intros k atual Hc Hx; simpl in Hc.
  - destruct atual as [|a atual]; [destruct Hc|].
    destruct Hc as [<- | []]. left. apply in_rev. exact Hx.
  - destruct k as [|[|k']].
    + destruct Hc as [<- | Hc].
      * apply in_app_or in Hx as [Hx | [-> | []]];
          [left; apply in_rev; exact Hx | right; left; reflexivity].
      * destruct (IH _ _ Hc Hx) as [[] | H]. right. right. exact H.
    + destruct Hc as [<- | Hc].
      * apply in_app_or in Hx as [Hx | [-> | []]];
          [left; apply in_rev; exact Hx | right; left; reflexivity].
      * destruct (IH _ _ Hc Hx) as [[] | H]. right. right. exact H.
    + destruct (IH _ _ Hc Hx) as [[-> | H] | H].
      * right. left. reflexivity.
      * left. exact H.
      * right. right. exact H.
Qed.

(** Every row of every chunk is a row of the source. *)
Lemma read_csv_chunks_In (chunksize : positive) (ls chunk : list linha) (l : linha) :
  In chunk (read_csv_chunks chunksize ls) -> In l chunk -> In l ls.
Proof.
  unfold read_csv_chunks. destruct ls as [|l0 ls].
  - intros [<- | []] [].
  - intros Hc Hl. destruct (agrupa_In _ _ _ _ _ _ Hc Hl) as [[] | H]. exact H.
Qed.

(** Whether a row passes the filter in force ([None]: no filter). *)
Definition passa_linha (filtro : option str) (palavras : list str) (l : linha) : bool :=
  match filtro with
  | Some f => eh_ente_publico (dict_get l f) palavras
  | None => true
  end.

(** The rows that pass the filter. *)
Definition passa (filtro : option str) (palavras : list str) (ls : list linha) : list linha :=
  match filtro with
  | Some f => filter (fun l => eh_ente_publico (dict_get l f) palavras) ls
  | None => ls
  end.

Lemma passa_In (filtro : option str) (palavras : list str) (ls : list linha) (l : linha) :
  In l (passa filtro palavras ls) <-> In l ls /\ passa_linha filtro palavras l = true.
Proof.
  unfold passa, passa_linha. destruct filtro as [f|].
  - apply filter_In.
  - tauto.
Qed.

Lemma passa_incl (filtro : option str) (palavras : list str) (a b : list linha) :
  incl a b -> incl (passa filtro palavras a) (passa filtro palavras b).
Proof.
  intros H l Hl. apply passa_In in Hl as [Hl Hp]. apply passa_In. split; [apply H; exact Hl | exact Hp].
Qed.

Section Invariante.

(** A property of the two dicts of the loop state. *)
Variable P : dict Counter -> dict Z -> Prop.

Definition sobre (est : estado) : Prop := P (v_contadores est) (v_contagem_sigiloso est).

(** The rows whose tokens may be counted. *)
Variable linhas_fonte : list linha.

Definition item_de (coluna item : str) : Prop :=
  exists l v, In l linhas_fonte /\ dict_get l coluna = Some v
              /\ In item (parse_multi_valor (Some v)).

Hypothesis passo :
  forall coluna est item est',
    item_de coluna item -> sobre est -> conta_item coluna est item = Some est' -> sobre est'.

Lemma conta_coluna_inv (chunk : list linha) (coluna : str) (est est' : estado) :
  incl chunk linhas_fonte ->
  sobre est -> conta_coluna chunk est coluna = Some est' -> sobre est'.
Proof.
  intros Hincl Hs. unfold conta_coluna.
  destruct (truthy (dropna (coluna_de chunk coluna))); [|intros H; injection H as <-; exact Hs].
  apply foldM_inv; [|exact Hs].
  intros s lista s' Hin Hs1. apply in_map_iff in Hin as [v [<- Hv]].
  apply col_data_In in Hv as [l [Hl Hget]].
  apply foldM_inv; [|exact Hs1].
  intros s0 item s0' Hitem Hs0. apply passo; [|exact Hs0].
  exists l, v. split; [apply Hincl; exact Hl | split; assumption].
Qed.

Lemma colunas_inv (chunk : list linha) (lidas colunas : list str) (est est' : estado) :
  incl chunk linhas_fonte ->
  sobre est ->
  foldM (fun est coluna =>
           if negb (pertence coluna lidas) then Some est else conta_coluna chunk est coluna)
        colunas est = Some est' ->
  sobre est'.
Proof.
  intros Hincl. apply foldM_inv.
  intros s coluna s' _ Hs. destruct (negb (pertence coluna lidas)).
  - intros H; injection H as <-; exact Hs.
  - apply conta_coluna_inv; assumption.
Qed.

Lemma del_locais_inv (est est' : estado) : sobre est -> del_locais est = Some est' -> sobre est'.
Proof.
  unfold del_locais. destruct (_ && _)%bool; [|discriminate].
  intros Hs H. injection H as <-. exact Hs.
Qed.

Lemma gerar_processa_chunk_inv fl palavras lidas colunas (chunk : list linha) (est est' : estado) :
  incl (passa fl palavras chunk) linhas_fonte ->
  sobre est ->
  GerarRelatorio.processa_chunk fl palavras lidas colunas est chunk = Some est' ->
  sobre est'.
Proof.
  intros Hcp Hs. unfold GerarRelatorio.processa_chunk.
  set (cp := match fl with
             | Some f => filter (fun l => eh_ente_publico (dict_get l f) palavras) chunk
             | None => chunk
             end).
  change (incl cp linhas_fonte) in Hcp.
  destruct (negb (truthy cp)); [intros H; injection H as <-; exact Hs|].
  destruct (foldM _ colunas est) as [est1|] eqn:E; [|discriminate].
  apply del_locais_inv. eapply colunas_inv; eassumption.
Qed.

Lemma sus_processa_chunk_inv natjur palavras lidas colunas (chunk : list linha) (est est' : estado) :
  incl (passa (Some natjur) palavras chunk) linhas_fonte ->
  sobre est ->
  AnaliseOutputSus.processa_chunk natjur palavras lidas colunas est chunk = Some est' ->
  sobre est'.
Proof.
  intros Hcp Hs. unfold AnaliseOutputSus.processa_chunk.
  set (cp := filter (fun l => eh_ente_publico (dict_get l natjur) palavras) chunk).
  change (incl cp linhas_fonte) in Hcp.
  destruct (negb (truthy cp)); [intros H; injection H as <-; exact Hs|].
  destruct (foldM _ colunas est) as [est1|] eqn:E; [|discriminate].
  apply del_locais_inv. eapply colunas_inv; eassumption.
Qed.

(** The property holds at the end of the chunk loop of either script. *)
Lemma gerar_varredura_inv fl palavras lidas colunas chunksize (ls : list linha)
    (est est' : estado) :
  incl (passa fl palavras ls) linhas_fonte ->
  sobre est ->
  foldM (GerarRelatorio.processa_chunk fl palavras lidas colunas)
        (read_csv_chunks chunksize ls) est = Some est' ->
  sobre est'.
Proof.
  intros Hincl. apply foldM_inv. intros s chunk s' Hc. apply gerar_processa_chunk_inv.
  intros l Hl. apply Hincl. revert l Hl. apply passa_incl.
  intros l Hl. eapply read_csv_chunks_In; eassumption.
Qed.

Lemma sus_varredura_inv natjur palavras lidas colunas chunksize (ls : list linha)
    (est est' : estado) :
  incl (passa (Some natjur) palavras ls) linhas_fonte ->
  sobre est ->
  foldM (AnaliseOutputSus.processa_chunk natjur palavras lidas colunas)
        (read_csv_chunks chunksize ls) est = Some est' ->
  sobre est'.
Proof.
  intros Hincl. apply foldM_inv. intros s chunk s' Hc. apply sus_processa_chunk_inv.
  intros l Hl. apply Hincl. revert l Hl. apply passa_incl.
  intros l Hl. eapply read_csv_chunks_In; eassumption.
Qed.

End Invariante.

(* ===================================================================== *)
(** * Finalizing a column                                                *)
(* ===================================================================== *)

Lemma insere_desc_perm (x : str * Z) (l : Series) : Permutation (insere_desc x l) (x :: l).
Proof.
  induction l as [|y l IH]; simpl; [apply Permutation_refl|].
  destruct (snd y <=? snd x); [apply Permutation_refl|].
  eapply perm_trans; [apply perm_skip; exact IH | apply perm_swap].
Qed.

(** Sorting only reorders the series. *)
Lemma sort_values_desc_perm (s : Series) : Permutation (sort_values_desc s) s.
Proof.
  induction s as [|x s IH]; simpl; [apply perm_nil|].
  eapply perm_trans; [apply insere_desc_perm | apply perm_skip; exact IH].
Qed.

Lemma soma_perm (a b : Series) : Permutation a b -> soma a = soma b.
Proof.
  unfold soma. induction 1; simpl; lia.
Qed.

Lemma soma_sort_values_desc (s : Series) : soma (sort_values_desc s) = soma s.
Proof. apply soma_perm, sort_values_desc_perm. Qed.

(** The entry of a column keeps the accounting identity. *)
Definition entrada_coerente (d : dados_contagem) : Prop :=
  exists c, contagens d = Some c /\ soma c + contagem_sigiloso d = total_ocorrencias d.

Lemma dados_vazios_coerente : entrada_coerente dados_vazios.
Proof. exists []. split; reflexivity. Qed.

Lemma finaliza_coerente (contador : Counter) (sigilosos : Z) :
  entrada_coerente (finaliza contador sigilosos).
Proof.
  unfold finaliza. destruct (soma contador + sigilosos =? 0).
  - apply dados_vazios_coerente.
  - exists (sort_values_desc contador). split; [reflexivity|].
    cbn [contagem_sigiloso total_ocorrencias]. rewrite soma_sort_values_desc. reflexivity.
Qed.

Lemma dict_get_ou_set_neq {V} (d : dict V) (k k' : str) (v padrao : V) :
  k <> k' -> dict_get_ou (dict_set d k v) k' padrao = dict_get_ou d k' padrao.
Proof. intros H. unfold dict_get_ou. rewrite dict_get_set_neq by exact H. reflexivity. Qed.

Lemma dict_get_ou_dict_de {V} (ks : list str) (v : V) (k : str) :
  dict_get_ou (dict_de ks v) k v = v.
Proof.
  unfold dict_get_ou. rewrite dict_get_dict_de. destruct (pertence k ks); reflexivity.
Qed.

(** Nothing was counted for [coluna]. *)
Definition intocada (coluna : str) (contadores : dict Counter) (sigilosos : dict Z) : Prop :=
  dict_get_ou contadores coluna [] = [] /\ dict_get_ou sigilosos coluna 0 = 0.

Lemma intocada_inicial (coluna : str) (colunas : list str) :
  sobre (intocada coluna) (estado_inicial colunas).
Proof.
  unfold sobre, intocada, estado_inicial. cbn [v_contadores v_contagem_sigiloso].
  split; apply dict_get_ou_dict_de.
Qed.

(** Counting a token of another column, or having no token to count,
    leaves the column untouched. *)
Lemma intocada_passo (coluna : str) (linhas_fonte : list linha) :
  (forall l, In l linhas_fonte -> parse_multi_valor (dict_get l coluna) = []) ->
  forall col est item est',
    item_de linhas_fonte col item ->
    sobre (intocada coluna) est -> conta_item col est item = Some est' ->
    sobre (intocada coluna) est'.
Proof.
  intros Hsem col est item est' (l & v & Hl & Hget & Hitem) [Hc Hs].
  assert (Hneq : col <> coluna).
  { intros ->. specialize (Hsem l Hl). rewrite Hget in Hsem. rewrite Hsem in Hitem.
    destruct Hitem. }
  unfold conta_item.
  destruct (str_eqb (upper (strip item)) SIGILOSO).
  - destruct (dict_get (v_contagem_sigiloso est) col); [|discriminate].
    intros H. injection H as <-. unfold sobre, intocada. cbn [v_contadores v_contagem_sigiloso].
    rewrite dict_get_ou_set_neq by exact Hneq. split; assumption.
  - destruct (truthy (upper (strip item))).
    + destruct (dict_get (v_contadores est) col); [|discriminate].
      intros H. injection H as <-. unfold sobre, intocada. cbn [v_contadores v_contagem_sigiloso].
      rewrite dict_get_ou_set_neq by exact Hneq. split; assumption.
    + intros H. injection H as <-. split; assumption.
Qed.

Lemma finaliza_intocada : finaliza [] 0 = dados_vazios.
Proof. reflexivity. Qed.

(** A completed scan, with the filter it applied to the rows: the
    filter column in force ([None] when the scan is unfiltered) and the
    keywords. *)
Definition varredura_filtrada (chunksize : positive) (csv : fonte) (colunas_analise : list str)
    (filtro : option str) (palavras : list str) (res : dict dados_contagem) : Prop :=
  (exists filtrar coluna_filtro_ente registro,
      GerarRelatorio.analisar_frequencias chunksize csv colunas_analise filtrar
        coluna_filtro_ente palavras = (registro, Some res)
      /\ filtro = filtro_ativo csv filtrar coluna_filtro_ente)
  \/ (exists natjur registro,
      AnaliseOutputSus.analisar_frequencias_entes_publicos chunksize csv colunas_analise natjur palavras
      = (registro, Some res)
      /\ filtro = Some natjur).

(** C1. In a completed scan (gerar_relatorio_analise_cnj.py or
    analise_output_sus.py) every requested column has an entry whose
    distribution counts and confidential count add up to
    total_ocorrencias; and when no row that passes the filter has a
    token in that column, the entry is the empty distribution with
    total 0. *)
Theorem C1_soma_mais_sigiloso_igual_total
    (chunksize : positive) (csv : fonte) (colunas_analise : list str)
    (filtro : option str) (palavras : list str)
    (res : dict dados_contagem) (coluna : str) :
  varredura_filtrada chunksize csv colunas_analise filtro palavras res ->
  In coluna colunas_analise ->
  exists d c,
    dict_get res coluna = Some d
    /\ contagens d = Some c
    /\ soma c + contagem_sigiloso d = total_ocorrencias d
    /\ ((forall l, In l (linhas csv) -> passa_linha filtro palavras l = true ->
                   parse_multi_valor (dict_get l coluna) = []) ->
        c = [] /\ total_ocorrencias d = 0 /\ contagem_sigiloso d = 0).
Proof.
  intros Hscan Hin.
  assert (H : exists d, dict_get res coluna = Some d /\ entrada_coerente d
              /\ ((forall l, In l (passa filtro palavras (linhas csv)) ->
                             parse_multi_valor (dict_get l coluna) = []) ->
                  d = dados_vazios)).
  { destruct Hscan as [(filtrar & cfe & registro & H & ->) | (natjur & registro & H & ->)].
    - apply gerar_analisar_varre, gerar_varre_Some in H as (lidas & est & Hfold & ->).
      unfold GerarRelatorio.resultados_finais.
      rewrite (dict_get_fold_set
                 (fun c => if negb (pertence c (existentes_em csv colunas_analise)) then dados_vazios
                           else finaliza (dict_get_ou (v_contadores est) c [])
                                         (dict_get_ou (v_contagem_sigiloso est) c 0))).
      apply pertence_In in Hin. rewrite Hin. eexists. split; [reflexivity|]. split.
      + destruct (negb _); [apply dados_vazios_coerente | apply finaliza_coerente].
      + intros Hsem. destruct (negb _); [reflexivity|].
        pose proof (gerar_varredura_inv (intocada coluna) _
                      (intocada_passo coluna _ Hsem)
                      _ _ _ _ _ _ _ _ (incl_refl _) (intocada_inicial coluna _) Hfold) as [Hc Hs].
        rewrite Hc, Hs. reflexivity.
    - apply sus_analisar_Some in H as (lidas & est & Hfold & H).
      rewrite (sus_resultados_finais_get _ _ _ _ coluna H Hin).
      destruct (sus_entrada_Some _ _ _ _ coluna H Hin) as [d Hd].
      exists d. split; [exact Hd|]. unfold sus_entrada in Hd.
      destruct (negb (pertence coluna (colunas_presentes csv))).
      + injection Hd as <-. split; [apply dados_vazios_coerente | reflexivity].
      + destruct (dict_get (v_contadores est) coluna) as [c|] eqn:Ec; [|discriminate].
        destruct (dict_get (v_contagem_sigiloso est) coluna) as [s|] eqn:Es; [|discriminate].
        injection Hd as <-. split; [apply finaliza_coerente|].
        intros Hsem.
        pose proof (sus_varredura_inv (intocada coluna) _
                      (intocada_passo coluna _ Hsem)
                      _ _ _ _ _ _ _ _ (incl_refl _) (intocada_inicial coluna _) Hfold) as [Hc Hs].
        unfold dict_get_ou in Hc, Hs. rewrite Ec in Hc. rewrite Es in Hs.
        subst. reflexivity. }
  destruct H as (d & Hget & (c & Hc & Hsum) & Hvazio).
  exists d, c. split; [exact Hget|]. split; [exact Hc|]. split; [exact Hsum|].
  intros Hsem.
  assert (Hd : d = dados_vazios).
  { apply Hvazio. intros l Hl. apply passa_In in Hl as [Hl Hp]. apply Hsem; assumption. }
  subst d. cbn in Hc. injection Hc as <-. repeat split.
Qed.

(** The result of the scenario source for the requested columns X, Y. *)
Definition resultado_cenario : dict dados_contagem :=
  [(X_, dados_cenario); (Y_, dados_vazios)].

Lemma C1_soma_mais_sigiloso_igual_total_witness :
  exists d c,
    dict_get resultado_cenario X_ = Some d
    /\ contagens d = Some c
    /\ soma c + contagem_sigiloso d = total_ocorrencias d
    /\ ((forall l, In l (linhas fonte_cenario) -> passa_linha None [] l = true ->
                   parse_multi_valor (dict_get l X_) = []) ->
        c = [] /\ total_ocorrencias d = 0 /\ contagem_sigiloso d = 0).
Proof.
  apply (C1_soma_mais_sigiloso_igual_total 2 fonte_cenario [X_; Y_] None []).
  - left. exists false, None, []. split; vm_compute; reflexivity.
  - simpl. left. reflexivity.
Defined.

(* ===================================================================== *)
(** * The confidential sentinel                                          *)
(* ===================================================================== *)

(** No key of the counter is the sentinel in any casing. *)
Definition sem_sigiloso (c : Counter) : Prop :=
  Forall (fun kn => upper (strip (fst kn)) <> SIGILOSO) c.

Definition contadores_sem_sigiloso (contadores : dict Counter) (_ : dict Z) : Prop :=
  Forall (fun cc => sem_sigiloso (snd cc)) contadores.

Lemma Forall_dict_set {V} (R : str * V -> Prop) (d : dict V) (k : str) (v : V) :
  Forall R d -> R (k, v) -> Forall R (dict_set d k v).
Proof.
  intros Hd Hk. induction d as [|[k' v'] d IH]; simpl.
  - constructor; [exact Hk | constructor].
  - inversion Hd as [|? ? Hx Hrest]; subst.
    destruct (str_eqb k' k) eqn:E.
    + apply str_eqb_eq in E. subst k'. constructor; assumption.
    + constructor; [exact Hx | apply IH; exact Hrest].
Qed.

Lemma dict_get_In {V} (d : dict V) (k : str) (v : V) :
  dict_get d k = Some v -> In (k, v) d.
Proof.
  induction d as [|[k' v'] d IH]; simpl; [discriminate|].
  destruct (str_eqb k' k) eqn:E.
  - apply str_eqb_eq in E. intros H. injection H as ->. subst. left. reflexivity.
  - intros H. right. apply IH. exact H.
Qed.

Lemma Forall_dict_de {V} (R : str * V -> Prop) (ks : list str) (v : V) :
  (forall k, R (k, v)) -> Forall R (dict_de ks v).
Proof.
  intros H. unfold dict_de. generalize (Forall_nil R).
  generalize (@nil (str * V)). induction ks as [|k ks IH]; intros d Hd; simpl; [exact Hd|].
  apply IH. apply Forall_dict_set; [exact Hd | apply H].
Qed.

Lemma contadores_sem_sigiloso_inicial (colunas : list str) :
  sobre contadores_sem_sigiloso (estado_inicial colunas).
Proof.
  unfold sobre, contadores_sem_sigiloso, estado_inicial. cbn [v_contadores].
  apply Forall_dict_de. intros k. constructor.
Qed.

Lemma contadores_sem_sigiloso_passo (linhas_fonte : list linha) :
  forall col est item est',
    item_de linhas_fonte col item ->
    sobre contadores_sem_sigiloso est -> conta_item col est item = Some est' ->
    sobre contadores_sem_sigiloso est'.
Proof.
  intros col est item est' _ Hs. unfold conta_item.
  destruct (str_eqb (upper (strip item)) SIGILOSO) eqn:E.
  - destruct (dict_get (v_contagem_sigiloso est) col); [|discriminate].
    intros H. injection H as <-. exact Hs.
  - destruct (truthy (upper (strip item))).
    + destruct (dict_get (v_contadores est) col) as [c|] eqn:Ec; [|discriminate].
      intros H. injection H as <-.
      unfold sobre, contadores_sem_sigiloso in *. cbn [v_contadores].
      apply Forall_dict_set; [exact Hs|]. cbn [snd].
      apply dict_get_In in Ec.
      pose proof (proj1 (Forall_forall _ _) Hs _ Ec) as Hc. cbn [snd] in Hc.
      unfold counter_incr. apply Forall_dict_set; [exact Hc|]. cbn [fst].
      apply str_eqb_neq. exact E.
    + intros H. injection H as <-. exact Hs.
Qed.

Lemma sem_sigiloso_finaliza (contador : Counter) (sigilosos : Z) (s : Series) :
  sem_sigiloso contador ->
  contagens (finaliza contador sigilosos) = Some s ->
  sem_sigiloso s.
Proof.
  intros Hc. unfold finaliza. destruct (_ =? 0); cbn [contagens dados_vazios]; intros H;
    injection H as <-.
  - constructor.
  - unfold sem_sigiloso in *. rewrite Forall_forall in *.
    intros kn Hin. apply Hc. eapply Permutation_in; [apply sort_values_desc_perm | exact Hin].
Qed.

Lemma sem_sigiloso_dict_get_ou (contadores : dict Counter) (col : str) :
  Forall (fun cc => sem_sigiloso (snd cc)) contadores ->
  sem_sigiloso (dict_get_ou contadores col []).
Proof.
  intros H. unfold dict_get_ou. destruct (dict_get contadores col) as [c|] eqn:E.
  - apply dict_get_In in E. exact (proj1 (Forall_forall _ _) H _ E).
  - constructor.
Qed.

(** In a completed scan no distribution has the sentinel among its
    keys. *)
Lemma varredura_sem_sigiloso chunksize csv cols res col d s :
  varredura_completa chunksize csv cols res ->
  dict_get res col = Some d -> contagens d = Some s -> sem_sigiloso s.
Proof.
  intros [(filtrar & filtro & palavras & registro & H) | (natjur & palavras & registro & H)]
         Hget Hs.
  - apply gerar_analisar_Some in H as (fl & lidas & est & Hfold & ->).
    pose proof (gerar_varredura_inv contadores_sem_sigiloso (linhas csv)
                  (contadores_sem_sigiloso_passo (linhas csv))
                  _ _ _ _ _ _ _ _ (fun l Hl => proj1 (proj1 (passa_In _ _ _ _) Hl))
                  (contadores_sem_sigiloso_inicial _) Hfold) as Hinv.
    unfold GerarRelatorio.resultados_finais in Hget.
    rewrite (dict_get_fold_set
               (fun c => if negb (pertence c (existentes_em csv cols)) then dados_vazios
                         else finaliza (dict_get_ou (v_contadores est) c [])
                                       (dict_get_ou (v_contagem_sigiloso est) c 0))) in Hget.
    destruct (pertence col cols); [|discriminate].
    injection Hget as <-. destruct (negb _).
    + injection Hs as <-. constructor.
    + eapply sem_sigiloso_finaliza; [|exact Hs].
      apply sem_sigiloso_dict_get_ou. exact Hinv.
  - apply sus_analisar_Some in H as (lidas & est & Hfold & H).
    pose proof (sus_varredura_inv contadores_sem_sigiloso (linhas csv)
                  (contadores_sem_sigiloso_passo (linhas csv))
                  _ _ _ _ _ _ _ _ (fun l Hl => proj1 (proj1 (passa_In _ _ _ _) Hl))
                  (contadores_sem_sigiloso_inicial _) Hfold) as Hinv.
    unfold AnaliseOutputSus.resultados_finais in H.
    rewrite (foldM_ext _ (fun d c => match sus_entrada (colunas_presentes csv) est c with
                                     | Some v => Some (dict_set d c v)
                                     | None => None end)) in H.
    2:{ intros s0 a. unfold sus_entrada.
        destruct (negb (pertence a (colunas_presentes csv))); [reflexivity|].
        destruct (dict_get (v_contadores est) a); [|reflexivity].
        destruct (dict_get (v_contagem_sigiloso est) a); reflexivity. }
    rewrite (dict_get_foldM_set _ _ _ _ col H) in Hget.
    destruct (pertence col cols); [|discriminate].
    unfold sus_entrada in Hget. destruct (negb _).
    + injection Hget as <-. injection Hs as <-. constructor.
    + destruct (dict_get (v_contadores est) col) as [c|] eqn:Ec; [|discriminate].
      destruct (dict_get (v_contagem_sigiloso est) col); [|discriminate].
      injection Hget as <-. eapply sem_sigiloso_finaliza; [|exact Hs].
      apply dict_get_In in Ec. exact (proj1 (Forall_forall _ _) Hinv _ Ec).
Qed.

(** C2 (amended). In gerar_relatorio_analise_cnj.py and
    analise_output_sus.py, for a column that has its counter and its
    confidential count: a token whose stripped uppercase form is
    SIGILOSO adds one to the confidential count of that column and
    changes no counter; any other token with a non-empty uppercase form
    adds one to the count stored under the token itself (its original
    casing) in that column's counter and changes nothing else; a token
    with an empty uppercase form changes nothing.  In every completed
    scan no key of a distribution is the sentinel. *)
Theorem C2_sigiloso_contado_a_parte
    (coluna item : str) (est : estado) (n : Z) (c : Counter) :
  dict_get (v_contagem_sigiloso est) coluna = Some n ->
  dict_get (v_contadores est) coluna = Some c ->
  (upper (strip item) = SIGILOSO ->
   exists est',
     conta_item coluna est item = Some est'
     /\ v_contadores est' = v_contadores est
     /\ dict_get (v_contagem_sigiloso est') coluna = Some (n + 1)
     /\ (forall col, col <> coluna ->
           dict_get (v_contagem_sigiloso est') col = dict_get (v_contagem_sigiloso est) col))
  /\ (upper (strip item) <> SIGILOSO -> upper (strip item) <> [] ->
      exists est' c',
        conta_item coluna est item = Some est'
        /\ v_contagem_sigiloso est' = v_contagem_sigiloso est
        /\ dict_get (v_contadores est') coluna = Some c'
        /\ dict_get c' item = Some (dict_get_ou c item 0 + 1)
        /\ (forall k, k <> item -> dict_get c' k = dict_get c k)
        /\ (forall col, col <> coluna ->
              dict_get (v_contadores est') col = dict_get (v_contadores est) col))
  /\ (upper (strip item) = [] -> conta_item coluna est item = Some est)
  /\ (forall chunksize csv colunas_analise res col d s k m,
        varredura_completa chunksize csv colunas_analise res ->
        dict_get res col = Some d -> contagens d = Some s -> In (k, m) s ->
        upper (strip k) <> SIGILOSO).
Proof.
  intros Hn Hc. split; [|split; [|split]].
  - intros E. unfold conta_item. rewrite E, str_eqb_refl, Hn.
    eexists. split; [reflexivity|]. cbn [v_contadores v_contagem_sigiloso].
    split; [reflexivity|]. split; [apply dict_get_set_eq|].
    intros col Hcol. apply dict_get_set_neq. congruence.
  - intros E1 E2. unfold conta_item.
    apply str_eqb_neq in E1. rewrite E1.
    destruct (upper (strip item)) as [|x u] eqn:Eu; [congruence|]. cbn [truthy].
    rewrite Hc. eexists. exists (counter_incr c item).
    split; [reflexivity|]. cbn [v_contadores v_contagem_sigiloso].
    split; [reflexivity|]. split; [apply dict_get_set_eq|].
    split; [apply dict_get_set_eq|].
    split.
    + intros k Hk. apply dict_get_set_neq. congruence.
    + intros col Hcol. apply dict_get_set_neq. congruence.
  - intros E. unfold conta_item. rewrite E. reflexivity.
  - intros chunksize csv cols res col d s k m Hscan Hget Hs Hin.
    pose proof (varredura_sem_sigiloso _ _ _ _ _ _ _ Hscan Hget Hs) as H.
    exact (proj1 (Forall_forall _ _) H _ Hin).
Qed.

Lemma C2_sigiloso_contado_a_parte_witness :
  (upper (strip (py "Sigiloso")) = SIGILOSO ->
   exists est',
     conta_item X_ (estado_inicial [X_]) (py "Sigiloso") = Some est'
     /\ v_contadores est' = v_contadores (estado_inicial [X_])
     /\ dict_get (v_contagem_sigiloso est') X_ = Some (0 + 1)
     /\ (forall col, col <> X_ ->
           dict_get (v_contagem_sigiloso est') col
           = dict_get (v_contagem_sigiloso (estado_inicial [X_])) col))
  /\ (upper (strip (py "Sigiloso")) <> SIGILOSO -> upper (strip (py "Sigiloso")) <> [] ->
      exists est' c',
        conta_item X_ (estado_inicial [X_]) (py "Sigiloso") = Some est'
        /\ v_contagem_sigiloso est' = v_contagem_sigiloso (estado_inicial [X_])
        /\ dict_get (v_contadores est') X_ = Some c'
        /\ dict_get c' (py "Sigiloso") = Some (dict_get_ou [] (py "Sigiloso") 0 + 1)
        /\ (forall k, k <> py "Sigiloso" -> dict_get c' k = dict_get [] k)
        /\ (forall col, col <> X_ ->
              dict_get (v_contadores est') col
              = dict_get (v_contadores (estado_inicial [X_])) col))
  /\ (upper (strip (py "Sigiloso")) = [] ->
      conta_item X_ (estado_inicial [X_]) (py "Sigiloso") = Some (estado_inicial [X_]))
  /\ (forall chunksize csv colunas_analise res col d s k m,
        varredura_completa chunksize csv colunas_analise res ->
        dict_get res col = Some d -> contagens d = Some s -> In (k, m) s ->
        upper (strip k) <> SIGILOSO).
Proof.
  apply (C2_sigiloso_contado_a_parte X_ (py "Sigiloso") (estado_inicial [X_]) 0 []).
  - reflexivity.
  - reflexivity.
Defined.

(** C2 as stated fails for analise_output.py: that script has no
    confidential count, and the token SIGILOSO of the third row becomes a
    key of the distribution of column X. *)
Lemma C2_contraexemplo_analise_output :
  exists registro res d,
    AnaliseOutput.analisar_frequencias 2 fonte_cenario [X_] = (registro, Some res)
    /\ dict_get res X_ = Some d
    /\ upper (strip (py "SIGILOSO")) = SIGILOSO
    /\ dict_get (AnaliseOutput.s_contagens d) (py "SIGILOSO") = Some 1.
Proof.
  eexists. eexists. eexists.
  split; [vm_compute; reflexivity|].
  split; [vm_compute; reflexivity|].
  split; vm_compute; reflexivity.
Qed.

(* ===================================================================== *)
(** * Chunk size                                                         *)
(* ===================================================================== *)

(** A source with two columns whose second row has no value in X. *)
Definition fonte_lacuna : fonte :=
  {| colunas_presentes := [X_; Y_];
     linhas := [[(X_, py "A"); (Y_, py "u")]; [(Y_, py "v")]] |}.

(** C6 fails on the code.  With chunks of two rows the scan of
    fonte_lacuna for column X returns {A: 1}, total 1; with chunks of
    one row the second chunk has no value in X, items_parsed
    (items_exploded) is unbound at the del statement, and the scan
    returns None.  Both gerar_relatorio_analise_cnj.py and
    analise_output.py behave so. *)
Theorem C6_resultado_depende_do_chunksize :
  GerarRelatorio.analisar_frequencias 2 fonte_lacuna [X_] false None []
    = ([], Some [(X_, {| contagens := Some [(py "A", 1)];
                         total_ocorrencias := 1; contagem_sigiloso := 0 |})])
  /\ GerarRelatorio.analisar_frequencias 1 fonte_lacuna [X_] false None []
    = ([ErroInesperado], None)
  /\ AnaliseOutput.analisar_frequencias 2 fonte_lacuna [X_]
    = ([], Some [(X_, {| AnaliseOutput.s_contagens := [(py "A", 1)];
                         AnaliseOutput.s_total_ocorrencias := 1 |})])
  /\ AnaliseOutput.analisar_frequencias 1 fonte_lacuna [X_]
    = ([ErroInesperado], None).
Proof.
  repeat split; vm_compute; reflexivity.
Qed.

(* ===================================================================== *)
(** * The tokenizer on its own output                                    *)
(* ===================================================================== *)

(** The text is empty or starts with a character that is not a space. *)
Definition cabeca_limpa (s : str) : Prop :=
  match s with
  | [] => True
  | c :: _ => isspace c = false
  end.

(** A token as the tokenizer produces it: not empty, without comma,
    without space at either end. *)
Definition token_limpo (t : str) : Prop :=
  t <> [] /\ ~ In ","%char t /\ cabeca_limpa t /\ cabeca_limpa (rev t).

Lemma lstrip_cabeca_limpa (s : str) : cabeca_limpa (lstrip s).
Proof.
  induction s as [|c s IH]; simpl; [exact I|].
  destruct (isspace c) eqn:E; [exact IH | exact E].
Qed.

Lemma lstrip_fixo (s : str) : cabeca_limpa s -> lstrip s = s.
Proof.
  destruct s as [|c s]; simpl; [reflexivity|]. intros ->. reflexivity.
Qed.

(** [lstrip] removes a prefix of spaces. *)
Lemma lstrip_prefixo (s : str) :
  exists w, s = w ++ lstrip s /\ Forall (fun c => isspace c = true) w.
Proof.
  induction s as [|c s (w & Hw & Hsp)]; simpl.
  - exists []. split; [reflexivity | constructor].
  - destruct (isspace c) eqn:E.
    + exists (c :: w). split; [simpl; congruence | constructor; assumption].
    + exists []. split; [reflexivity | constructor].
Qed.

Lemma In_lstrip (x : ascii) (s : str) : In x (lstrip s) -> In x s.
Proof.
  destruct (lstrip_prefixo s) as (w & Hw & _). intros H. rewrite Hw.
  apply in_or_app. right. exact H.
Qed.

Lemma In_strip (x : ascii) (s : str) : In x (strip s) -> In x s.
Proof.
  unfold strip, rstrip. intros H.
  apply In_lstrip. apply in_rev. apply In_lstrip. apply in_rev in H. exact H.
Qed.

Lemma cabeca_limpa_app (a b : str) : a <> [] -> cabeca_limpa a -> cabeca_limpa (a ++ b).
Proof. destruct a; [congruence | intros _ H; exact H]. Qed.

Lemma cabeca_limpa_prefixo (a b : str) : cabeca_limpa (a ++ b) -> cabeca_limpa a.
Proof. destruct a; [intros _; exact I | intros H; exact H]. Qed.

(** [strip] leaves no space at either end. *)
Lemma strip_limpo (s : str) : cabeca_limpa (strip s) /\ cabeca_limpa (rev (strip s)).
Proof.
  unfold strip, rstrip. rewrite rev_involutive. split; [|apply lstrip_cabeca_limpa].
  destruct (lstrip_prefixo (rev (lstrip s))) as (w & Hw & _).
  apply (f_equal (@rev ascii)) in Hw. rewrite rev_involutive, rev_app_distr in Hw.
  pose proof (lstrip_cabeca_limpa s) as Hc. rewrite Hw in Hc.
  eapply cabeca_limpa_prefixo. exact Hc.
Qed.

Lemma strip_fixo (t : str) : cabeca_limpa t -> cabeca_limpa (rev t) -> strip t = t.
Proof.
  intros H1 H2. unfold strip, rstrip.
  rewrite (lstrip_fixo t H1), (lstrip_fixo (rev t) H2). apply rev_involutive.
Qed.

Lemma isspace_virgula : isspace ","%char = false.
Proof. reflexivity. Qed.

(** No piece of [re.split] contains a comma. *)
Lemma re_split_desde_sem_virgula (atual s : str) :
  ~ In ","%char atual ->
  Forall (fun p => ~ In ","%char p) (re_split_desde atual s).
Proof.
  functional induction (re_split_desde atual s); intros Ha.
  - constructor.
    + intros H. apply Ha. apply in_rev. exact H.
    + apply IHl. intros [].
  - constructor; [|constructor]. intros H. apply Ha. apply in_rev. exact H.
  - apply IHl. intros [-> | H]; [|exact (Ha H)].
    unfold casa_separador in e. simpl in e. discriminate e.
Qed.

(** Every token of [parse_multi_valor] is clean. *)
Lemma parse_multi_valor_limpo (celula : option str) :
  Forall token_limpo (parse_multi_valor celula).
Proof.
  unfold parse_multi_valor. destruct celula as [v|]; [|constructor].
  destruct (negb (truthy (strip v))); [constructor|].
  set (interno := if (_ && _)%bool then miolo (strip v) else strip v). clearbody interno.
  apply Forall_forall. intros t Ht.
  apply in_map_iff in Ht as (p & <- & Hp). apply filter_In in Hp as [Hp Hne].
  pose proof (re_split_desde_sem_virgula [] interno (fun H => H)) as Hv.
  pose proof (proj1 (Forall_forall _ _) Hv p Hp) as Hvp.
  destruct (strip_limpo p) as [H1 H2].
  repeat split; try assumption.
  - intros E. rewrite E in Hne. discriminate Hne.
  - intros H. apply Hvp. apply In_strip. exact H.
Qed.

(** Inside a clean token the separator pattern does not match. *)
Lemma casa_separador_dentro (t sigma : str) :
  t <> [] -> ~ In ","%char t -> cabeca_limpa (rev t) ->
  casa_separador (t ++ sigma) = None.
Proof.
  induction t as [|c t IH]; intros Hne Hv Hfim; [congruence|].
  unfold casa_separador. simpl. destruct (isspace c) eqn:Ec.
  - assert (Ht : t <> []).
    { intros ->. simpl in Hfim. congruence. }
    assert (Hfim' : cabeca_limpa (rev t)).
    { simpl in Hfim. eapply cabeca_limpa_prefixo. exact Hfim. }
    apply (IH Ht (fun H => Hv (or_intror H)) Hfim').
  - destruct (Ascii.eqb c ",") eqn:E; [|reflexivity].
    apply Ascii.eqb_eq in E. exfalso. apply Hv. left. exact E.
Qed.

(** The scan runs through a clean token without splitting it. *)
Lemma re_split_desde_token (t : str) :
  ~ In ","%char t -> cabeca_limpa (rev t) ->
  forall atual sigma, re_split_desde atual (t ++ sigma) = re_split_desde (rev t ++ atual) sigma.
Proof.
  induction t as [|c t IH]; intros Hv Hfim atual sigma; [reflexivity|].
  rewrite (re_split_desde_equation atual ((c :: t) ++ sigma)).
  rewrite (casa_separador_dentro (c :: t) sigma) by (assumption || discriminate).
  cbn [app]. rewrite IH.
  - cbn [rev]. rewrite <- app_assoc. reflexivity.
  - intros H. apply Hv. right. exact H.
  - destruct t as [|c' t]; [exact I|].
    simpl in Hfim |- *. eapply cabeca_limpa_prefixo. exact Hfim.
Qed.

Definition separador : str := py ", ".

Lemma join_limpo (toks : list str) :
  toks <> [] -> Forall token_limpo toks ->
  join separador toks <> []
  /\ cabeca_limpa (join separador toks)
  /\ cabeca_limpa (rev (join separador toks)).
Proof.
  induction toks as [|t toks IH]; intros Hne Hl; [congruence|].
  inversion Hl as [|? ? (Ht & Hv & Hc & Hf) Hrest]; subst.
  destruct toks as [|t2 l].
  - simpl. tauto.
  - destruct (IH ltac:(discriminate) Hrest) as (Hj & Hjc & Hjf).
    change (join separador (t :: t2 :: l)) with (t ++ separador ++ join separador (t2 :: l)).
    split; [|split].
    + destruct t; [congruence | discriminate].
    + apply cabeca_limpa_app; assumption.
    + rewrite !rev_app_distr, <- app_assoc.
      apply cabeca_limpa_app; [|exact Hjf].
      intros E. apply Hj. apply (f_equal (@rev ascii)) in E.
      rewrite rev_involutive in E. exact E.
Qed.

(** Before a clean text the separator ", " is matched whole. *)
Lemma casa_separador_no_separador (r : str) :
  cabeca_limpa r -> casa_separador (separador ++ r) = Some r.
Proof.
  intros H. change (casa_separador (separador ++ r)) with (Some (lstrip r)).
  rewrite (lstrip_fixo r H). reflexivity.
Qed.

(** Splitting the joined tokens gives the tokens back. *)
Lemma re_split_join (toks : list str) :
  toks <> [] -> Forall token_limpo toks ->
  re_split (join separador toks) = toks.
Proof.
  unfold re_split.
  induction toks as [|t toks IH]; intros Hne Hl; [congruence|].
  inversion Hl as [|? ? (Ht & Hv & Hc & Hf) Hrest]; subst.
  destruct toks as [|t2 l].
  - simpl join. rewrite <- (app_nil_r t) at 1.
    rewrite (re_split_desde_token t Hv Hf), re_split_desde_equation.
    simpl. rewrite app_nil_r, rev_involutive. reflexivity.
  - change (join separador (t :: t2 :: l)) with (t ++ separador ++ join separador (t2 :: l)).
    destruct (join_limpo (t2 :: l) ltac:(discriminate) Hrest) as (_ & Hjc & _).
    rewrite (re_split_desde_token t Hv Hf), re_split_desde_equation.
    rewrite (casa_separador_no_separador _ Hjc), app_nil_r, rev_involutive.
    rewrite (IH ltac:(discriminate) Hrest). reflexivity.
Qed.

Lemma filter_map_strip_limpos (toks : list str) :
  Forall token_limpo toks ->
  map strip (filter (fun item => truthy (strip item)) toks) = toks.
Proof.
  induction 1 as [|t toks (Ht & Hv & Hc & Hf) _ IH]; [reflexivity|].
  simpl. rewrite (strip_fixo t Hc Hf).
  destruct t; [congruence|]. simpl. rewrite (strip_fixo _ Hc Hf), IH. reflexivity.
Qed.

(** C4 (amended). For every cell, unless the tokens joined with ", "
    make a text that again starts with an opening brace and ends with a
    closing brace, tokenizing the joined text returns the same tokens:
    parse_multi_valor(', '.join(parse_multi_valor(x))) equals
    parse_multi_valor(x). *)
Theorem C4_tokenizar_o_reunido (x : option str) :
  startswith "{" (join separador (parse_multi_valor x))
    && endswith "}" (join separador (parse_multi_valor x)) = false ->
  parse_multi_valor (Some (join separador (parse_multi_valor x))) = parse_multi_valor x.
Proof.
  pose proof (parse_multi_valor_limpo x) as Hl.
  destruct (parse_multi_valor x) as [|t toks] eqn:E; [reflexivity|].
  set (l := t :: toks) in *.
  assert (Hne : l <> []) by discriminate.
  destruct (join_limpo l Hne Hl) as (Hj & Hjc & Hjf).
  intros Hb. unfold parse_multi_valor at 1.
  rewrite (strip_fixo _ Hjc Hjf), Hb.
  destruct (join separador l) as [|c j] eqn:Ej; [congruence|]. cbn [truthy negb].
  rewrite <- Ej, (re_split_join l Hne Hl).
  apply filter_map_strip_limpos. exact Hl.
Qed.

Lemma C4_tokenizar_o_reunido_witness :
  parse_multi_valor
    (Some (join separador (parse_multi_valor (Some (py "{12480, 12521,  12480}")))))
  = parse_multi_valor (Some (py "{12480, 12521,  12480}")).
Proof.
  apply (C4_tokenizar_o_reunido (Some (py "{12480, 12521,  12480}"))).
  vm_compute. reflexivity.
Defined.

(** C4 as stated fails: the cell "{{a}}" has the single token "{a}",
    and tokenizing "{a}" gives the token "a". *)
Lemma C4_contraexemplo_chaves_duplas :
  parse_multi_valor (Some (py "{{a}}")) = [py "{a}"]
  /\ join separador (parse_multi_valor (Some (py "{{a}}"))) = py "{a}"
  /\ parse_multi_valor (Some (join separador (parse_multi_valor (Some (py "{{a}}"))))) = [py "a"]
  /\ parse_multi_valor (Some (join separador (parse_multi_valor (Some (py "{{a}}")))))
     <> parse_multi_valor (Some (py "{{a}}")).
Proof.
  split; [vm_compute; reflexivity|].
  split; [vm_compute; reflexivity|].
  split; [vm_compute; reflexivity|].
  vm_compute. discriminate.
Qed.

(** Tokenizer scenarios: order and duplicates are kept; an empty or
    missing cell and a cell of braces only have no token; doubled and
    trailing commas give no empty token. *)
Example parse_multi_valor_cenarios :
  parse_multi_valor (Some (py "{12480, 12521,  12480}")) = [py "12480"; py "12521"; py "12480"]
  /\ parse_multi_valor (Some (py "")) = []
  /\ parse_multi_valor None = []
  /\ parse_multi_valor (Some (py "{}")) = []
  /\ parse_multi_valor (Some (py " a , ,, b c ,")) = [py "a"; py "b c"].
Proof. repeat split; vm_compute; reflexivity. Qed.

(** Accumulator scenario: rows "{A, B}", "{A}", "{SIGILOSO}" give
    {A: 2, B: 1}, confidential count 1, total 4, with any of the two
    chunk sizes. *)
Example acumulador_cenario :
  GerarRelatorio.analisar_frequencias 1 fonte_cenario [X_; Y_] false None []
    = ([], Some resultado_cenario)
  /\ GerarRelatorio.analisar_frequencias 2 fonte_cenario [X_; Y_] false None []
    = ([], Some resultado_cenario).
Proof. split; vm_compute; reflexivity. Qed.

(* ===================================================================== *)
(** * Chunk size, when the scan completes                                *)
(* ===================================================================== *)

(** Apart from the unbound name at the [del] statement, the chunks do
    not matter: two completed scans of gerar_relatorio_analise_cnj.py
    over the same source return the same result.  The state of one
    column is followed through the loop. *)

Lemma pertence_cons (k x : str) (l : list str) :
  pertence k (x :: l) = str_eqb k x || pertence k l.
Proof. reflexivity. Qed.

(** The tokens of a column in a list of rows, in row order. *)
Definition itens (coluna : str) (ls : list linha) : list str :=
  concat (map (fun v => parse_multi_valor (Some v)) (dropna (coluna_de ls coluna))).

(** [conta_item] on the counter and confidential count of its column. *)
Definition passo_par (cz : Counter * Z) (item : str) : Counter * Z :=
  if str_eqb (upper (strip item)) SIGILOSO then (fst cz, snd cz + 1)
  else if truthy (upper (strip item)) then (counter_incr (fst cz) item, snd cz)
  else cz.

(** The column has this counter and this confidential count. *)
Definition em (coluna : str) (est : estado) (cz : Counter * Z) : Prop :=
  dict_get (v_contadores est) coluna = Some (fst cz)
  /\ dict_get (v_contagem_sigiloso est) coluna = Some (snd cz).

Lemma conta_item_em_mesma coluna est item est' cz :
  em coluna est cz -> conta_item coluna est item = Some est' ->
  em coluna est' (passo_par cz item).
Proof.
  intros [Hc Hz]. unfold conta_item, passo_par.
  destruct (str_eqb (upper (strip item)) SIGILOSO).
  - rewrite Hz. intros H. injection H as <-. split; cbn [v_contadores v_contagem_sigiloso fst snd].
    + exact Hc.
    + apply dict_get_set_eq.
  - destruct (truthy (upper (strip item))).
    + rewrite Hc. intros H. injection H as <-.
      split; cbn [v_contadores v_contagem_sigiloso fst snd].
      * apply dict_get_set_eq.
      * exact Hz.
    + intros H. injection H as <-. split; assumption.
Qed.

Lemma conta_item_em_outra coluna col est item est' cz :
  coluna <> col -> em col est cz -> conta_item coluna est item = Some est' ->
  em col est' cz.
Proof.
  intros Hneq [Hc Hz]. unfold conta_item.
  destruct (str_eqb (upper (strip item)) SIGILOSO).
  - destruct (dict_get (v_contagem_sigiloso est) coluna); [|discriminate].
    intros H. injection H as <-. split; cbn [v_contadores v_contagem_sigiloso].
    + exact Hc.
    + rewrite dict_get_set_neq by exact Hneq. exact Hz.
  - destruct (truthy (upper (strip item))).
    + destruct (dict_get (v_contadores est) coluna); [|discriminate].
      intros H. injection H as <-. split; cbn [v_contadores v_contagem_sigiloso].
      * rewrite dict_get_set_neq by exact Hneq. exact Hc.
      * exact Hz.
    + intros H. injection H as <-. split; assumption.
Qed.

Lemma conta_itens_em_mesma coluna lista :
  forall est est' cz,
    em coluna est cz -> foldM (conta_item coluna) lista est = Some est' ->
    em coluna est' (fold_left passo_par lista cz).
Proof.
  induction lista as [|item lista IH]; intros est est' cz Hem H; simpl in H |- *.
  - injection H as <-. exact Hem.
  - destruct (conta_item coluna est item) as [est1|] eqn:E; [|discriminate].
    apply (IH est1 est' _ (conta_item_em_mesma _ _ _ _ _ Hem E) H).
Qed.

Lemma conta_listas_em_mesma coluna listas :
  forall est est' cz,
    em coluna est cz ->
    foldM (fun est lista_items => foldM (conta_item coluna) lista_items est) listas est = Some est' ->
    em coluna est' (fold_left passo_par (concat listas) cz).
Proof.
  induction listas as [|lista listas IH]; intros est est' cz Hem H; simpl in H |- *.
  - injection H as <-. exact Hem.
  - destruct (foldM (conta_item coluna) lista est) as [est1|] eqn:E; [|discriminate].
    rewrite fold_left_app.
    apply (IH est1 est' _ (conta_itens_em_mesma _ _ _ _ _ Hem E) H).
Qed.

Lemma conta_coluna_em_mesma chunk coluna est est' cz :
  em coluna est cz -> conta_coluna chunk est coluna = Some est' ->
  em coluna est' (fold_left passo_par (itens coluna chunk) cz).
Proof.
  intros Hem. unfold conta_coluna, itens.
  destruct (dropna (coluna_de chunk coluna)) as [|v vs] eqn:E.
  - cbn [truthy]. intros H. injection H as <-. exact Hem.
  - cbn [truthy]. apply conta_listas_em_mesma. exact Hem.
Qed.

Lemma conta_coluna_em_outra chunk coluna col est est' cz :
  coluna <> col -> em col est cz -> conta_coluna chunk est coluna = Some est' ->
  em col est' cz.
Proof.
  intros Hneq Hem. unfold conta_coluna.
  destruct (truthy (dropna (coluna_de chunk coluna))); [|intros H; injection H as <-; exact Hem].
  apply (foldM_inv (fun e => em col e cz)); [|exact Hem].
  intros s lista s' _ Hs.
  apply (foldM_inv (fun e => em col e cz)); [|exact Hs].
  intros s0 item s0' _ Hs0. apply conta_item_em_outra; assumption.
Qed.

(** The loop over the columns of one chunk touches the column once. *)
Lemma colunas_em chunk lidas colunas col :
  NoDup colunas -> pertence col lidas = true ->
  forall est est' cz,
    em col est cz ->
    foldM (fun est coluna =>
             if negb (pertence coluna lidas) then Some est else conta_coluna chunk est coluna)
          colunas est = Some est' ->
    em col est' (if pertence col colunas then fold_left passo_par (itens col chunk) cz else cz).
Proof.
  intros Hnd Hl. induction colunas as [|c cs IH]; intros est est' cz Hem H; simpl in H.
  - injection H as <-. exact Hem.
  - inversion Hnd as [|? ? Hnotin Hnd']; subst.
    rewrite pertence_cons.
    destruct (str_eqb col c) eqn:E.
    + apply str_eqb_eq in E. subst c. rewrite Hl in H. cbn [negb] in H.
      destruct (conta_coluna chunk est col) as [est1|] eqn:E1; [|discriminate].
      pose proof (conta_coluna_em_mesma _ _ _ _ _ Hem E1) as Hem1.
      pose proof (IH Hnd' est1 est' _ Hem1 H) as Hfim.
      apply pertence_not_In in Hnotin. rewrite Hnotin in Hfim. exact Hfim.
    + apply str_eqb_neq in E. cbn [orb].
      destruct (negb (pertence c lidas)).
      * apply (IH Hnd' est est' cz Hem H).
      * destruct (conta_coluna chunk est c) as [est1|] eqn:E1; [|discriminate].
        apply (IH Hnd' est1 est' cz); [|exact H].
        eapply conta_coluna_em_outra; [|exact Hem|exact E1]. congruence.
Qed.

Lemma itens_app coluna a b : itens coluna (a ++ b) = itens coluna a ++ itens coluna b.
Proof.
  unfold itens, coluna_de. rewrite map_app.
  assert (Hd : forall (x y : list (option str)), dropna (x ++ y) = dropna x ++ dropna y).
  { induction x as [|[v|] x IHx]; intros y; simpl; [reflexivity | rewrite IHx; reflexivity | apply IHx]. }
  rewrite Hd, map_app, concat_app. reflexivity.
Qed.

Lemma passa_app filtro palavras a b :
  passa filtro palavras (a ++ b) = passa filtro palavras a ++ passa filtro palavras b.
Proof. unfold passa. destruct filtro; [apply filter_app | reflexivity]. Qed.

Lemma gerar_processa_chunk_em fl palavras lidas colunas col chunk est est' cz :
  NoDup colunas -> pertence col lidas = true -> In col colunas ->
  em col est cz ->
  GerarRelatorio.processa_chunk fl palavras lidas colunas est chunk = Some est' ->
  em col est' (fold_left passo_par (itens col (passa fl palavras chunk)) cz).
Proof.
  intros Hnd Hl Hin Hem.
  change (GerarRelatorio.processa_chunk fl palavras lidas colunas est chunk)
    with (if negb (truthy (passa fl palavras chunk)) then Some est
          else match foldM (fun est coluna =>
                              if negb (pertence coluna lidas) then Some est
                              else conta_coluna (passa fl palavras chunk) est coluna)
                           colunas est with
               | Some est1 => del_locais est1
               | None => None
               end).
  destruct (passa fl palavras chunk) as [|l cp] eqn:E.
  - cbn [truthy negb]. intros H. injection H as <-. exact Hem.
  - cbn [truthy negb].
    destruct (foldM _ colunas est) as [est1|] eqn:E1; [|discriminate].
    pose proof (colunas_em _ _ _ col Hnd Hl _ _ _ Hem E1) as H1.
    apply pertence_In in Hin. rewrite Hin in H1.
    unfold del_locais. destruct (_ && _)%bool; [|discriminate].
    intros H. injection H as <-. exact H1.
Qed.

Lemma gerar_chunks_em fl palavras lidas colunas col chunks :
  NoDup colunas -> pertence col lidas = true -> In col colunas ->
  forall est est' cz,
    em col est cz ->
    foldM (GerarRelatorio.processa_chunk fl palavras lidas colunas) chunks est = Some est' ->
    em col est' (fold_left passo_par (itens col (passa fl palavras (concat chunks))) cz).
Proof.
  intros Hnd Hl Hin. induction chunks as [|chunk chunks IH]; intros est est' cz Hem H; simpl in H.
  - injection H as <-. unfold passa, itens. destruct fl; exact Hem.
  - destruct (GerarRelatorio.processa_chunk fl palavras lidas colunas est chunk) as [est1|] eqn:E;
      [|discriminate].
    cbn [concat]. rewrite passa_app, itens_app, fold_left_app.
    apply (IH est1 est' _ (gerar_processa_chunk_em _ _ _ _ _ _ _ _ _ Hnd Hl Hin Hem E) H).
Qed.

Lemma agrupa_concat {A} (n k : nat) (atual ls : list A) :
  concat (agrupa n k atual ls) = rev atual ++ ls.
Proof.
  revert k atual. induction ls as [|l ls IH]; intros k atual; simpl.
  - destruct atual; simpl; [reflexivity | rewrite !app_nil_r; reflexivity].
  - destruct k as [|[|k']]; simpl; rewrite IH; simpl; rewrite <- ?app_assoc; reflexivity.
Qed.

(** The chunks of the reader, put together, are the rows of the source. *)
Lemma read_csv_chunks_concat (chunksize : positive) (ls : list linha) :
  concat (read_csv_chunks chunksize ls) = ls.
Proof.
  unfold read_csv_chunks. destruct ls as [|l ls]; [reflexivity|].
  rewrite agrupa_concat. reflexivity.
Qed.

Lemma pertence_filter_neq (k x : str) (l : list str) :
  k <> x -> pertence k (filter (fun y => negb (str_eqb x y)) l) = pertence k l.
Proof.
  intros Hk. unfold pertence. induction l as [|y l IH]; simpl; [reflexivity|].
  destruct (str_eqb x y) eqn:E; simpl.
  - apply str_eqb_eq in E. subst y.
    apply str_eqb_neq in Hk. rewrite Hk. exact IH.
  - rewrite IH. reflexivity.
Qed.

Lemma pertence_conjunto (k : str) (l : list str) : pertence k (conjunto l) = pertence k l.
Proof.
  induction l as [|x l IH]; [reflexivity|].
  cbn [conjunto]. rewrite !pertence_cons.
  destruct (str_eqb k x) eqn:E; [reflexivity|].
  apply str_eqb_neq in E. rewrite pertence_filter_neq by exact E. cbn [orb]. exact IH.
Qed.

Lemma fold_set_ext {V} (g1 g2 : str -> V) (ks : list str) :
  (forall k, In k ks -> g1 k = g2 k) ->
  forall d0, fold_left (fun d c => dict_set d c (g1 c)) ks d0
             = fold_left (fun d c => dict_set d c (g2 c)) ks d0.
Proof.
  induction ks as [|k ks IH]; intros H d0; simpl; [reflexivity|].
  rewrite (H k (or_introl eq_refl)). apply IH. intros k' Hk'. apply H. right. exact Hk'.
Qed.

Lemma NoDup_filter {A} (f : A -> bool) (l : list A) : NoDup l -> NoDup (filter f l).
Proof.
  induction 1 as [|x l Hx Hnd IH]; simpl; [constructor|].
  destruct (f x); [|exact IH]. constructor; [|exact IH].
  intros H. apply filter_In in H. tauto.
Qed.

Lemma em_inicial (colunas : list str) (col : str) :
  In col colunas -> em col (estado_inicial colunas) ([], 0).
Proof.
  intros H. apply pertence_In in H. unfold em, estado_inicial.
  cbn [v_contadores v_contagem_sigiloso fst snd]. rewrite !dict_get_dict_de, H. split; reflexivity.
Qed.

(** Two completed scans of gerar_relatorio_analise_cnj.py over the same
    source, with the same arguments and distinct requested columns,
    return the same result, whatever the two chunk sizes. *)
Theorem gerar_chunksize_indiferente_se_completa
    (n m : positive) (csv : fonte) (colunas_analise : list str)
    (filtrar : bool) (filtro : option str) (palavras : list str)
    (registro1 registro2 : list evento) (res1 res2 : dict dados_contagem) :
  NoDup colunas_analise ->
  GerarRelatorio.analisar_frequencias n csv colunas_analise filtrar filtro palavras
    = (registro1, Some res1) ->
  GerarRelatorio.analisar_frequencias m csv colunas_analise filtrar filtro palavras
    = (registro2, Some res2) ->
  res1 = res2.
Proof.
  intros Hnd H1 H2.
  apply gerar_analisar_varre in H1, H2.
  unfold GerarRelatorio.varre in H1, H2.
  set (ex := existentes_em csv colunas_analise) in *.
  set (fl := filtro_ativo csv filtrar filtro) in *.
  set (lidas := conjunto (ex ++ match fl with Some f => [f] | None => [] end)) in *.
  destruct (foldM _ (read_csv_chunks n (linhas csv)) _) as [est1|] eqn:E1; [|discriminate].
  destruct (foldM _ (read_csv_chunks m (linhas csv)) _) as [est2|] eqn:E2; [|discriminate].
  injection H1 as <-. injection H2 as <-.
  unfold GerarRelatorio.resultados_finais. apply fold_set_ext.
  intros col _. destruct (pertence col ex) eqn:Ec; [|reflexivity]. cbn [negb].
  assert (Hin : In col ex) by (apply pertence_In; exact Ec).
  assert (Hl : pertence col lidas = true).
  { unfold lidas. rewrite pertence_conjunto. apply pertence_In. apply in_or_app. left. exact Hin. }
  assert (Hex : NoDup ex) by (apply NoDup_filter; exact Hnd).
  pose proof (gerar_chunks_em _ _ _ _ col _ Hex Hl Hin _ _ _ (em_inicial ex col Hin) E1) as [Hc1 Hz1].
  pose proof (gerar_chunks_em _ _ _ _ col _ Hex Hl Hin _ _ _ (em_inicial ex col Hin) E2) as [Hc2 Hz2].
  rewrite read_csv_chunks_concat in Hc1, Hz1, Hc2, Hz2.
  unfold dict_get_ou. rewrite Hc1, Hz1, Hc2, Hz2. reflexivity.
Qed.

(* ===================================================================== *)
(** * main.py: the subject filter and the consolidation                  *)
(* ===================================================================== *)

Module Main.

(** [\d] on code points below 128. *)
Definition isdigit (c : ascii) : bool :=
  let n := N_of_ascii c in ((48 <=? n)%N && (n <=? 57)%N).

(** [re.findall(r'\d+', s)]: the maximal runs of digits, left to right;
    [atual] holds, reversed, the digits of the run being read. *)
Fixpoint findall_digitos_desde (atual : str) (s : str) : list str :=
  match s with
  | [] => match atual with [] => [] | _ :: _ => [rev atual] end
  | c :: s' =>
      if isdigit c then findall_digitos_desde (c :: atual) s'
      else match atual with
           | [] => findall_digitos_desde [] s'
           | _ :: _ => rev atual :: findall_digitos_desde [] s'
           end
  end.

Definition findall_digitos (s : str) : list str := findall_digitos_desde [] s.

Definition valor_digito (c : ascii) : Z := Z.of_N (N_of_ascii c) - 48.

(** The number written by a string of digits. *)
Definition valor_decimal (s : str) : Z :=
  fold_left (fun acc c => 10 * acc + valor_digito c) s 0.

(** [int(s)] for a string of digits; [None] is ValueError: the empty
    string, or more digits than [sys.get_int_max_str_digits()] allows
    ([max_str_digits], 0 when the interpreter has no limit, 4300 by
    default since Python 3.11). *)
Definition int_de_digitos (max_str_digits : nat) (s : str) : option Z :=
  match s with
  | [] => None
  | _ :: _ =>
      if negb (max_str_digits =? 0)%nat && (max_str_digits <? length s)%nat then None
      else Some (valor_decimal s)
  end.

(** [not a.isdisjoint(b)] *)
Definition nao_disjuntos (a b : list Z) : bool :=
  existsb (fun x => existsb (Z.eqb x) b) a.

(** [verificar_assuntos(texto_assuntos, codigos_relevantes)] *)
Definition verificar_assuntos (max_str_digits : nat) (texto_assuntos : option str)
    (codigos_relevantes : list Z) : bool :=
  match texto_assuntos with
  | None => false
  | Some texto_assuntos_str =>
      let codigos_extraidos_str := findall_digitos texto_assuntos_str in
      if negb (truthy codigos_extraidos_str) then false
      else
        let codigos_extraidos_int :=
          fold_left (fun conjunto codigo_str =>
                       match int_de_digitos max_str_digits codigo_str with
                       | Some n => conjunto ++ [n]
                       | None => conjunto
                       end)
                    codigos_extraidos_str [] in
        nao_disjuntos codigos_extraidos_int codigos_relevantes
  end.

(** A line written by [to_csv]: the header line or the cells of a row. *)
Inductive registro_csv :=
| Cabecalho (colunas : list str)
| Dados (celulas : list (option str)).

(** The output path after a call: absent, the file that was there before
    (with its size in bytes), or the lines written by the call. *)
Inductive estado_saida :=
| Inexistente
| Anterior (tamanho : Z)
| Novo (registros : list registro_csv).

Definition saida_inicial (anterior : option Z) : estado_saida :=
  match anterior with
  | Some tamanho => Anterior tamanho
  | None => Inexistente
  end.

(** Messages logged at warning and error level by main.py. *)
Inductive evento_main :=
| ErroColunasFaltantes (colunas_faltantes : list str)
| ErroColunaAssunto
| ErroInesperadoFiltragem
| AvisoNenhumCsvRegional
| ErroRegional.

(** [chunk.loc[condicao, colunas]] as rows of cells. *)
Definition projeta (colunas : list str) (ls : list linha) : list (list (option str)) :=
  map (fun l => map (fun col => dict_get l col) colunas) ls.

(** Locals of the chunk loop of [filtrar_csv_por_assunto], and the lines
    written so far. *)
Record estado_filtro := {
  primeiro_chunk : bool;
  total_linhas_filtradas : Z;
  escrito : list registro_csv
}.

(** One iteration of [for i, chunk in enumerate(iterador_csv)].  A
    DataFrame without rows or without columns is empty. *)
Definition filtra_chunk (max_str_digits : nat) (codigos_assunto_relevantes : list Z)
    (coluna_assunto : str) (colunas_manter_ajustado : list str)
    (est : estado_filtro) (chunk : list linha) : estado_filtro :=
  let selecionadas :=
    filter (fun l => verificar_assuntos max_str_digits (dict_get l coluna_assunto)
                                        codigos_assunto_relevantes) chunk in
  let chunk_filtrado := projeta colunas_manter_ajustado selecionadas in
  if truthy chunk_filtrado && truthy colunas_manter_ajustado then
    {| primeiro_chunk := false;
       total_linhas_filtradas := total_linhas_filtradas est + Z.of_nat (length chunk_filtrado);
       escrito := (if primeiro_chunk est then [Cabecalho colunas_manter_ajustado]
                   else escrito est)
                  ++ map Dados chunk_filtrado |}
  else est.

(** Lines 245-248 and the state of the output path at the end. *)
Definition saida_final (anterior : option Z) (est : estado_filtro) : estado_saida :=
  if primeiro_chunk est then
    (* nothing was written *)
    match anterior with
    | Some tamanho =>
        if (total_linhas_filtradas est =? 0) && (tamanho <? 100) then Inexistente
        else Anterior tamanho
    | None => Inexistente
    end
  else Novo (escrito est).

(** [filtrar_csv_por_assunto(caminho_csv, caminho_saida_csv,
    codigos_assunto_relevantes, coluna_assunto, colunas_manter,
    chunksize)] for a file whose header can be read and an output path
    that can be written; [anterior] is the size of the file at the
    output path before the call, if there is one. *)
Definition filtrar_csv_por_assunto (max_str_digits : nat) (csv : fonte) (anterior : option Z)
    (codigos_assunto_relevantes : list Z) (coluna_assunto : str)
    (colunas_manter : list str) (chunksize : positive)
    : list evento_main * estado_saida :=
  let colunas_reais_csv := map strip (colunas_presentes csv) in
  let mapa_nomes := map strip colunas_reais_csv in
  let colunas_manter_ajustado := filter (fun col => pertence col mapa_nomes) colunas_manter in
  let colunas_faltantes := filter (fun col => negb (pertence col mapa_nomes)) colunas_manter in
  if truthy colunas_faltantes
  then ([ErroColunasFaltantes colunas_faltantes], saida_inicial anterior)
  else if negb (pertence coluna_assunto mapa_nomes)
  then ([ErroColunaAssunto], saida_inicial anterior)
  else
    let colunas_para_ler := conjunto (coluna_assunto :: colunas_manter_ajustado) in
    (* [usecols] must name columns of the file *)
    if negb (forallb (fun col => pertence col (colunas_presentes csv)) colunas_para_ler)
    then ([ErroInesperadoFiltragem], saida_inicial anterior)
    else
      let est :=
        fold_left (filtra_chunk max_str_digits codigos_assunto_relevantes coluna_assunto
                                colunas_manter_ajustado)
                  (read_csv_chunks chunksize (linhas csv))
                  {| primeiro_chunk := true; total_linhas_filtradas := 0; escrito := [] |} in
      ([], saida_final anterior est).

(** Locals of the loops of [consolidar_csvs_regionais], the lines
    written to [f_out] and the errors logged. *)
Record estado_consolidacao := {
  primeiro_arquivo : bool;
  total_linhas_consolidadas : Z;
  consolidado : list registro_csv;
  erros : list evento_main
}.

(** One iteration of [for i, chunk in enumerate(iterador_regional)]. *)
Definition consolida_chunk (colunas : list str) (est : estado_consolidacao)
    (i_chunk : nat * list linha) : estado_consolidacao :=
  let (i, chunk) := i_chunk in
  if negb (truthy chunk && truthy colunas) then est
  else
    let header := primeiro_arquivo est && (i =? 0)%nat in
    {| primeiro_arquivo := false;
       total_linhas_consolidadas := total_linhas_consolidadas est + Z.of_nat (length chunk);
       consolidado := consolidado est
                      ++ (if header then [Cabecalho colunas] else [])
                      ++ map Dados (projeta colunas chunk);
       erros := erros est |}.

(** [enumerate(l)] *)
Definition enumerate {A} (l : list A) : list (nat * A) := combine (seq 0 (length l)) l.

(** One iteration of [for caminho_csv_regional in arquivos_csv_regionais];
    [None] is a file that [pd.read_csv] cannot open. *)
Definition consolida_arquivo (chunksize : positive) (est : estado_consolidacao)
    (arquivo : option fonte) : estado_consolidacao :=
  match arquivo with
  | None =>
      {| primeiro_arquivo := primeiro_arquivo est;
         total_linhas_consolidadas := total_linhas_consolidadas est;
         consolidado := consolidado est;
         erros := erros est ++ [ErroRegional] |}
  | Some csv =>
      fold_left (consolida_chunk (colunas_presentes csv))
                (enumerate (read_csv_chunks chunksize (linhas csv))) est
  end.

(** [consolidar_csvs_regionais(pasta_csvs_regionais,
    arquivo_saida_consolidado, chunksize)]: [arquivos] are the CSV files
    of the folder in the order of [glob]. *)
Definition consolidar_csvs_regionais (arquivos : list (option fonte)) (anterior : option Z)
    (chunksize : positive) : list evento_main * estado_saida :=
  if negb (truthy arquivos) then ([AvisoNenhumCsvRegional], saida_inicial anterior)
  else
    let est :=
      fold_left (consolida_arquivo chunksize) arquivos
                {| primeiro_arquivo := true; total_linhas_consolidadas := 0;
                   consolidado := []; erros := [] |} in
    (erros est, Novo (consolidado est)).

End Main.
Import Main.

(* ===================================================================== *)
(** * The subject filter                                                 *)
(* ===================================================================== *)

(** The text is empty or starts with a character that is not a digit. *)
Definition comeca_sem_digito (s : str) : Prop :=
  match s with
  | [] => True
  | c :: _ => isdigit c = false
  end.


Lemma findall_desde_fim_sem_digito (p : str) (c : ascii) :
  isdigit c = false ->
  forall atual, findall_digitos_desde atual (p ++ [c]) = findall_digitos_desde atual p.
Proof.
  intros Hc. induction p as [|d p IH]; intros atual; simpl.
  - rewrite Hc. destruct atual; reflexivity.
  - destruct (isdigit d); [apply IH|]. destruct atual; rewrite IH; reflexivity.
Qed.

(** The scan starts afresh after a character that is not a digit. *)
Lemma findall_desde_corta (p : str) (c : ascii) (x : str) :
  isdigit c = false ->
  forall atual,
    findall_digitos_desde atual (p ++ c :: x)
    = findall_digitos_desde atual p ++ findall_digitos x.
Proof.
  intros Hc. unfold findall_digitos. induction p as [|d p IH]; intros atual; simpl.
  - rewrite Hc. destruct atual; reflexivity.
  - destruct (isdigit d); [apply IH|]. destruct atual; rewrite IH; reflexivity.
Qed.

Lemma findall_prefixo_sem_digito (m x : str) :
  Forall (fun c => isdigit c = false) m -> findall_digitos (m ++ x) = findall_digitos x.
Proof.
  unfold findall_digitos. induction 1 as [|c m Hc _ IH]; simpl; [reflexivity|].
  rewrite Hc. exact IH.
Qed.

Lemma findall_sufixo_sem_digito (m x : str) :
  Forall (fun c => isdigit c = false) m -> findall_digitos (x ++ m) = findall_digitos x.
Proof.
  intros H. revert x. induction H as [|c m Hc _ IH]; intros x.
  - rewrite app_nil_r. reflexivity.
  - change (x ++ c :: m) with (x ++ [c] ++ m). rewrite app_assoc, IH.
    apply findall_desde_fim_sem_digito. exact Hc.
Qed.

(** Digits are not split by a separator free of digits. *)
Lemma findall_separa (a m b : str) :
  m <> [] -> Forall (fun c => isdigit c = false) m ->
  findall_digitos (a ++ m ++ b) = findall_digitos a ++ findall_digitos b.
Proof.
  intros Hne Hm. destruct m as [|c m]; [congruence|].
  inversion Hm as [|? ? Hc Hrest]; subst.
  change (a ++ (c :: m) ++ b) with (a ++ c :: (m ++ b)).
  unfold findall_digitos at 1. rewrite (findall_desde_corta a c (m ++ b) Hc).
  rewrite (findall_prefixo_sem_digito m b Hrest). reflexivity.
Qed.

(** A run of digits followed by something else is read whole. *)
Lemma findall_desde_corrida (run suf : str) :
  run <> [] -> Forall (fun c => isdigit c = true) run -> comeca_sem_digito suf ->
  forall atual,
    findall_digitos_desde atual (run ++ suf) = (rev atual ++ run) :: findall_digitos suf.
Proof.
  intros Hne Hd Hs. unfold findall_digitos.
  induction run as [|d run IH]; [congruence|]. intros atual.
  inversion Hd as [|? ? Hdd Hrest]; subst. simpl. rewrite Hdd.
  destruct run as [|d' run].
  - simpl. destruct suf as [|c suf]; simpl.
    + reflexivity.
    + simpl in Hs. rewrite Hs. reflexivity.
  - rewrite (IH ltac:(discriminate) Hrest). simpl. rewrite <- app_assoc. reflexivity.
Qed.

Lemma comeca_sem_digito_rev_app (pre : str) (c : ascii) :
  isdigit c = false -> comeca_sem_digito (rev pre) -> comeca_sem_digito (rev (c :: pre)).
Proof.
  intros Hc H. simpl. destruct (rev pre) as [|x r]; simpl; assumption.
Qed.



Lemma extraidos_In (max_str_digits : nat) (runs : list str) (n : Z) :
  forall acc,
    In n (fold_left (fun conjunto codigo_str =>
                       match int_de_digitos max_str_digits codigo_str with
                       | Some n => conjunto ++ [n]
                       | None => conjunto
                       end) runs acc)
    <-> In n acc \/ exists run, In run runs /\ int_de_digitos max_str_digits run = Some n.
Proof.
  induction runs as [|r runs IH]; intros acc; simpl.
  - split; [auto | intros [H | (run & [] & _)]; exact H].
  - rewrite IH. destruct (int_de_digitos max_str_digits r) as [m|] eqn:E; split.
    + intros [H | (run & Hr & Hi)].
      * apply in_app_or in H as [H | [<- | []]]; [left; exact H|].
        right. exists r. split; [left; reflexivity | exact E].
      * right. exists run. split; [right; exact Hr | exact Hi].
    + intros [H | (run & [<- | Hr] & Hi)].
      * left. apply in_or_app. left. exact H.
      * left. apply in_or_app. right. left. congruence.
      * right. exists run. split; assumption.
    + intros [H | (run & Hr & Hi)]; [left; exact H|].
      right. exists run. split; [right; exact Hr | exact Hi].
    + intros [H | (run & [<- | Hr] & Hi)]; [left; exact H | congruence |].
      right. exists run. split; assumption.
Qed.

Lemma nao_disjuntos_spec (a b : list Z) :
  nao_disjuntos a b = true <-> exists n, In n a /\ In n b.
Proof.
  unfold nao_disjuntos. rewrite existsb_exists. split.
  - intros (x & Hx & H). apply existsb_exists in H as (y & Hy & E).
    apply Z.eqb_eq in E. subst y. exists x. split; assumption.
  - intros (n & Ha & Hb). exists n. split; [exact Ha|].
    apply existsb_exists. exists n. split; [exact Hb | apply Z.eqb_refl].
Qed.

(** [verificar_assuntos] in terms of the runs that [findall] returns. *)
Lemma verificar_assuntos_runs (max_str_digits : nat) (texto : str) (codigos : list Z) :
  verificar_assuntos max_str_digits (Some texto) codigos = true
  <-> exists run n,
      In run (findall_digitos texto)
      /\ int_de_digitos max_str_digits run = Some n
      /\ In n codigos.
Proof.
  unfold verificar_assuntos.
  destruct (findall_digitos texto) as [|r runs] eqn:E; cbn [truthy negb].
  - split; [discriminate | intros (run & _ & [] & _)].
  - rewrite nao_disjuntos_spec. split.
    + intros (n & Hn & Hc). apply extraidos_In in Hn as [[] | (run & Hr & Hi)].
      exists run, n. tauto.
    + intros (run & n & Hr & Hi & Hc). exists n. split; [|exact Hc].
      apply extraidos_In. right. exists run. split; assumption.
Qed.


(** Codes are matched as whole numbers: 12480 is found between letters
    and with leading zeros, not inside 124801. *)
Example verificar_assuntos_exemplos :
  verificar_assuntos 4300 (Some (py "{12521, 12480}")) [12480] = true
  /\ verificar_assuntos 4300 (Some (py "x012480y")) [12480] = true
  /\ verificar_assuntos 4300 (Some (py "{124801}")) [12480] = false
  /\ verificar_assuntos 4300 (Some (py "{}")) [12480] = false.
Proof. repeat split; vm_compute; reflexivity. Qed.

(** ** The subject filter and the tokenizer *)

Lemma isspace_nao_digito (c : ascii) : isspace c = true -> isdigit c = false.
Proof.
  unfold isspace, isdigit. set (n := N_of_ascii c). clearbody n. intros H.
  apply orb_true_iff in H. apply andb_false_iff.
  destruct H as [H | H]; apply andb_true_iff in H as [H1 H2];
    apply N.leb_le in H1, H2; left; apply N.leb_gt; lia.
Qed.

Lemma espacos_sem_digito (w : str) :
  Forall (fun c => isspace c = true) w -> Forall (fun c => isdigit c = false) w.
Proof.
  intros H. eapply Forall_impl; [|exact H]. intros c. apply isspace_nao_digito.
Qed.

Lemma findall_lstrip (s : str) : findall_digitos (lstrip s) = findall_digitos s.
Proof.
  destruct (lstrip_prefixo s) as (w & Hw & Hsp). rewrite Hw at 2.
  symmetry. apply findall_prefixo_sem_digito. apply espacos_sem_digito. exact Hsp.
Qed.

Lemma findall_rstrip (s : str) : findall_digitos (rstrip s) = findall_digitos s.
Proof.
  unfold rstrip. destruct (lstrip_prefixo (rev s)) as (w & Hw & Hsp).
  apply (f_equal (@rev ascii)) in Hw. rewrite rev_involutive, rev_app_distr in Hw.
  rewrite Hw at 2. symmetry. apply findall_sufixo_sem_digito.
  apply Forall_rev. apply espacos_sem_digito. exact Hsp.
Qed.

(** Stripping removes no digit. *)
Lemma findall_strip (s : str) : findall_digitos (strip s) = findall_digitos s.
Proof. unfold strip. rewrite findall_rstrip. apply findall_lstrip. Qed.

(** What the separator pattern matches has no digit and is not empty. *)
Lemma casa_separador_forma (s r : str) :
  casa_separador s = Some r ->
  exists m, s = m ++ r /\ m <> [] /\ Forall (fun c => isdigit c = false) m.
Proof.
  unfold casa_separador. intros H.
  destruct (lstrip_prefixo s) as (w & Hw & Hsp).
  destruct (lstrip s) as [|c r0]; [discriminate|].
  destruct (Ascii.eqb c ",") eqn:Ec; [|discriminate].
  apply Ascii.eqb_eq in Ec. subst c. injection H as <-.
  destruct (lstrip_prefixo r0) as (w' & Hw' & Hsp').
  exists (w ++ ","%char :: w'). split; [|split].
  - rewrite Hw, Hw' at 1. rewrite <- app_assoc. reflexivity.
  - destruct w; discriminate.
  - apply Forall_app. split; [apply espacos_sem_digito; exact Hsp|].
    constructor; [reflexivity | apply espacos_sem_digito; exact Hsp'].
Qed.

(** The digits of a text are the digits of its pieces. *)
Lemma findall_re_split_desde (atual s : str) :
  findall_digitos (rev atual ++ s)
  = concat (map findall_digitos (re_split_desde atual s)).
Proof.
  functional induction (re_split_desde atual s).
  - apply casa_separador_forma in e as (m & -> & Hne & Hm).
    cbn [map concat]. rewrite <- IHl. cbn [rev app].
    apply findall_separa; assumption.
  - cbn [map concat]. rewrite !app_nil_r. reflexivity.
  - rewrite <- IHl. cbn [rev]. rewrite <- app_assoc. reflexivity.
Qed.

Lemma findall_miolo (s : str) :
  startswith "{" s = true -> endswith "}" s = true ->
  findall_digitos (miolo s) = findall_digitos s.
Proof.
  unfold startswith, endswith, miolo. intros Hs He.
  destruct s as [|c x]; [discriminate|]. apply Ascii.eqb_eq in Hs. subst c.
  cbn [tl].
  destruct x as [|d x']; [simpl in He; discriminate He|].
  set (x := d :: x') in *.
  assert (Hx : x <> []) by discriminate.
  rewrite (app_removelast_last " "%char Hx) in He |- * at 2.
  rewrite app_comm_cons, rev_app_distr in He. cbn [rev app startswith] in He.
  apply Ascii.eqb_eq in He.
  change ("{"%char :: removelast x ++ [last x " "%char])
    with (["{"%char] ++ removelast x ++ [last x " "%char]).
  rewrite findall_prefixo_sem_digito by (constructor; [reflexivity | constructor]).
  rewrite findall_sufixo_sem_digito; [reflexivity|].
  rewrite He. constructor; [reflexivity | constructor].
Qed.

Lemma findall_token_de_digitos (t : str) :
  t <> [] -> Forall (fun c => isdigit c = true) t -> findall_digitos t = [t].
Proof.
  intros Hne Hd. unfold findall_digitos.
  rewrite <- (app_nil_r t) at 1.
  rewrite (findall_desde_corrida t [] Hne Hd I []). reflexivity.
Qed.

Lemma findall_pecas (pecas : list str) :
  Forall (fun t => Forall (fun c => isdigit c = true) t)
         (map strip (filter (fun item => truthy (strip item)) pecas)) ->
  concat (map findall_digitos pecas)
  = map strip (filter (fun item => truthy (strip item)) pecas).
Proof.
  induction pecas as [|p pecas IH]; intros H; [reflexivity|].
  cbn [map concat filter] in *. rewrite <- (findall_strip p).
  destruct (strip p) as [|c t] eqn:E; cbn [truthy] in *.
  - apply IH. exact H.
  - cbn [map] in H |- *. rewrite E in H |- *.
    inversion H as [|? ? Hd Hrest]; subst.
    rewrite (findall_token_de_digitos (c :: t) ltac:(discriminate) Hd).
    cbn [app]. rewrite (IH Hrest). reflexivity.
Qed.

(** On a cell whose tokens are numbers, [re.findall(r'\d+', ...)] and
    the tokenizer return the same list. *)
Lemma findall_digitos_parse_multi_valor (v : str) :
  Forall (fun t => Forall (fun c => isdigit c = true) t) (parse_multi_valor (Some v)) ->
  findall_digitos v = parse_multi_valor (Some v).
Proof.
  unfold parse_multi_valor. rewrite <- (findall_strip v).
  destruct (strip v) as [|c s] eqn:E; cbn [truthy negb]; [reflexivity|].
  rewrite <- E. clear E c s.
  set (interno := if (_ && _)%bool then miolo (strip v) else strip v).
  assert (Hi : findall_digitos interno = findall_digitos (strip v)).
  { unfold interno. destruct (startswith "{" (strip v)) eqn:E1; [|reflexivity].
    destruct (endswith "}" (strip v)) eqn:E2; [|reflexivity].
    apply findall_miolo; assumption. }
  rewrite <- Hi. clearbody interno. intros H.
  unfold re_split in *. rewrite <- (findall_pecas _ H).
  apply (findall_re_split_desde [] interno).
Qed.

(** X2. On a cell whose tokens (as parse_multi_valor returns them) are
    all made of digits, verificar_assuntos selects the cell exactly when
    one of these tokens, read as an integer, is a relevant code: the
    filter of main.py and the tokenizer of the analysis scripts see the
    same codes. *)
Theorem verificar_assuntos_concorda_com_parse_multi_valor
    (max_str_digits : nat) (celula : str) (codigos : list Z) :
  Forall (fun t => Forall (fun c => isdigit c = true) t) (parse_multi_valor (Some celula)) ->
  (verificar_assuntos max_str_digits (Some celula) codigos = true
   <-> exists token n,
       In token (parse_multi_valor (Some celula))
       /\ int_de_digitos max_str_digits token = Some n
       /\ In n codigos).
Proof.
  intros H. rewrite verificar_assuntos_runs.
  rewrite (findall_digitos_parse_multi_valor celula H). reflexivity.
Qed.

Lemma verificar_assuntos_concorda_com_parse_multi_valor_witness :
  verificar_assuntos 4300 (Some (py "{12480, 12521,  12480}")) [12521] = true
  <-> exists token n,
      In token (parse_multi_valor (Some (py "{12480, 12521,  12480}")))
      /\ int_de_digitos 4300 token = Some n
      /\ In n [12521].
Proof.
  apply (verificar_assuntos_concorda_com_parse_multi_valor 4300
           (py "{12480, 12521,  12480}") [12521]).
  vm_compute. repeat constructor.
Defined.

(* ===================================================================== *)
(** * Filtering a CSV by subject                                         *)
(* ===================================================================== *)

Lemma strip_idempotente (s : str) : strip (strip s) = strip s.
Proof. destruct (strip_limpo s) as [H1 H2]. apply strip_fixo; assumption. Qed.

Lemma mapa_nomes_eq (cabecalho : list str) :
  map strip (map strip cabecalho) = map strip cabecalho.
Proof. rewrite map_map. apply map_ext. intros s. apply strip_idempotente. Qed.

Lemma filter_todos {A} (f : A -> bool) (l : list A) :
  (forall x, In x l -> f x = true) -> filter f l = l.
Proof.
  induction l as [|x l IH]; intros H; simpl; [reflexivity|].
  rewrite (H x (or_introl eq_refl)). f_equal. apply IH. intros y Hy. apply H. right. exact Hy.
Qed.

Lemma In_conjunto (x : str) (l : list str) : In x (conjunto l) <-> In x l.
Proof. rewrite <- !pertence_In, pertence_conjunto. reflexivity. Qed.

(** The rows that the subject filter keeps. *)
Definition selecionadas (max_str_digits : nat) (codigos : list Z) (coluna_assunto : str)
    (ls : list linha) : list linha :=
  filter (fun l => verificar_assuntos max_str_digits (dict_get l coluna_assunto) codigos) ls.

(** The loop state after the rows [ls] have gone through, whatever the
    chunks were. *)
Definition estado_apos (max_str_digits : nat) (codigos : list Z) (coluna_assunto : str)
    (colunas : list str) (ls : list linha) : estado_filtro :=
  if truthy (selecionadas max_str_digits codigos coluna_assunto ls) && truthy colunas then
    {| primeiro_chunk := false;
       total_linhas_filtradas :=
         Z.of_nat (length (selecionadas max_str_digits codigos coluna_assunto ls));
       escrito := Cabecalho colunas
                  :: map Dados (projeta colunas
                                        (selecionadas max_str_digits codigos coluna_assunto ls)) |}
  else {| primeiro_chunk := true; total_linhas_filtradas := 0; escrito := [] |}.

Lemma truthy_projeta (colunas : list str) (ls : list linha) :
  truthy (projeta colunas ls) = truthy ls.
Proof. destruct ls; reflexivity. Qed.

Lemma filtra_chunk_estado_apos max_str_digits codigos coluna_assunto colunas ls chunk :
  filtra_chunk max_str_digits codigos coluna_assunto colunas
               (estado_apos max_str_digits codigos coluna_assunto colunas ls) chunk
  = estado_apos max_str_digits codigos coluna_assunto colunas (ls ++ chunk).
Proof.
  unfold filtra_chunk, estado_apos.
  fold (selecionadas max_str_digits codigos coluna_assunto chunk).
  assert (Happ : selecionadas max_str_digits codigos coluna_assunto (ls ++ chunk)
                 = selecionadas max_str_digits codigos coluna_assunto ls
                   ++ selecionadas max_str_digits codigos coluna_assunto chunk)
    by apply filter_app.
  rewrite Happ, truthy_projeta.
  set (a := selecionadas max_str_digits codigos coluna_assunto ls).
  set (b := selecionadas max_str_digits codigos coluna_assunto chunk).
  destruct colunas as [|c cs].
  - rewrite !andb_false_r. reflexivity.
  - cbn [truthy]. rewrite !andb_true_r.
    destruct b as [|y b].
    + cbn [truthy]. rewrite app_nil_r. reflexivity.
    + cbn [truthy].
      replace (truthy (a ++ y :: b)) with true by (destruct a; reflexivity).
      unfold projeta. rewrite !length_map, !map_app, length_app, Nat2Z.inj_add.
      destruct a as [|x a]; reflexivity.
Qed.

Lemma filtra_chunks_estado_apos max_str_digits codigos coluna_assunto colunas chunks :
  forall ls,
    fold_left (filtra_chunk max_str_digits codigos coluna_assunto colunas) chunks
              (estado_apos max_str_digits codigos coluna_assunto colunas ls)
    = estado_apos max_str_digits codigos coluna_assunto colunas (ls ++ concat chunks).
Proof.
  induction chunks as [|chunk chunks IH]; intros ls; simpl.
  - rewrite app_nil_r. reflexivity.
  - rewrite filtra_chunk_estado_apos, IH, <- app_assoc. reflexivity.
Qed.

(** The call when the header check and the read succeed. *)
Lemma filtrar_csv_por_assunto_colunas_ok max_str_digits csv anterior codigos coluna_assunto
    colunas_manter chunksize :
  Forall (fun col => In col (colunas_presentes csv) /\ strip col = col)
         (coluna_assunto :: colunas_manter) ->
  filtrar_csv_por_assunto max_str_digits csv anterior codigos coluna_assunto colunas_manter chunksize
  = ([], saida_final anterior
           (estado_apos max_str_digits codigos coluna_assunto colunas_manter (linhas csv))).
Proof.
  intros Hcols. unfold filtrar_csv_por_assunto. rewrite mapa_nomes_eq.
  assert (Hmapa : forall col, In col (coluna_assunto :: colunas_manter) ->
                              pertence col (map strip (colunas_presentes csv)) = true).
  { intros col Hin. apply pertence_In.
    destruct (proj1 (Forall_forall _ _) Hcols col Hin) as [Hc Hs].
    rewrite <- Hs. apply in_map. exact Hc. }
  rewrite (filter_todos (fun col => pertence col (map strip (colunas_presentes csv)))
                        colunas_manter)
    by (intros x Hx; apply Hmapa; right; exact Hx).
  rewrite (filter_vazio_se_nenhum
             (fun col => negb (pertence col (map strip (colunas_presentes csv))))
             colunas_manter)
    by (intros x Hx; rewrite (Hmapa x (or_intror Hx)); reflexivity).
  cbn [truthy]. rewrite (Hmapa coluna_assunto (or_introl eq_refl)). cbn [negb].
  assert (Hler : forallb (fun col => pertence col (colunas_presentes csv))
                         (conjunto (coluna_assunto :: colunas_manter)) = true).
  { apply forallb_forall. intros col Hin. apply (proj1 (In_conjunto _ _)) in Hin. apply pertence_In.
    exact (proj1 (proj1 (Forall_forall _ _) Hcols col Hin)). }
  rewrite Hler. cbn [negb]. f_equal. f_equal.
  change {| primeiro_chunk := true; total_linhas_filtradas := 0; escrito := [] |}
    with (estado_apos max_str_digits codigos coluna_assunto colunas_manter []).
  rewrite filtra_chunks_estado_apos, read_csv_chunks_concat. reflexivity.
Qed.

(** X3. When the subject column and the requested columns are columns of
    the file (written without surrounding spaces) and some row is
    selected, filtrar_csv_por_assunto leaves at the output path one
    header line with the requested columns followed by the selected
    rows, in the order of the source, each reduced to the requested
    columns; the chunk size plays no part. *)
Theorem filtrar_csv_por_assunto_escreve_selecionadas
    (max_str_digits : nat) (csv : fonte) (anterior : option Z) (codigos : list Z)
    (coluna_assunto : str) (colunas_manter : list str) (chunksize : positive) :
  Forall (fun col => In col (colunas_presentes csv) /\ strip col = col)
         (coluna_assunto :: colunas_manter) ->
  colunas_manter <> [] ->
  (exists l, In l (linhas csv)
             /\ verificar_assuntos max_str_digits (dict_get l coluna_assunto) codigos = true) ->
  filtrar_csv_por_assunto max_str_digits csv anterior codigos coluna_assunto colunas_manter chunksize
  = ([], Novo (Cabecalho colunas_manter
               :: map Dados (projeta colunas_manter
                               (filter (fun l => verificar_assuntos max_str_digits
                                                   (dict_get l coluna_assunto) codigos)
                                       (linhas csv))))).
Proof.
  intros Hcols Hne (l & Hl & Hv).
  rewrite filtrar_csv_por_assunto_colunas_ok by exact Hcols.
  unfold estado_apos, selecionadas.
  rewrite (filter_truthy_se_algum _ _ l Hl Hv).
  destruct colunas_manter; [congruence|]. reflexivity.
Qed.

Definition fonte_assuntos : fonte :=
  {| colunas_presentes := [py "Processo"; py "Codigos assuntos"];
     linhas := [ [(py "Processo", py "p1"); (py "Codigos assuntos", py "{12480, 999}")];
                 [(py "Processo", py "p2"); (py "Codigos assuntos", py "{7}")];
                 [(py "Processo", py "p3")];
                 [(py "Processo", py "p4"); (py "Codigos assuntos", py "{1, 12521}")] ] |}.

Lemma filtrar_csv_por_assunto_escreve_selecionadas_witness :
  filtrar_csv_por_assunto 4300 fonte_assuntos (Some 5000) [12480; 12521]
    (py "Codigos assuntos") [py "Processo"; py "Codigos assuntos"] 2
  = ([], Novo (Cabecalho [py "Processo"; py "Codigos assuntos"]
               :: map Dados (projeta [py "Processo"; py "Codigos assuntos"]
                               (filter (fun l => verificar_assuntos 4300
                                                   (dict_get l (py "Codigos assuntos"))
                                                   [12480; 12521])
                                       (linhas fonte_assuntos))))).
Proof.
  apply (filtrar_csv_por_assunto_escreve_selecionadas 4300 fonte_assuntos (Some 5000)
           [12480; 12521] (py "Codigos assuntos") [py "Processo"; py "Codigos assuntos"] 2).
  - repeat (apply Forall_cons || apply Forall_nil);
      (split; [vm_compute; auto | vm_compute; reflexivity]).
  - discriminate.
  - exists [(py "Processo", py "p1"); (py "Codigos assuntos", py "{12480, 999}")].
    split; [simpl; auto | vm_compute; reflexivity].
Defined.

(** X4. When no row is selected (the columns being in order),
    filtrar_csv_por_assunto writes nothing: an output path without file
    stays without file, a file of less than 100 bytes found there is
    removed, and a larger file found there is left as it was. *)
Theorem filtrar_csv_por_assunto_sem_selecionadas
    (max_str_digits : nat) (csv : fonte) (anterior : option Z) (codigos : list Z)
    (coluna_assunto : str) (colunas_manter : list str) (chunksize : positive) :
  Forall (fun col => In col (colunas_presentes csv) /\ strip col = col)
         (coluna_assunto :: colunas_manter) ->
  (forall l, In l (linhas csv) ->
             verificar_assuntos max_str_digits (dict_get l coluna_assunto) codigos = false) ->
  filtrar_csv_por_assunto max_str_digits csv anterior codigos coluna_assunto colunas_manter chunksize
  = ([], match anterior with
         | Some tamanho => if tamanho <? 100 then Inexistente else Anterior tamanho
         | None => Inexistente
         end).
Proof.
  intros Hcols Hnone.
  rewrite filtrar_csv_por_assunto_colunas_ok by exact Hcols.
  assert (E : selecionadas max_str_digits codigos coluna_assunto (linhas csv) = [])
    by (apply filter_vazio_se_nenhum; exact Hnone).
  unfold estado_apos. rewrite E. reflexivity.
Qed.

Lemma filtrar_csv_por_assunto_sem_selecionadas_witness :
  filtrar_csv_por_assunto 4300 fonte_assuntos (Some 5000) [42]
    (py "Codigos assuntos") [py "Processo"] 2
  = ([], if 5000 <? 100 then Inexistente else Anterior 5000).
Proof.
  apply (filtrar_csv_por_assunto_sem_selecionadas 4300 fonte_assuntos (Some 5000) [42]
           (py "Codigos assuntos") [py "Processo"] 2).
  - repeat (apply Forall_cons || apply Forall_nil);
      (split; [vm_compute; auto | vm_compute; reflexivity]).
  - intros l Hl. simpl in Hl.
    destruct Hl as [<- | [<- | [<- | [<- | []]]]]; vm_compute; reflexivity.
Defined.



(** X6. The header check compares names with their surrounding spaces
    removed, the read uses the names as they are in the file: when every
    requested name passes the check but one of them is written with
    surrounding spaces in the file, the read fails, the unexpected error
    is logged and the output path is left as it was. *)
Theorem filtrar_csv_por_assunto_nome_com_espacos
    (max_str_digits : nat) (csv : fonte) (anterior : option Z) (codigos : list Z)
    (coluna_assunto : str) (colunas_manter : list str) (chunksize : positive) :
  (forall col, In col (coluna_assunto :: colunas_manter) ->
               In col (map strip (colunas_presentes csv))) ->
  (exists col, In col (coluna_assunto :: colunas_manter)
               /\ ~ In col (colunas_presentes csv)) ->
  filtrar_csv_por_assunto max_str_digits csv anterior codigos coluna_assunto colunas_manter chunksize
  = ([ErroInesperadoFiltragem], saida_inicial anterior).
Proof.
  intros Hmapa (col & Hin & Hau). unfold filtrar_csv_por_assunto. rewrite mapa_nomes_eq.
  assert (Hm : forall c, In c (coluna_assunto :: colunas_manter) ->
                         pertence c (map strip (colunas_presentes csv)) = true)
    by (intros c Hc; apply pertence_In, Hmapa; exact Hc).
  rewrite (filter_todos (fun c => pertence c (map strip (colunas_presentes csv)))
                        colunas_manter)
    by (intros x Hx; apply Hm; right; exact Hx).
  rewrite (filter_vazio_se_nenhum
             (fun c => negb (pertence c (map strip (colunas_presentes csv))))
             colunas_manter)
    by (intros x Hx; rewrite (Hm x (or_intror Hx)); reflexivity).
  cbn [truthy]. rewrite (Hm coluna_assunto (or_introl eq_refl)). cbn [negb].
  assert (Hler : forallb (fun c => pertence c (colunas_presentes csv))
                         (conjunto (coluna_assunto :: colunas_manter)) = false).
  { destruct (forallb _ _) eqn:E; [|reflexivity].
    exfalso. apply Hau. apply pertence_In.
    apply (proj1 (forallb_forall _ _) E). apply (proj2 (In_conjunto _ _)). exact Hin. }
  rewrite Hler. reflexivity.
Qed.

Definition fonte_nome_com_espacos : fonte :=
  {| colunas_presentes := [py " Processo"; py "Codigos assuntos"];
     linhas := [ [(py " Processo", py "p1"); (py "Codigos assuntos", py "{12480}")] ] |}.

Lemma filtrar_csv_por_assunto_nome_com_espacos_witness :
  filtrar_csv_por_assunto 4300 fonte_nome_com_espacos None [12480]
    (py "Codigos assuntos") [py "Processo"] 2
  = ([ErroInesperadoFiltragem], saida_inicial None).
Proof.
  apply (filtrar_csv_por_assunto_nome_com_espacos 4300 fonte_nome_com_espacos None [12480]
           (py "Codigos assuntos") [py "Processo"] 2).
  - intros col Hin. simpl in Hin. destruct Hin as [<- | [<- | []]]; vm_compute; auto.
  - exists (py "Processo"). split; [simpl; auto|].
    vm_compute. intros [E | [E | []]]; discriminate E.
Defined.

(* ===================================================================== *)
(** * Consolidating the regional files                                   *)
(* ===================================================================== *)

(** The file can be read and has rows (and columns). *)
Definition tem_dados (arquivo : option fonte) : bool :=
  match arquivo with
  | Some csv => truthy (linhas csv) && truthy (colunas_presentes csv)
  | None => false
  end.

(** The data lines that a regional file contributes. *)
Definition dados_de (arquivo : option fonte) : list registro_csv :=
  if tem_dados arquivo then
    match arquivo with
    | Some csv => map Dados (projeta (colunas_presentes csv) (linhas csv))
    | None => []
    end
  else [].

(** The header line of the consolidated file: the columns of the first
    regional file that has rows. *)
Definition cabecalho_consolidado (arquivos : list (option fonte)) : list registro_csv :=
  match find tem_dados arquivos with
  | Some (Some csv) => [Cabecalho (colunas_presentes csv)]
  | _ => []
  end.

Definition erros_de_leitura (arquivos : list (option fonte)) : list evento_main :=
  concat (map (fun a => match a with None => [ErroRegional] | Some _ => @nil evento_main end)
              arquivos).

Definition total_de_linhas (arquivos : list (option fonte)) : Z :=
  Z.of_nat (length (concat (map dados_de arquivos))).

(** The loop state after the files [arquivos], whatever the chunks. *)
Definition consolidacao_apos (arquivos : list (option fonte)) : estado_consolidacao :=
  {| primeiro_arquivo := negb (existsb tem_dados arquivos);
     total_linhas_consolidadas := total_de_linhas arquivos;
     consolidado := cabecalho_consolidado arquivos ++ concat (map dados_de arquivos);
     erros := erros_de_leitura arquivos |}.

Lemma agrupa_nao_vazios {A} (n k : nat) (atual ls : list A) :
  Forall (fun chunk => chunk <> []) (agrupa n k atual ls).
Proof.
  revert k atual. induction ls as [|l ls IH]; intros k atual; simpl.
  - destruct atual as [|a atual]; constructor; [|constructor].
    intros E. apply (f_equal (@length A)) in E. rewrite length_rev in E. discriminate E.
  - assert (Hne : rev atual ++ [l] <> []) by (destruct (rev atual); discriminate).
    destruct k as [|[|k']]; try apply IH; constructor; try exact Hne; apply IH.
Qed.

Lemma projeta_app (colunas : list str) (a b : list linha) :
  projeta colunas (a ++ b) = projeta colunas a ++ projeta colunas b.
Proof. apply map_app. Qed.

(** The chunks of one file with rows, from chunk number [k] on. *)
Lemma consolida_chunks (colunas : list str) (chunks : list (list linha)) :
  colunas <> [] -> chunks <> [] -> Forall (fun chunk => chunk <> []) chunks ->
  forall k est,
    fold_left (consolida_chunk colunas) (combine (seq k (length chunks)) chunks) est
    = {| primeiro_arquivo := false;
         total_linhas_consolidadas :=
           total_linhas_consolidadas est + Z.of_nat (length (concat chunks));
         consolidado := consolidado est
                        ++ (if primeiro_arquivo est && (k =? 0)%nat
                            then [Cabecalho colunas] else [])
                        ++ map Dados (projeta colunas (concat chunks));
         erros := erros est |}.
Proof.
  intros Hcols Hne Hall. induction chunks as [|chunk chunks IH]; [congruence|].
  intros k est. inversion Hall as [|? ? Hchunk Hrest]; subst.
  cbn [length seq combine fold_left].
  assert (Hpasso : consolida_chunk colunas est (k, chunk)
                   = {| primeiro_arquivo := false;
                        total_linhas_consolidadas :=
                          total_linhas_consolidadas est + Z.of_nat (length chunk);
                        consolidado := consolidado est
                                       ++ (if primeiro_arquivo est && (k =? 0)%nat
                                           then [Cabecalho colunas] else [])
                                       ++ map Dados (projeta colunas chunk);
                        erros := erros est |}).
  { unfold consolida_chunk. destruct chunk; [congruence|]. destruct colunas; [congruence|].
    reflexivity. }
  rewrite Hpasso. destruct chunks as [|chunk2 chunks].
  - cbn [length seq combine fold_left concat]. rewrite app_nil_r. reflexivity.
  - rewrite (IH ltac:(discriminate) Hrest).
    cbn [primeiro_arquivo total_linhas_consolidadas consolidado erros andb].
    change (concat (chunk :: chunk2 :: chunks)) with (chunk ++ concat (chunk2 :: chunks)).
    rewrite (length_app chunk), Nat2Z.inj_add, projeta_app, map_app.
    f_equal; [lia|]. rewrite <- !app_assoc. reflexivity.
Qed.

Lemma consolida_arquivo_com_dados (chunksize : positive) (csv : fonte) (est : estado_consolidacao) :
  tem_dados (Some csv) = true ->
  consolida_arquivo chunksize est (Some csv)
  = {| primeiro_arquivo := false;
       total_linhas_consolidadas :=
         total_linhas_consolidadas est + Z.of_nat (length (linhas csv));
       consolidado := consolidado est
                      ++ (if primeiro_arquivo est then [Cabecalho (colunas_presentes csv)] else [])
                      ++ map Dados (projeta (colunas_presentes csv) (linhas csv));
       erros := erros est |}.
Proof.
  unfold tem_dados. intros H. apply andb_true_iff in H as [Hl Hc].
  unfold consolida_arquivo, enumerate.
  pose proof (read_csv_chunks_concat chunksize (linhas csv)) as Hconcat.
  assert (Hchunks : read_csv_chunks chunksize (linhas csv) <> []
                    /\ Forall (fun chunk => chunk <> []) (read_csv_chunks chunksize (linhas csv))).
  { unfold read_csv_chunks in *. destruct (linhas csv) as [|l ls]; [discriminate Hl|].
    split; [|apply agrupa_nao_vazios].
    intros E. rewrite E in Hconcat. discriminate Hconcat. }
  destruct Hchunks as [Hne Hall].
  rewrite (consolida_chunks (colunas_presentes csv) _
             ltac:(destruct (colunas_presentes csv); [discriminate Hc | discriminate])
             Hne Hall 0%nat est).
  rewrite Hconcat, andb_true_r. reflexivity.
Qed.

Lemma consolida_arquivo_sem_dados (chunksize : positive) (csv : fonte) (est : estado_consolidacao) :
  tem_dados (Some csv) = false ->
  consolida_arquivo chunksize est (Some csv) = est.
Proof.
  unfold tem_dados, consolida_arquivo, enumerate. intros H.
  assert (Hpasso : forall pares e,
             (forall i chunk, In (i, chunk) pares ->
                              truthy chunk && truthy (colunas_presentes csv) = false) ->
             fold_left (consolida_chunk (colunas_presentes csv)) pares e = e).
  { induction pares as [|[i chunk] pares IH]; intros e Hp; simpl; [reflexivity|].
    rewrite (Hp i chunk (or_introl eq_refl)). cbn [negb].
    apply IH. intros j c Hj. apply (Hp j c). right. exact Hj. }
  apply Hpasso. intros i chunk Hin.
  apply andb_false_iff in H as [Hl | Hc]; [|rewrite Hc; apply andb_false_r].
  destruct (linhas csv) as [|l ls]; [|discriminate Hl].
  simpl in Hin. destruct Hin as [E | []]. injection E as _ <-. reflexivity.
Qed.

Lemma sem_dados_concat (arquivos : list (option fonte)) :
  existsb tem_dados arquivos = false -> concat (map dados_de arquivos) = [].
Proof.
  induction arquivos as [|a arquivos IH]; intros H; [reflexivity|].
  cbn [existsb] in H. apply orb_false_iff in H as [Ha Hr].
  cbn [map concat]. unfold dados_de at 1. rewrite Ha. apply IH. exact Hr.
Qed.

Lemma find_app_sem_dados (a : option fonte) (arquivos : list (option fonte)) :
  find tem_dados (arquivos ++ [a])
  = match find tem_dados arquivos with
    | Some x => Some x
    | None => if tem_dados a then Some a else None
    end.
Proof.
  induction arquivos as [|b arquivos IH]; simpl.
  - destruct (tem_dados a); reflexivity.
  - destruct (tem_dados b); [reflexivity | exact IH].
Qed.

Lemma find_existsb_sem_dados (arquivos : list (option fonte)) :
  existsb tem_dados arquivos = false -> find tem_dados arquivos = None.
Proof.
  induction arquivos as [|b arquivos IH]; simpl; [reflexivity|].
  destruct (tem_dados b); [discriminate | exact IH].
Qed.

Lemma find_existsb_com_dados (arquivos : list (option fonte)) :
  existsb tem_dados arquivos = true -> exists x, find tem_dados arquivos = Some x.
Proof.
  induction arquivos as [|b arquivos IH]; simpl; [discriminate|].
  destruct (tem_dados b); [eexists; reflexivity | exact IH].
Qed.

Lemma consolida_arquivo_apos (chunksize : positive) (arquivos : list (option fonte))
    (a : option fonte) :
  consolida_arquivo chunksize (consolidacao_apos arquivos) a = consolidacao_apos (arquivos ++ [a]).
Proof.
  unfold consolidacao_apos, cabecalho_consolidado, total_de_linhas, erros_de_leitura.
  rewrite !map_app, !concat_app, existsb_app, find_app_sem_dados.
  cbn [map concat existsb]. rewrite !app_nil_r, orb_false_r.
  destruct a as [csv|].
  - destruct (tem_dados (Some csv)) eqn:Ed.
    + assert (Hd : dados_de (Some csv)
                   = map Dados (projeta (colunas_presentes csv) (linhas csv)))
        by (unfold dados_de; rewrite Ed; reflexivity).
      rewrite (consolida_arquivo_com_dados chunksize csv _ Ed), Hd.
      cbn [primeiro_arquivo total_linhas_consolidadas consolidado erros].
      rewrite orb_true_r. cbn [negb].
      rewrite length_app, Nat2Z.inj_add. unfold projeta at 2. rewrite !length_map.
      rewrite (app_nil_r (concat (map _ arquivos))).
      f_equal.
      destruct (existsb tem_dados arquivos) eqn:Ee; cbn [negb].
      * destruct (find_existsb_com_dados _ Ee) as [x Hx]. rewrite Hx.
        cbn [app]. rewrite <- app_assoc. reflexivity.
      * rewrite (find_existsb_sem_dados _ Ee), (sem_dados_concat _ Ee). reflexivity.
    + assert (Hd : dados_de (Some csv) = []) by (unfold dados_de; rewrite Ed; reflexivity).
      rewrite (consolida_arquivo_sem_dados chunksize csv _ Ed), Hd.
      rewrite orb_false_r, !app_nil_r.
      destruct (find tem_dados arquivos); reflexivity.
  - assert (Hd : dados_de None = []) by reflexivity. rewrite Hd.
    cbn [consolida_arquivo primeiro_arquivo total_linhas_consolidadas consolidado erros tem_dados].
    rewrite orb_false_r, !app_nil_r.
    destruct (find tem_dados arquivos); reflexivity.
Qed.

Lemma consolida_arquivos_apos (chunksize : positive) (novos : list (option fonte)) :
  forall arquivos,
    fold_left (consolida_arquivo chunksize) novos (consolidacao_apos arquivos)
    = consolidacao_apos (arquivos ++ novos).
Proof.
  induction novos as [|a novos IH]; intros arquivos; simpl.
  - rewrite app_nil_r. reflexivity.
  - rewrite consolida_arquivo_apos, IH, <- app_assoc. reflexivity.
Qed.

(** X7. With at least one regional file, consolidar_csvs_regionais
    rewrites the output file as: the header of the first readable file
    that has rows, then the rows of all readable files in the order of
    the files, each row under the columns of its own file (the headers
    are not compared); a file that cannot be read is skipped with one
    logged error; the chunk size plays no part. *)
Theorem consolidar_csvs_regionais_concatena
    (arquivos : list (option fonte)) (anterior : option Z) (chunksize : positive) :
  arquivos <> [] ->
  consolidar_csvs_regionais arquivos anterior chunksize
  = (erros_de_leitura arquivos,
     Novo (cabecalho_consolidado arquivos ++ concat (map dados_de arquivos))).
Proof.
  intros Hne. unfold consolidar_csvs_regionais.
  destruct arquivos as [|a arquivos]; [congruence|]. cbn [truthy negb].
  change {| primeiro_arquivo := true; total_linhas_consolidadas := 0;
            consolidado := []; erros := [] |}
    with (consolidacao_apos []).
  rewrite consolida_arquivos_apos. reflexivity.
Qed.

Definition fonte_regiao_1 : fonte :=
  {| colunas_presentes := [py "Processo"; py "Ano"];
     linhas := [ [(py "Processo", py "p1"); (py "Ano", py "2020")];
                 [(py "Processo", py "p2")] ] |}.

Definition fonte_regiao_2 : fonte :=
  {| colunas_presentes := [py "Ano"; py "Processo"];
     linhas := [ [(py "Processo", py "p3"); (py "Ano", py "2021")] ] |}.

Definition fonte_sem_linhas : fonte :=
  {| colunas_presentes := [py "Processo"]; linhas := [] |}.

Lemma consolidar_csvs_regionais_concatena_witness :
  consolidar_csvs_regionais [Some fonte_sem_linhas; None; Some fonte_regiao_1; Some fonte_regiao_2]
                            (Some 10) 1
  = (erros_de_leitura [Some fonte_sem_linhas; None; Some fonte_regiao_1; Some fonte_regiao_2],
     Novo (cabecalho_consolidado
             [Some fonte_sem_linhas; None; Some fonte_regiao_1; Some fonte_regiao_2]
           ++ concat (map dados_de
                          [Some fonte_sem_linhas; None; Some fonte_regiao_1; Some fonte_regiao_2]))).
Proof.
  apply (consolidar_csvs_regionais_concatena
           [Some fonte_sem_linhas; None; Some fonte_regiao_1; Some fonte_regiao_2] (Some 10) 1).
  discriminate.
Defined.

(** The consolidated lines of the example: one header (of the first
    file with rows), the rows of the second regional file under their
    own column order. *)
Example consolidar_csvs_regionais_exemplo :
  consolidar_csvs_regionais [Some fonte_sem_linhas; None; Some fonte_regiao_1; Some fonte_regiao_2]
                            (Some 10) 1
  = ([ErroRegional],
     Novo [ Cabecalho [py "Processo"; py "Ano"];
            Dados [Some (py "p1"); Some (py "2020")];
            Dados [Some (py "p2"); None];
            Dados [Some (py "2021"); Some (py "p3")] ]).
Proof. vm_compute. reflexivity. Qed.

(* ===================================================================== *)
(** * More on the tokenizer and on the ranking                           *)
(* ===================================================================== *)

(** X8. Every token that parse_multi_valor returns is non-empty, has no
    comma, and is its own strip (no whitespace at either end), whatever
    the cell. *)
Theorem parse_multi_valor_tokens_limpos (celula : option str) :
  Forall (fun t => t <> [] /\ ~ In ","%char t /\ strip t = t) (parse_multi_valor celula).
Proof.
  pose proof (parse_multi_valor_limpo celula) as H.
  apply Forall_forall. intros t Ht.
  destruct (proj1 (Forall_forall _ _) H t Ht) as (Hne & Hv & Hc & Hf).
  repeat split; try assumption. apply strip_fixo; assumption.
Qed.

(** The counts of a distribution never increase from one entry to the
    next. *)
Fixpoint decrescente (s : Series) : Prop :=
  match s with
  | [] => True
  | x :: l => Forall (fun y => snd y <= snd x) l /\ decrescente l
  end.

Lemma insere_desc_decrescente (x : str * Z) (l : Series) :
  decrescente l -> decrescente (insere_desc x l).
Proof.
  induction l as [|y l IH]; intros Hl; simpl.
  - split; [constructor | exact I].
  - destruct Hl as [Hy Hl]. destruct (snd y <=? snd x) eqn:E.
    + apply Z.leb_le in E. split; [|split; assumption].
      constructor; [exact E|].
      eapply Forall_impl; [|exact Hy]. intros z Hz. simpl in Hz. lia.
    + apply Z.leb_gt in E. split; [|apply IH; exact Hl].
      apply Forall_forall. intros z Hz.
      apply (Permutation_in _ (insere_desc_perm x l)) in Hz.
      destruct Hz as [<- | Hz]; [lia|].
      exact (proj1 (Forall_forall _ _) Hy z Hz).
Qed.

Lemma sort_values_desc_decrescente (s : Series) : decrescente (sort_values_desc s).
Proof.
  induction s as [|x s IH]; [exact I|]. apply insere_desc_decrescente. exact IH.
Qed.

(** An entry of a completed scan is the empty entry or comes out of
    [finaliza]. *)
Lemma varredura_entrada chunksize csv cols res col d :
  varredura_completa chunksize csv cols res ->
  dict_get res col = Some d ->
  d = dados_vazios \/ exists contador sigilosos, d = finaliza contador sigilosos.
Proof.
  intros [(filtrar & filtro & palavras & registro & H) | (natjur & palavras & registro & H)] Hget.
  - apply gerar_analisar_Some in H as (fl & lidas & est & Hfold & ->).
    unfold GerarRelatorio.resultados_finais in Hget.
    rewrite (dict_get_fold_set
               (fun c => if negb (pertence c (existentes_em csv cols)) then dados_vazios
                         else finaliza (dict_get_ou (v_contadores est) c [])
                                       (dict_get_ou (v_contagem_sigiloso est) c 0))) in Hget.
    destruct (pertence col cols); [|discriminate].
    injection Hget as <-. destruct (negb _); [left; reflexivity|].
    right. eexists. eexists. reflexivity.
  - apply sus_analisar_Some in H as (lidas & est & Hfold & H).
    destruct (pertence col cols) eqn:Ec.
    + apply pertence_In in Ec.
      rewrite (sus_resultados_finais_get _ _ _ _ _ H Ec) in Hget.
      unfold sus_entrada in Hget. destruct (negb _).
      * injection Hget as <-. left. reflexivity.
      * destruct (dict_get (v_contadores est) col) as [c|]; [|discriminate].
        destruct (dict_get (v_contagem_sigiloso est) col) as [z|]; [|discriminate].
        injection Hget as <-. right. exists c, z. reflexivity.
    + unfold AnaliseOutputSus.resultados_finais in H.
      rewrite (foldM_ext _ (fun d c => match sus_entrada (colunas_presentes csv) est c with
                                       | Some v => Some (dict_set d c v)
                                       | None => None end)) in H.
      2:{ intros s0 a. unfold sus_entrada.
          destruct (negb (pertence a (colunas_presentes csv))); [reflexivity|].
          destruct (dict_get (v_contadores est) a); [|reflexivity].
          destruct (dict_get (v_contagem_sigiloso est) a); reflexivity. }
      rewrite (dict_get_foldM_set _ _ _ _ col H) in Hget. rewrite Ec in Hget. discriminate.
Qed.

Lemma decrescente_firstn_skipn (s : Series) :
  decrescente s ->
  forall k x y, In x (firstn k s) -> In y (skipn k s) -> snd y <= snd x.
Proof.
  induction s as [|a s IH]; intros Hd k x y Hx Hy.
  - destruct k; destruct Hx.
  - destruct Hd as [Ha Hd]. destruct k as [|k]; [destruct Hx|].
    cbn [firstn skipn] in Hx, Hy. destruct Hx as [<- | Hx].
    + apply (proj1 (Forall_forall _ _) Ha y).
      rewrite <- (firstn_skipn k s). apply in_or_app. right. exact Hy.
    + exact (IH Hd k x y Hx Hy).
Qed.

(** [head] keeps a prefix. *)
Lemma head_prefixo (n : Z) (s : Series) :
  exists k, (k <= length s)%nat /\ head n s = firstn k s.
Proof.
  unfold head. destruct (0 <=? n).
  - exists (Nat.min (Z.to_nat n) (length s)). split; [apply Nat.le_min_r|].
    rewrite <- (firstn_all s) at 1. rewrite firstn_firstn. reflexivity.
  - exists (length s - Z.to_nat (- n))%nat. split; [lia | reflexivity].
Qed.

(** X9. In every entry of a completed scan
    (gerar_relatorio_analise_cnj.py or analise_output_sus.py) the
    distribution is ranked: the counts never increase from one entry to
    the next, so the entries that head(top_n) keeps for the table have
    counts at least as large as every entry left out. *)
Theorem varredura_em_ordem_decrescente
    (chunksize : positive) (csv : fonte) (colunas_analise : list str)
    (res : dict dados_contagem) (coluna : str) (d : dados_contagem) (s : Series) (top_n : Z) :
  varredura_completa chunksize csv colunas_analise res ->
  dict_get res coluna = Some d ->
  contagens d = Some s ->
  decrescente s
  /\ forall x y, In x (head top_n s) -> In y (skipn (length (head top_n s)) s) ->
                 snd y <= snd x.
Proof.
  intros Hscan Hget Hs.
  assert (Hd : decrescente s).
  { destruct (varredura_entrada _ _ _ _ _ _ Hscan Hget) as [-> | (c & z & ->)].
    - injection Hs as <-. exact I.
    - unfold finaliza in Hs. destruct (_ =? 0); injection Hs as <-;
        [exact I | apply sort_values_desc_decrescente]. }
  split; [exact Hd|].
  destruct (head_prefixo top_n s) as (k & Hk & ->).
  rewrite length_firstn, Nat.min_l by exact Hk.
  apply decrescente_firstn_skipn. exact Hd.
Qed.

Lemma varredura_em_ordem_decrescente_witness :
  decrescente [(py "A", 2); (py "B", 1)]
  /\ forall x y, In x (head 1 [(py "A", 2); (py "B", 1)]) ->
                 In y (skipn (length (head 1 [(py "A", 2); (py "B", 1)]))
                             [(py "A", 2); (py "B", 1)]) ->
                 snd y <= snd x.
Proof.
  apply (varredura_em_ordem_decrescente 2 fonte_cenario [X_; Y_] resultado_cenario X_
           dados_cenario [(py "A", 2); (py "B", 1)] 1).
  - left. exists false, None, [], []. vm_compute. reflexivity.
  - reflexivity.
  - reflexivity.
Defined.

(* ===================================================================== *)
(** * The rows of the formatted table                                    *)
(* ===================================================================== *)

(** The sum of the Contagem column. *)
Definition soma_contagens (t : list linha_tabela) : Z := fold_right Z.add 0 (map Contagem t).

Lemma soma_contagens_app (a b : list linha_tabela) :
  soma_contagens (a ++ b) = soma_contagens a + soma_contagens b.
Proof.
  unfold soma_contagens. induction a as [|x a IH]; simpl; [reflexivity|]. rewrite IH. lia.
Qed.

Lemma soma_contagens_top_n (s : Series) (total : Z) :
  soma_contagens (linhas_top_n s total) = soma s.
Proof.
  unfold soma_contagens, linhas_top_n, soma. rewrite map_map. reflexivity.
Qed.

Lemma soma_app (a b : Series) : soma (a ++ b) = soma a + soma b.
Proof.
  unfold soma. induction a as [|x a IH]; simpl; [reflexivity|]. rewrite IH. lia.
Qed.

Lemma soma_nao_negativa (c : Series) : Forall (fun ic => 0 <= snd ic) c -> 0 <= soma c.
Proof.
  unfold soma. induction 1 as [|x c Hx _ IH]; simpl; lia.
Qed.

(** The entries that [head] leaves out. *)
Definition fora_do_top (top_n : Z) (c : Series) : Series := skipn (length (head top_n c)) c.

Lemma head_fora_do_top (top_n : Z) (c : Series) : head top_n c ++ fora_do_top top_n c = c.
Proof.
  unfold fora_do_top. destruct (head_prefixo top_n c) as (k & Hk & ->).
  rewrite length_firstn, Nat.min_l by exact Hk. apply firstn_skipn.
Qed.

Lemma soma_head (top_n : Z) (c : Series) :
  soma c = soma (head top_n c) + soma (fora_do_top top_n c).
Proof. rewrite <- (head_fora_do_top top_n c) at 1. apply soma_app. Qed.

Lemma head_tudo (top_n : Z) (c : Series) :
  Z.of_nat (length c) <= top_n -> head top_n c = c.
Proof.
  intros H. unfold head. destruct (0 <=? top_n) eqn:E; [|apply Z.leb_gt in E; lia].
  apply firstn_all2. lia.
Qed.

(** X10. For a result that keeps the accounting identity (distribution
    counts, none negative, plus a non-negative confidential count equal
    to the total), as every completed scan returns, the rows that
    formatar_tabela_analise puts above TOTAL GERAL (items, Outros,
    Sigiloso) have counts that add up to the count of the TOTAL GERAL
    row; both copies of the function return that table. *)
Theorem formatar_tabela_analise_linhas_somam_total
    (dados : dados_contagem) (top_n : Z) (c : Series) (tabela : list linha_tabela) :
  contagens dados = Some c ->
  soma c + contagem_sigiloso dados = total_ocorrencias dados ->
  0 <= contagem_sigiloso dados ->
  Forall (fun ic => 0 <= snd ic) c ->
  RelatorioExport.formatar_tabela_analise dados top_n = Some tabela ->
  GerarRelatorio.formatar_tabela_analise dados top_n = Some tabela
  /\ exists linhas,
       tabela = linhas ++ [linha_total (total_ocorrencias dados)]
       /\ soma_contagens linhas = total_ocorrencias dados.
Proof.
  intros Hc Hsoma Hsig Hpos Htab.
  split; [rewrite formatar_tabela_analise_copias; exact Htab|].
  unfold RelatorioExport.formatar_tabela_analise in Htab. rewrite Hc in Htab.
  destruct (total_ocorrencias dados =? 0); [discriminate|]. cbv zeta in Htab.
  pose proof (soma_head top_n c) as Hh.
  assert (Hfora : 0 <= soma (fora_do_top top_n c)).
  { apply soma_nao_negativa. apply Forall_forall. intros x Hx.
    apply (proj1 (Forall_forall _ _) Hpos). rewrite <- (head_fora_do_top top_n c).
    apply in_or_app. right. exact Hx. }
  set (total := total_ocorrencias dados) in *.
  set (sig := contagem_sigiloso dados) in *.
  set (outros := total - sig - soma (head top_n c)) in *.
  assert (Houtros : outros = soma (fora_do_top top_n c)) by (unfold outros; lia).
  set (com_outros := if ((top_n <? Z.of_nat (length c)) && (0 <? outros))%bool
                     then linhas_top_n (head top_n c) total
                          ++ [linha_outros (Z.of_nat (length c)) top_n outros total]
                     else linhas_top_n (head top_n c) total) in *.
  assert (H1 : soma_contagens com_outros = soma c).
  { unfold com_outros. destruct (top_n <? Z.of_nat (length c)) eqn:E1; cbn [andb].
    - destruct (0 <? outros) eqn:E2.
      + rewrite soma_contagens_app, soma_contagens_top_n. unfold soma_contagens. simpl. lia.
      + apply Z.ltb_ge in E2. rewrite soma_contagens_top_n. lia.
    - apply Z.ltb_ge in E1. rewrite soma_contagens_top_n, head_tudo by exact E1. reflexivity. }
  clearbody com_outros.
  set (com_sigiloso := if 0 <? sig then com_outros ++ [linha_sigiloso sig total]
                       else com_outros) in *.
  assert (H2 : soma_contagens com_sigiloso = total).
  { unfold com_sigiloso. destruct (0 <? sig) eqn:E.
    - rewrite soma_contagens_app, H1. unfold soma_contagens. simpl. lia.
    - apply Z.ltb_ge in E. rewrite H1. lia. }
  clearbody com_sigiloso.
  destruct com_sigiloso as [|l ls]; [discriminate Htab|].
  cbn [truthy] in Htab.
  replace (truthy ((l :: ls) ++ [linha_total total])) with true in Htab by reflexivity.
  injection Htab as <-. exists (l :: ls). split; [reflexivity | exact H2].
Qed.

Lemma formatar_tabela_analise_linhas_somam_total_witness :
  GerarRelatorio.formatar_tabela_analise dados_cenario 1
  = Some [ {| Item := py "A"; Contagem := 2; Percentual := py "50.00%" |};
           {| Item := py "Outros (1 itens)"; Contagem := 1; Percentual := py "25.00%" |};
           {| Item := py "Sigiloso"; Contagem := 1; Percentual := py "25.00%" |};
           {| Item := py "TOTAL GERAL"; Contagem := 4; Percentual := py "100.00%" |} ]
  /\ exists linhas,
       [ {| Item := py "A"; Contagem := 2; Percentual := py "50.00%" |};
         {| Item := py "Outros (1 itens)"; Contagem := 1; Percentual := py "25.00%" |};
         {| Item := py "Sigiloso"; Contagem := 1; Percentual := py "25.00%" |};
         {| Item := py "TOTAL GERAL"; Contagem := 4; Percentual := py "100.00%" |} ]
       = linhas ++ [linha_total (total_ocorrencias dados_cenario)]
       /\ soma_contagens linhas = total_ocorrencias dados_cenario.
Proof.
  apply (formatar_tabela_analise_linhas_somam_total dados_cenario 1 [(py "A", 2); (py "B", 1)]).
  - reflexivity.
  - reflexivity.
  - vm_compute. discriminate.
  - repeat constructor; vm_compute; discriminate.
  - vm_compute. reflexivity.
Defined.

Lemma Forall_skipn {A} (P : A -> Prop) (k : nat) (l : list A) :
  Forall P l -> Forall P (skipn k l).
Proof.
  intros H. apply Forall_forall. intros x Hx. apply (proj1 (Forall_forall _ _) H).
  rewrite <- (firstn_skipn k l). apply in_or_app. right. exact Hx.
Qed.

(** X11. For a result that keeps the accounting identity with positive
    counts, and a top_n from 0 up to one less than the number of
    distinct items, both copies of formatar_tabela_analise return the
    same table: the first top_n entries of the distribution, then one
    Outros row whose label gives
    the number of entries left out and whose count is the sum of their
    counts, then the Sigiloso row when the confidential count is
    positive, then TOTAL GERAL. *)
Theorem formatar_tabela_analise_outros_resume_os_demais
    (dados : dados_contagem) (top_n : Z) (c : Series) :
  contagens dados = Some c ->
  soma c + contagem_sigiloso dados = total_ocorrencias dados ->
  0 <= contagem_sigiloso dados ->
  Forall (fun ic => 0 < snd ic) c ->
  0 <= top_n < Z.of_nat (length c) ->
  GerarRelatorio.formatar_tabela_analise dados top_n
  = RelatorioExport.formatar_tabela_analise dados top_n
  /\ RelatorioExport.formatar_tabela_analise dados top_n
  = Some (linhas_top_n (firstn (Z.to_nat top_n) c) (total_ocorrencias dados)
          ++ [ {| Item := py "Outros ("
                          ++ str_of_Z (Z.of_nat (length (skipn (Z.to_nat top_n) c)))
                          ++ py " itens)";
                  Contagem := soma (skipn (Z.to_nat top_n) c);
                  Percentual := percentual (soma (skipn (Z.to_nat top_n) c))
                                           (total_ocorrencias dados) |} ]
          ++ (if 0 <? contagem_sigiloso dados
              then [linha_sigiloso (contagem_sigiloso dados) (total_ocorrencias dados)]
              else [])
          ++ [linha_total (total_ocorrencias dados)]).
Proof.
  intros Hc Hsoma Hsig Hpos Htop.
  split; [apply formatar_tabela_analise_copias|].
  set (k := Z.to_nat top_n).
  assert (Hhead : head top_n c = firstn k c).
  { unfold head. destruct (0 <=? top_n) eqn:E; [reflexivity | apply Z.leb_gt in E; lia]. }
  assert (Hlen : Z.of_nat (length (skipn k c)) = Z.of_nat (length c) - top_n).
  { rewrite length_skipn. unfold k. lia. }
  assert (Hne : skipn k c <> []).
  { intros E. rewrite E in Hlen. simpl in Hlen. lia. }
  pose proof (soma_positiva _ Hne (Forall_skipn _ k c Hpos)) as Hfora.
  assert (Hs : soma c = soma (firstn k c) + soma (skipn k c)).
  { rewrite <- (firstn_skipn k c) at 1. apply soma_app. }
  assert (Hprim : 0 <= soma (firstn k c)).
  { apply soma_nao_negativa. apply Forall_forall. intros x Hx.
    assert (Hin : In x c) by (rewrite <- (firstn_skipn k c); apply in_or_app; left; exact Hx).
    pose proof (proj1 (Forall_forall _ _) Hpos x Hin) as H. simpl in H. lia. }
  unfold RelatorioExport.formatar_tabela_analise. rewrite Hc.
  destruct (total_ocorrencias dados =? 0) eqn:E0; [apply Z.eqb_eq in E0; lia|]. cbv zeta.
  rewrite Hhead.
  replace (total_ocorrencias dados - contagem_sigiloso dados - soma (firstn k c))
    with (soma (skipn k c)) by lia.
  replace (top_n <? Z.of_nat (length c)) with true by (symmetry; apply Z.ltb_lt; lia).
  replace (0 <? soma (skipn k c)) with true by (symmetry; apply Z.ltb_lt; lia).
  cbn [andb]. unfold linha_outros. rewrite <- Hlen.
  destruct (0 <? contagem_sigiloso dados).
  - replace (truthy ((linhas_top_n (firstn k c) (total_ocorrencias dados) ++ _) ++ _))
      with true by (destruct (linhas_top_n (firstn k c) (total_ocorrencias dados)); reflexivity).
    replace (truthy (((linhas_top_n (firstn k c) (total_ocorrencias dados) ++ _) ++ _) ++ _))
      with true by (destruct (linhas_top_n (firstn k c) (total_ocorrencias dados)); reflexivity).
    rewrite <- !app_assoc. reflexivity.
  - replace (truthy (linhas_top_n (firstn k c) (total_ocorrencias dados) ++ _))
      with true by (destruct (linhas_top_n (firstn k c) (total_ocorrencias dados)); reflexivity).
    replace (truthy ((linhas_top_n (firstn k c) (total_ocorrencias dados) ++ _) ++ _))
      with true by (destruct (linhas_top_n (firstn k c) (total_ocorrencias dados)); reflexivity).
    rewrite <- !app_assoc. reflexivity.
Qed.

Lemma formatar_tabela_analise_outros_resume_os_demais_witness :
  GerarRelatorio.formatar_tabela_analise dados_cenario 1
  = RelatorioExport.formatar_tabela_analise dados_cenario 1
  /\ RelatorioExport.formatar_tabela_analise dados_cenario 1
  = Some (linhas_top_n (firstn (Z.to_nat 1) [(py "A", 2); (py "B", 1)])
                       (total_ocorrencias dados_cenario)
          ++ [ {| Item := py "Outros ("
                          ++ str_of_Z (Z.of_nat (length (skipn (Z.to_nat 1)
                                                               [(py "A", 2); (py "B", 1)])))
                          ++ py " itens)";
                  Contagem := soma (skipn (Z.to_nat 1) [(py "A", 2); (py "B", 1)]);
                  Percentual := percentual (soma (skipn (Z.to_nat 1) [(py "A", 2); (py "B", 1)]))
                                           (total_ocorrencias dados_cenario) |} ]
          ++ (if 0 <? contagem_sigiloso dados_cenario
              then [linha_sigiloso (contagem_sigiloso dados_cenario)
                                   (total_ocorrencias dados_cenario)]
              else [])
          ++ [linha_total (total_ocorrencias dados_cenario)]).
Proof.
  apply (formatar_tabela_analise_outros_resume_os_demais dados_cenario 1
           [(py "A", 2); (py "B", 1)]).
  - reflexivity.
  - reflexivity.
  - vm_compute. discriminate.
  - repeat constructor.
  - simpl. lia.
Defined.

(** X12. For a result that keeps the accounting identity with positive
    counts and at least one item, and a top_n not below the number of
    distinct items, both copies of formatar_tabela_analise return the
    same table: every entry of the distribution in order, no Outros
    row, then the Sigiloso row when
    the confidential count is positive, then TOTAL GERAL. *)
Theorem formatar_tabela_analise_lista_todos
    (dados : dados_contagem) (top_n : Z) (c : Series) :
  contagens dados = Some c ->
  soma c + contagem_sigiloso dados = total_ocorrencias dados ->
  0 <= contagem_sigiloso dados ->
  Forall (fun ic => 0 < snd ic) c ->
  c <> [] ->
  Z.of_nat (length c) <= top_n ->
  GerarRelatorio.formatar_tabela_analise dados top_n
  = RelatorioExport.formatar_tabela_analise dados top_n
  /\ RelatorioExport.formatar_tabela_analise dados top_n
  = Some (linhas_top_n c (total_ocorrencias dados)
          ++ (if 0 <? contagem_sigiloso dados
              then [linha_sigiloso (contagem_sigiloso dados) (total_ocorrencias dados)]
              else [])
          ++ [linha_total (total_ocorrencias dados)]).
Proof.
  intros Hc Hsoma Hsig Hpos Hne Htop.
  split; [apply formatar_tabela_analise_copias|].
  pose proof (soma_positiva _ Hne Hpos) as Hsc.
  unfold RelatorioExport.formatar_tabela_analise. rewrite Hc.
  destruct (total_ocorrencias dados =? 0) eqn:E0; [apply Z.eqb_eq in E0; lia|]. cbv zeta.
  rewrite head_tudo by exact Htop.
  replace (top_n <? Z.of_nat (length c)) with false by (symmetry; apply Z.ltb_ge; lia).
  cbn [andb].
  assert (Ht : forall resto, truthy (linhas_top_n c (total_ocorrencias dados) ++ resto) = true)
    by (destruct c; [congruence | reflexivity]).
  destruct (0 <? contagem_sigiloso dados).
  - rewrite <- !app_assoc, !Ht. reflexivity.
  - pose proof (Ht []) as Ht0. rewrite app_nil_r in Ht0.
    rewrite Ht0, Ht. reflexivity.
Qed.

Lemma formatar_tabela_analise_lista_todos_witness :
  GerarRelatorio.formatar_tabela_analise dados_cenario 10
  = RelatorioExport.formatar_tabela_analise dados_cenario 10
  /\ RelatorioExport.formatar_tabela_analise dados_cenario 10
  = Some (linhas_top_n [(py "A", 2); (py "B", 1)] (total_ocorrencias dados_cenario)
          ++ (if 0 <? contagem_sigiloso dados_cenario
              then [linha_sigiloso (contagem_sigiloso dados_cenario)
                                   (total_ocorrencias dados_cenario)]
              else [])
          ++ [linha_total (total_ocorrencias dados_cenario)]).
Proof.
  apply (formatar_tabela_analise_lista_todos dados_cenario 10 [(py "A", 2); (py "B", 1)]).
  - reflexivity.
  - reflexivity.
  - vm_compute. discriminate.
  - repeat constructor.
  - discriminate.
  - simpl. lia.
Defined.

(* ===================================================================== *)
(** * What the counters hold after a completed scan                      *)
(* ===================================================================== *)

(** The test of [conta_item] for the sentinel. *)
Definition eh_sigiloso (item : str) : bool := str_eqb (upper (strip item)) SIGILOSO.

(** How many times [item] occurs in a list of tokens. *)
Definition ocorrencias (item : str) (toks : list str) : Z :=
  Z.of_nat (length (filter (str_eqb item) toks)).

Lemma dict_set_chaves {V} (d : dict V) (k : str) (v : V) (x : str) :
  In x (map fst (dict_set d k v)) -> x = k \/ In x (map fst d).
Proof.
  induction d as [|[k' v'] d IH]; simpl.
  - intros [<- | []]. left. reflexivity.
  - destruct (str_eqb k' k); simpl.
    + intros H. right. exact H.
    + intros [<- | H]; [right; left; reflexivity|].
      destruct (IH H) as [-> | Hin]; [left; reflexivity | right; right; exact Hin].
Qed.

Lemma dict_set_chaves_unicas {V} (d : dict V) (k : str) (v : V) :
  NoDup (map fst d) -> NoDup (map fst (dict_set d k v)).
Proof.
  induction d as [|[k' v'] d IH]; simpl; intros Hnd.
  - constructor; [intros [] | constructor].
  - inversion Hnd as [|? ? Hnotin Hnd']; subst.
    destruct (str_eqb k' k) eqn:E; simpl.
    + constructor; assumption.
    + constructor; [|apply IH; exact Hnd'].
      intros H. destruct (dict_set_chaves _ _ _ _ H) as [-> | Hin].
      * rewrite str_eqb_refl in E. discriminate E.
      * contradiction.
Qed.

Lemma In_dict_get {V} (d : dict V) (k : str) (v : V) :
  NoDup (map fst d) -> In (k, v) d -> dict_get d k = Some v.
Proof.
  induction d as [|[k' v'] d IH]; simpl; intros Hnd Hin; [destruct Hin|].
  inversion Hnd as [|? ? Hnotin Hnd']; subst.
  destruct Hin as [E | Hin].
  - injection E as -> ->. rewrite str_eqb_refl. reflexivity.
  - destruct (str_eqb k' k) eqn:E.
    + apply str_eqb_eq in E. subst k'. exfalso. apply Hnotin.
      apply in_map_iff. exists (k, v). split; [reflexivity | exact Hin].
    + apply IH; assumption.
Qed.

Lemma counter_update_chaves_unicas (toks : list str) :
  forall c : Counter, NoDup (map fst c) -> NoDup (map fst (counter_update c toks)).
Proof.
  unfold counter_update. induction toks as [|t toks IH]; intros c Hc; simpl; [exact Hc|].
  apply IH. unfold counter_incr. apply dict_set_chaves_unicas. exact Hc.
Qed.

Lemma dict_get_counter_incr (c : Counter) (item k : str) :
  dict_get (counter_incr c item) k
  = if str_eqb k item then Some (dict_get_ou c k 0 + 1) else dict_get c k.
Proof.
  unfold counter_incr. destruct (str_eqb k item) eqn:E.
  - apply str_eqb_eq in E. subst item. apply dict_get_set_eq.
  - apply str_eqb_neq in E. apply dict_get_set_neq. congruence.
Qed.

(** [Counter.update]: the count of a key grows by its occurrences; a key
    that does not occur stays as it was (missing, if it was). *)
Lemma dict_get_counter_update (toks : list str) (k : str) :
  forall c : Counter,
    dict_get (counter_update c toks) k
    = if ocorrencias k toks =? 0 then dict_get c k
      else Some (dict_get_ou c k 0 + ocorrencias k toks).
Proof.
  unfold counter_update, ocorrencias.
  induction toks as [|t toks IH]; intros c; [reflexivity|].
  cbn [fold_left filter]. rewrite IH. unfold dict_get_ou. rewrite dict_get_counter_incr.
  destruct (str_eqb k t) eqn:E.
  - cbn [length]. unfold dict_get_ou.
    destruct (Z.of_nat (length (filter (str_eqb k) toks)) =? 0) eqn:E0.
    + apply Z.eqb_eq in E0.
      replace (Z.of_nat (S (length (filter (str_eqb k) toks))) =? 0) with false
        by (symmetry; apply Z.eqb_neq; lia).
      f_equal. lia.
    + replace (Z.of_nat (S (length (filter (str_eqb k) toks))) =? 0) with false
        by (symmetry; apply Z.eqb_neq; lia).
      f_equal. lia.
  - reflexivity.
Qed.

Lemma soma_dict_set (c : Counter) (k : str) (v : Z) :
  soma (dict_set c k v) = soma c + v - dict_get_ou c k 0.
Proof.
  unfold soma, dict_get_ou. induction c as [|[k' v'] c IH]; simpl.
  - lia.
  - destruct (str_eqb k' k); simpl; lia.
Qed.

Lemma soma_counter_update (toks : list str) :
  forall c : Counter, soma (counter_update c toks) = soma c + Z.of_nat (length toks).
Proof.
  unfold counter_update. induction toks as [|t toks IH]; intros c.
  - simpl. lia.
  - cbn [fold_left length]. rewrite IH. unfold counter_incr. rewrite soma_dict_set. lia.
Qed.

(** A clean token has a non-empty uppercase form. *)
Lemma token_limpo_truthy (t : str) : token_limpo t -> truthy (upper (strip t)) = true.
Proof.
  intros (Hne & _ & Hc & Hf). rewrite (strip_fixo t Hc Hf).
  destruct t; [congruence | reflexivity].
Qed.

Lemma itens_limpos (coluna : str) (ls : list linha) : Forall token_limpo (itens coluna ls).
Proof.
  unfold itens. apply Forall_forall. intros t Ht.
  apply in_concat in Ht as (l & Hl & Ht). apply in_map_iff in Hl as (v & <- & _).
  exact (proj1 (Forall_forall _ _) (parse_multi_valor_limpo (Some v)) t Ht).
Qed.

(** The loop over clean tokens: the sentinel tokens go to the
    confidential count, all the others to the counter. *)
Lemma fold_passo_par (toks : list str) :
  Forall token_limpo toks ->
  forall cz,
    fold_left passo_par toks cz
    = (counter_update (fst cz) (filter (fun t => negb (eh_sigiloso t)) toks),
       snd cz + Z.of_nat (length (filter eh_sigiloso toks))).
Proof.
  induction 1 as [|t toks Ht _ IH]; intros [c z].
  - cbn [fold_left filter length counter_update fst snd]. f_equal. simpl. lia.
  - cbn [fold_left filter]. rewrite IH. unfold passo_par, eh_sigiloso.
    rewrite (token_limpo_truthy t Ht). cbn [fst snd].
    destruct (str_eqb (upper (strip t)) SIGILOSO); cbn [negb fst snd length].
    + f_equal. lia.
    + reflexivity.
Qed.

Lemma ocorrencias_nao_sigilosos (item : str) (toks : list str) :
  ocorrencias item (filter (fun t => negb (eh_sigiloso t)) toks)
  = if eh_sigiloso item then 0 else ocorrencias item toks.
Proof.
  unfold ocorrencias. induction toks as [|t toks IH]; simpl.
  - destruct (eh_sigiloso item); reflexivity.
  - destruct (str_eqb item t) eqn:E.
    + apply str_eqb_eq in E. subst t. destruct (eh_sigiloso item) eqn:Es; cbn [negb].
      * exact IH.
      * cbn [filter length]. rewrite str_eqb_refl. cbn [length]. lia.
    + destruct (eh_sigiloso t); cbn [negb]; [exact IH|].
      cbn [filter]. rewrite E. exact IH.
Qed.

(** The entry that [finaliza] makes of the counter and the confidential
    count left by the loop over the tokens [toks]. *)
Lemma finaliza_conta (toks : list str) :
  Forall token_limpo toks ->
  exists c,
    contagens (finaliza (fst (fold_left passo_par toks ([], 0)))
                        (snd (fold_left passo_par toks ([], 0)))) = Some c
    /\ total_ocorrencias (finaliza (fst (fold_left passo_par toks ([], 0)))
                                   (snd (fold_left passo_par toks ([], 0))))
       = Z.of_nat (length toks)
    /\ contagem_sigiloso (finaliza (fst (fold_left passo_par toks ([], 0)))
                                   (snd (fold_left passo_par toks ([], 0))))
       = Z.of_nat (length (filter eh_sigiloso toks))
    /\ forall item k,
         In (item, k) c
         <-> eh_sigiloso item = false /\ 0 < k /\ k = ocorrencias item toks.
Proof.
  intros Hl. rewrite (fold_passo_par toks Hl). cbn [fst snd].
  set (validos := filter (fun t => negb (eh_sigiloso t)) toks).
  set (nsig := length (filter eh_sigiloso toks)).
  assert (Hlen : (nsig + length validos = length toks)%nat) by apply filter_length.
  assert (Hsoma : soma (counter_update [] validos) = Z.of_nat (length validos)).
  { rewrite soma_counter_update. reflexivity. }
  assert (Hget : forall item,
             dict_get (counter_update [] validos) item
             = if eh_sigiloso item then None
               else if ocorrencias item toks =? 0 then None
                    else Some (ocorrencias item toks)).
  { intros item. rewrite dict_get_counter_update. unfold validos.
    rewrite ocorrencias_nao_sigilosos. destruct (eh_sigiloso item); [reflexivity|].
    destruct (ocorrencias item toks =? 0); reflexivity. }
  assert (Hnd : NoDup (map fst (counter_update [] validos)))
    by (apply counter_update_chaves_unicas; constructor).
  unfold finaliza. rewrite Hsoma.
  destruct (Z.of_nat (length validos) + (0 + Z.of_nat nsig) =? 0) eqn:E0.
  - apply Z.eqb_eq in E0. exists []. cbn [contagens total_ocorrencias contagem_sigiloso dados_vazios].
    assert (Hv : toks = []) by (destruct toks; [reflexivity | simpl in Hlen; lia]).
    split; [reflexivity|]. split; [lia|]. split; [lia|].
    intros item k. subst toks. unfold ocorrencias. simpl. split; [intros [] | lia].
  - exists (sort_values_desc (counter_update [] validos)).
    cbn [contagens total_ocorrencias contagem_sigiloso].
    split; [reflexivity|]. split; [lia|]. split; [lia|].
    intros item k. split.
    + intros Hin. apply (Permutation_in _ (sort_values_desc_perm _)) in Hin.
      apply (In_dict_get _ _ _ Hnd) in Hin. rewrite Hget in Hin.
      destruct (eh_sigiloso item); [discriminate|].
      destruct (ocorrencias item toks =? 0) eqn:Ez; [discriminate|].
      injection Hin as <-. apply Z.eqb_neq in Ez.
      split; [reflexivity|]. split; [unfold ocorrencias in *; lia | reflexivity].
    + intros (Hs & Hk & ->).
      apply (Permutation_in _ (Permutation_sym (sort_values_desc_perm _))).
      apply dict_get_In. rewrite Hget, Hs.
      destruct (ocorrencias item toks =? 0) eqn:Ez; [apply Z.eqb_eq in Ez; lia | reflexivity].
Qed.

(** X13. In a completed scan of gerar_relatorio_analise_cnj.py or of
    analise_output_sus.py over distinct requested columns, the entry of
    a requested column that is in the file counts every token of the
    rows that pass the filter exactly once: total_ocorrencias is the
    number of tokens, contagem_sigiloso the number of tokens whose
    stripped uppercase form is SIGILOSO, and the distribution has an
    entry (item, k) exactly when item is not such a token and occurs
    k > 0 times. *)
Theorem varredura_conta_cada_ocorrencia
    (chunksize : positive) (csv : fonte) (colunas_analise : list str)
    (filtro : option str) (palavras : list str)
    (res : dict dados_contagem) (coluna : str) :
  NoDup colunas_analise ->
  varredura_filtrada chunksize csv colunas_analise filtro palavras res ->
  In coluna colunas_analise ->
  In coluna (colunas_presentes csv) ->
  exists d c,
    dict_get res coluna = Some d
    /\ contagens d = Some c
    /\ total_ocorrencias d
       = Z.of_nat (length (itens coluna (passa filtro palavras (linhas csv))))
    /\ contagem_sigiloso d
       = Z.of_nat (length (filter eh_sigiloso
                                  (itens coluna (passa filtro palavras (linhas csv)))))
    /\ forall item k,
         In (item, k) c
         <-> eh_sigiloso item = false /\ 0 < k
             /\ k = ocorrencias item (itens coluna (passa filtro palavras (linhas csv))).
Proof.
  intros Hnd Hscan Hin Hpres.
  set (toks := itens coluna (passa filtro palavras (linhas csv))).
  assert (Hd : dict_get res coluna
               = Some (finaliza (fst (fold_left passo_par toks ([], 0)))
                                (snd (fold_left passo_par toks ([], 0))))).
  { destruct Hscan as [(filtrar & cfe & registro & H & ->) | (natjur & registro & H & ->)].
    - apply gerar_analisar_varre in H. unfold GerarRelatorio.varre in H.
      set (ex := existentes_em csv colunas_analise) in *.
      set (fl := filtro_ativo csv filtrar cfe) in *.
      set (lidas := conjunto (ex ++ match fl with Some f => [f] | None => [] end)) in *.
      destruct (foldM _ (read_csv_chunks chunksize (linhas csv)) _) as [est|] eqn:E;
        [|discriminate].
      injection H as <-.
      assert (Hex : In coluna ex) by (apply existentes_em_In; split; assumption).
      assert (Hl : pertence coluna lidas = true).
      { unfold lidas. rewrite pertence_conjunto. apply pertence_In. apply in_or_app.
        left. exact Hex. }
      pose proof (gerar_chunks_em _ _ _ _ coluna _ (NoDup_filter _ _ Hnd) Hl Hex _ _ _
                    (em_inicial ex coluna Hex) E) as [Hc Hz].
      rewrite read_csv_chunks_concat in Hc, Hz.
      unfold GerarRelatorio.resultados_finais.
      rewrite (dict_get_fold_set
                 (fun c => if negb (pertence c ex) then dados_vazios
                           else finaliza (dict_get_ou (v_contadores est) c [])
                                         (dict_get_ou (v_contagem_sigiloso est) c 0))).
      rewrite (proj2 (pertence_In _ _) Hin), (proj2 (pertence_In _ _) Hex). cbn [negb].
      unfold dict_get_ou. rewrite Hc, Hz. reflexivity.
    - unfold AnaliseOutputSus.analisar_frequencias_entes_publicos in H.
      set (lidas := filter (fun col => pertence col (colunas_presentes csv))
                           (conjunto (colunas_analise ++ [natjur]))) in *.
      destruct (negb (truthy lidas) || negb (pertence natjur lidas)); [discriminate|].
      destruct (foldM _ (read_csv_chunks chunksize (linhas csv)) _) as [est|] eqn:E;
        [|discriminate].
      destruct (AnaliseOutputSus.resultados_finais colunas_analise (colunas_presentes csv) est)
        as [res'|] eqn:Er; [|discriminate].
      injection H as _ <-.
      assert (Hl : pertence coluna lidas = true).
      { apply pertence_In. unfold lidas. apply filter_In. split.
        - apply In_conjunto. apply in_or_app. left. exact Hin.
        - apply pertence_In. exact Hpres. }
      pose proof (gerar_chunks_em (Some natjur) palavras lidas colunas_analise coluna _
                    Hnd Hl Hin _ _ _ (em_inicial colunas_analise coluna Hin) E) as [Hc Hz].
      rewrite read_csv_chunks_concat in Hc, Hz.
      rewrite (sus_resultados_finais_get _ _ _ _ _ Er Hin). unfold sus_entrada.
      rewrite (proj2 (pertence_In _ _) Hpres). cbn [negb]. rewrite Hc, Hz. reflexivity. }
  destruct (finaliza_conta toks (itens_limpos _ _)) as (c & H1 & H2 & H3 & H4).
  eexists. exists c. split; [exact Hd|]. split; [exact H1|]. split; [exact H2|].
  split; [exact H3 | exact H4].
Qed.

Lemma varredura_conta_cada_ocorrencia_witness :
  exists d c,
    dict_get resultado_cenario X_ = Some d
    /\ contagens d = Some c
    /\ total_ocorrencias d
       = Z.of_nat (length (itens X_ (passa None [] (linhas fonte_cenario))))
    /\ contagem_sigiloso d
       = Z.of_nat (length (filter eh_sigiloso (itens X_ (passa None [] (linhas fonte_cenario)))))
    /\ forall item k,
         In (item, k) c
         <-> eh_sigiloso item = false /\ 0 < k
             /\ k = ocorrencias item (itens X_ (passa None [] (linhas fonte_cenario))).
Proof.
  apply (varredura_conta_cada_ocorrencia 2 fonte_cenario [X_; Y_] None []).
  - repeat constructor; simpl; intuition discriminate.
  - left. exists false, None, []. split; vm_compute; reflexivity.
  - simpl. left. reflexivity.
  - simpl. left. reflexivity.
Defined.

(* ===================================================================== *)
(** * When a scan reaches its end                                        *)
(* ===================================================================== *)

(** Every column of [cols] has its counter and its confidential
    count. *)
Definition pronto (cols : list str) (est : estado) : Prop :=
  forall c, In c cols -> exists cz, em c est cz.

Lemma foldM_ok {S A} (I : S -> Prop) (f : S -> A -> option S) (l : list A) :
  (forall s a, In a l -> I s -> exists s', f s a = Some s' /\ I s') ->
  forall s, I s -> exists s', foldM f l s = Some s' /\ I s'.
Proof.
  induction l as [|a l IH]; intros Hf s Hs; simpl.
  - exists s. split; [reflexivity | exact Hs].
  - destruct (Hf s a (or_introl eq_refl) Hs) as (s1 & E & Hs1). rewrite E.
    apply IH; [|exact Hs1]. intros s0 a0 Hin. apply Hf. right. exact Hin.
Qed.

Lemma conta_item_pronto (cols : list str) (coluna : str) (est : estado) (item : str) :
  pronto cols est -> In coluna cols ->
  exists est',
    conta_item coluna est item = Some est'
    /\ pronto cols est'
    /\ v_col_data est' = v_col_data est
    /\ v_items_parsed est' = v_items_parsed est.
Proof.
  intros Hp Hin.
  assert (Hex : exists est', conta_item coluna est item = Some est').
  { destruct (Hp coluna Hin) as (cz & Hc & Hz). unfold conta_item.
    destruct (str_eqb (upper (strip item)) SIGILOSO).
    - rewrite Hz. eexists. reflexivity.
    - destruct (truthy (upper (strip item))); [rewrite Hc|]; eexists; reflexivity. }
  destruct Hex as (est' & E). exists est'. split; [exact E|]. split.
  - intros c Hc. destruct (Hp c Hc) as (cz & Hem).
    destruct (str_eqb coluna c) eqn:Ec.
    + apply str_eqb_eq in Ec. subst c. eexists.
      apply (conta_item_em_mesma _ _ _ _ _ Hem E).
    + apply str_eqb_neq in Ec. exists cz.
      apply (conta_item_em_outra _ _ _ _ _ _ Ec Hem E).
  - unfold conta_item in E.
    destruct (str_eqb (upper (strip item)) SIGILOSO).
    + destruct (dict_get (v_contagem_sigiloso est) coluna); [|discriminate].
      injection E as <-. split; reflexivity.
    + destruct (truthy (upper (strip item))).
      * destruct (dict_get (v_contadores est) coluna); [|discriminate].
        injection E as <-. split; reflexivity.
      * injection E as <-. split; reflexivity.
Qed.

Lemma conta_coluna_pronto (cols : list str) (chunk : list linha) (coluna : str) (est : estado) :
  pronto cols est -> In coluna cols ->
  exists est',
    conta_coluna chunk est coluna = Some est'
    /\ pronto cols est'
    /\ v_col_data est' = true
    /\ v_items_parsed est' = truthy (dropna (coluna_de chunk coluna)) || v_items_parsed est.
Proof.
  intros Hp Hin. unfold conta_coluna.
  destruct (dropna (coluna_de chunk coluna)) as [|v vs]; cbn [truthy orb].
  - eexists. split; [reflexivity|]. split; [exact Hp|]. split; reflexivity.
  - set (I := fun e => pronto cols e /\ v_col_data e = true /\ v_items_parsed e = true).
    destruct (foldM_ok I
                (fun est lista_items => foldM (conta_item coluna) lista_items est)
                (map (fun v0 => parse_multi_valor (Some v0)) (v :: vs))) with
      (s := {| v_contadores := v_contadores est;
               v_contagem_sigiloso := v_contagem_sigiloso est;
               v_col_data := true; v_items_parsed := true |})
      as (est' & E & Hp' & Hc' & Hi').
    + intros s lista _ Hs. apply (foldM_ok I); [|exact Hs].
      intros s0 item _ (Hp0 & Hc0 & Hi0).
      destruct (conta_item_pronto cols coluna s0 item Hp0 Hin) as (s1 & E1 & Hp1 & Hc1 & Hi1).
      exists s1. split; [exact E1|]. split; [exact Hp1|]. split; congruence.
    + split; [exact Hp|]. split; reflexivity.
    + exists est'. split; [exact E|]. split; [exact Hp'|]. split; assumption.
Qed.

(** The loop over the columns of one chunk: it does not raise, and both
    names are bound at its end when some column that is read has a
    value in the chunk. *)
Lemma colunas_pronto (cols : list str) (chunk : list linha) (lidas colunas : list str) :
  (forall c, In c colunas -> In c cols) ->
  forall est,
    pronto cols est ->
    exists est',
      foldM (fun est coluna =>
               if negb (pertence coluna lidas) then Some est else conta_coluna chunk est coluna)
            colunas est = Some est'
      /\ pronto cols est'
      /\ ((v_col_data est = true /\ v_items_parsed est = true)
          \/ existsb (fun c => pertence c lidas && truthy (dropna (coluna_de chunk c))) colunas
             = true ->
          v_col_data est' = true /\ v_items_parsed est' = true).
Proof.
  induction colunas as [|c cs IH]; intros Hsub est Hp.
  - exists est. split; [reflexivity|]. split; [exact Hp|].
    intros [H | H]; [exact H | discriminate H].
  - cbn [foldM existsb].
    assert (Hsub' : forall c0, In c0 cs -> In c0 cols) by (intros c0 H0; apply Hsub; right; exact H0).
    destruct (pertence c lidas) eqn:El; cbn [negb andb].
    + destruct (conta_coluna_pronto cols chunk c est Hp (Hsub c (or_introl eq_refl)))
        as (est1 & E1 & Hp1 & Hc1 & Hi1).
      rewrite E1. destruct (IH Hsub' est1 Hp1) as (est' & E & Hp' & Hfl).
      exists est'. split; [exact E|]. split; [exact Hp'|].
      intros H. apply Hfl.
      destruct H as [[_ Hi] | H].
      * left. split; [exact Hc1|]. rewrite Hi1, Hi. apply orb_true_r.
      * apply orb_true_iff in H as [H | H]; [|right; exact H].
        left. split; [exact Hc1|]. rewrite Hi1, H. reflexivity.
    + destruct (IH Hsub' est Hp) as (est' & E & Hp' & Hfl).
      exists est'. split; [exact E|]. split; [exact Hp'|].
      intros H. apply Hfl. destruct H as [H | H]; [left; exact H | right; exact H].
Qed.

(** A chunk has what the final [del] needs: no row passes the filter,
    or a row that passes has a value in an analysed column that is
    read. *)
Definition chunk_com_valor (fl : option str) (palavras : list str) (lidas colunas : list str)
    (chunk : list linha) : Prop :=
  passa fl palavras chunk = []
  \/ exists l col v, In l (passa fl palavras chunk) /\ In col colunas
                     /\ pertence col lidas = true /\ dict_get l col = Some v.

Lemma gerar_processa_chunk_pronto fl palavras lidas colunas chunk est :
  pronto colunas est ->
  chunk_com_valor fl palavras lidas colunas chunk ->
  exists est',
    GerarRelatorio.processa_chunk fl palavras lidas colunas est chunk = Some est'
    /\ pronto colunas est'.
Proof.
  intros Hp Hv.
  change (GerarRelatorio.processa_chunk fl palavras lidas colunas est chunk)
    with (if negb (truthy (passa fl palavras chunk)) then Some est
          else match foldM (fun est coluna =>
                              if negb (pertence coluna lidas) then Some est
                              else conta_coluna (passa fl palavras chunk) est coluna)
                           colunas est with
               | Some est1 => del_locais est1
               | None => None
               end).
  destruct Hv as [Hv | (l & col & v & Hl & Hcol & Hlidas & Hget)].
  - rewrite Hv. exists est. split; [reflexivity | exact Hp].
  - destruct (truthy (passa fl palavras chunk)); cbn [negb];
      [|exists est; split; [reflexivity | exact Hp]].
    destruct (colunas_pronto colunas (passa fl palavras chunk) lidas colunas (fun c H => H) est Hp)
      as (est1 & E & Hp1 & Hfl).
    rewrite E.
    destruct Hfl as [Hc Hi].
    { right. apply existsb_exists. exists col. split; [exact Hcol|]. rewrite Hlidas. cbn [andb].
      assert (Hin : In v (dropna (coluna_de (passa fl palavras chunk) col)))
        by (apply col_data_In; exists l; split; assumption).
      destruct (dropna (coluna_de (passa fl palavras chunk) col)); [destruct Hin | reflexivity]. }
    unfold del_locais. rewrite Hc, Hi. cbn [andb]. eexists. split; [reflexivity|].
    exact Hp1.
Qed.

Lemma gerar_chunks_pronto fl palavras lidas colunas chunks :
  (forall chunk, In chunk chunks -> chunk_com_valor fl palavras lidas colunas chunk) ->
  forall est,
    pronto colunas est ->
    exists est',
      foldM (GerarRelatorio.processa_chunk fl palavras lidas colunas) chunks est = Some est'
      /\ pronto colunas est'.
Proof.
  intros Hv est Hp.
  apply (foldM_ok (pronto colunas)); [|exact Hp].
  intros s chunk Hin Hs. apply gerar_processa_chunk_pronto; [exact Hs | apply Hv; exact Hin].
Qed.

Lemma pronto_inicial (colunas : list str) : pronto colunas (estado_inicial colunas).
Proof. intros c Hc. exists ([], 0). apply em_inicial. exact Hc. Qed.

(** Every chunk of the source has what the [del] needs when every row
    that passes the filter has a value in an analysed column that is
    read. *)
Lemma chunks_com_valor fl palavras lidas colunas chunksize (ls : list linha) :
  (forall l, In l ls -> passa_linha fl palavras l = true ->
             exists col, In col colunas /\ pertence col lidas = true /\ dict_get l col <> None) ->
  forall chunk, In chunk (read_csv_chunks chunksize ls) ->
                chunk_com_valor fl palavras lidas colunas chunk.
Proof.
  intros H chunk Hc. unfold chunk_com_valor.
  destruct (passa fl palavras chunk) as [|l resto] eqn:E; [left; reflexivity|].
  right.
  assert (Hl : In l (passa fl palavras chunk)) by (rewrite E; left; reflexivity).
  apply passa_In in Hl as [Hl Hp].
  destruct (H l (read_csv_chunks_In _ _ _ _ Hc Hl) Hp) as (col & Hcol & Hlidas & Hget).
  destruct (dict_get l col) as [v|] eqn:Ev; [|congruence].
  exists l, col, v. split; [left; reflexivity|]. repeat split; assumption.
Qed.

Lemma gerar_varre_completa chunksize csv cols fl palavras :
  (forall l, In l (linhas csv) -> passa_linha fl palavras l = true ->
             exists col, In col (existentes_em csv cols) /\ dict_get l col <> None) ->
  exists res,
    GerarRelatorio.varre chunksize csv cols (existentes_em csv cols) fl palavras = Some res.
Proof.
  intros H. unfold GerarRelatorio.varre.
  set (ex := existentes_em csv cols) in *.
  set (lidas := conjunto (ex ++ match fl with Some f => [f] | None => [] end)).
  destruct (gerar_chunks_pronto fl palavras lidas ex (read_csv_chunks chunksize (linhas csv)))
    with (est := estado_inicial ex) as (est & E & _).
  - apply chunks_com_valor. intros l Hl Hp.
    destruct (H l Hl Hp) as (col & Hcol & Hget). exists col. split; [exact Hcol|].
    split; [|exact Hget].
    unfold lidas. rewrite pertence_conjunto. apply pertence_In. apply in_or_app. left. exact Hcol.
  - apply pronto_inicial.
  - rewrite E. eexists. reflexivity.
Qed.

(** X14. analisar_frequencias of gerar_relatorio_analise_cnj.py returns a
    result, for every chunk size, when some requested column is in the
    file, the filter (if asked for) names a column, and every row that
    passes the filter in force has a value in at least one requested
    column of the file; a source without rows is such a case. *)
Theorem gerar_completa_se_toda_linha_tem_valor
    (chunksize : positive) (csv : fonte) (colunas_analise : list str)
    (filtrar : bool) (filtro : option str) (palavras : list str) :
  (exists col, In col colunas_analise /\ In col (colunas_presentes csv)) ->
  (filtrar = true -> exists f, filtro = Some f /\ f <> []) ->
  (forall l, In l (linhas csv) ->
             passa_linha (filtro_ativo csv filtrar filtro) palavras l = true ->
             exists col, In col colunas_analise /\ In col (colunas_presentes csv)
                         /\ dict_get l col <> None) ->
  exists registro res,
    GerarRelatorio.analisar_frequencias chunksize csv colunas_analise filtrar filtro palavras
    = (registro, Some res).
Proof.
  intros (col0 & Hc0 & Hp0) Hfiltro Hlinhas.
  assert (Hex : In col0 (existentes_em csv colunas_analise))
    by (apply existentes_em_In; split; assumption).
  destruct (gerar_varre_completa chunksize csv colunas_analise
              (filtro_ativo csv filtrar filtro) palavras) as (res & Hres).
  { intros l Hl Hp. destruct (Hlinhas l Hl Hp) as (col & H1 & H2 & H3).
    exists col. split; [apply existentes_em_In; split; assumption | exact H3]. }
  unfold GerarRelatorio.analisar_frequencias. fold (existentes_em csv colunas_analise).
  destruct (existentes_em csv colunas_analise) as [|e ex] eqn:Ee; [destruct Hex|].
  cbn [truthy negb]. rewrite <- Ee in Hres |- *. unfold filtro_ativo in Hres.
  destruct filtrar; cbn [andb negb].
  - destruct (Hfiltro eq_refl) as (f & -> & Hf).
    destruct f as [|c f]; [congruence|]. cbn [truthy].
    destruct (pertence (c :: f) (colunas_presentes csv)) eqn:Ef; cbn [andb negb].
    + rewrite Hres. eexists. eexists. reflexivity.
    + rewrite Hres. eexists. eexists. reflexivity.
  - rewrite Hres. eexists. eexists. reflexivity.
Qed.

Lemma gerar_completa_se_toda_linha_tem_valor_witness :
  exists registro res,
    GerarRelatorio.analisar_frequencias 1 fonte_cenario [X_; Y_] false None []
    = (registro, Some res).
Proof.
  apply (gerar_completa_se_toda_linha_tem_valor 1 fonte_cenario [X_; Y_] false None []).
  - exists X_. split; simpl; auto.
  - discriminate.
  - intros l [<- | [<- | [<- | []]]] _; exists X_;
      (split; [simpl; auto | split; [simpl; auto | vm_compute; discriminate]]).
Defined.

(** X15. analisar_frequencias_entes_publicos of analise_output_sus.py
    returns a result, for every chunk size and every content of the
    file, when the filter column is one of the requested columns and is
    in the file: a row that passes the filter has a value in that
    column. *)
Theorem sus_completa_se_filtro_e_analisado
    (chunksize : positive) (csv : fonte) (colunas_analise : list str)
    (natjur : str) (palavras : list str) :
  In natjur colunas_analise ->
  In natjur (colunas_presentes csv) ->
  exists registro res,
    AnaliseOutputSus.analisar_frequencias_entes_publicos chunksize csv colunas_analise
      natjur palavras
    = (registro, Some res).
Proof.
  intros Hin Hpres. unfold AnaliseOutputSus.analisar_frequencias_entes_publicos.
  set (lidas := filter (fun col => pertence col (colunas_presentes csv))
                       (conjunto (colunas_analise ++ [natjur]))).
  assert (Hl : In natjur lidas).
  { unfold lidas. apply filter_In. split.
    - apply In_conjunto. apply in_or_app. left. exact Hin.
    - apply pertence_In. exact Hpres. }
  replace (truthy lidas) with true by (destruct lidas; [destruct Hl | reflexivity]).
  rewrite (proj2 (pertence_In _ _) Hl). cbn [negb orb].
  destruct (gerar_chunks_pronto (Some natjur) palavras lidas colunas_analise
              (read_csv_chunks chunksize (linhas csv)))
    with (est := estado_inicial colunas_analise) as (est & E & Hp).
  - apply chunks_com_valor. intros l _ Hpassa. exists natjur.
    split; [exact Hin|]. split; [apply pertence_In; exact Hl|].
    unfold passa_linha in Hpassa. intros Hnone. rewrite Hnone in Hpassa. discriminate Hpassa.
  - apply pronto_inicial.
  - change (foldM (AnaliseOutputSus.processa_chunk natjur palavras lidas colunas_analise)
                  (read_csv_chunks chunksize (linhas csv)) (estado_inicial colunas_analise))
      with (foldM (GerarRelatorio.processa_chunk (Some natjur) palavras lidas colunas_analise)
                  (read_csv_chunks chunksize (linhas csv)) (estado_inicial colunas_analise)).
    rewrite E.
    assert (Hfim : exists res,
               AnaliseOutputSus.resultados_finais colunas_analise (colunas_presentes csv) est
               = Some res).
    { unfold AnaliseOutputSus.resultados_finais.
      destruct (foldM_ok (fun _ : dict dados_contagem => True)
                  (fun res coluna =>
                     if negb (pertence coluna (colunas_presentes csv))
                     then Some (dict_set res coluna dados_vazios)
                     else match dict_get (v_contadores est) coluna,
                                dict_get (v_contagem_sigiloso est) coluna with
                          | Some contador, Some sigilosos =>
                              Some (dict_set res coluna (finaliza contador sigilosos))
                          | _, _ => None
                          end)
                  colunas_analise) with (s := @nil (str * dados_contagem)) as (res & Er & _).
      - intros s coluna Hc _. destruct (negb (pertence coluna (colunas_presentes csv)));
          [eexists; split; [reflexivity | exact I]|].
        destruct (Hp coluna Hc) as (cz & H1 & H2). rewrite H1, H2.
        eexists. split; [reflexivity | exact I].
      - exact I.
      - exists res. exact Er. }
    destruct Hfim as (res & Er). rewrite Er. eexists. eexists. reflexivity.
Qed.

(** Source with a legal-nature column [F] and a column [X]; the second
    row has no legal nature. *)
Definition fonte_entes : fonte :=
  {| colunas_presentes := [F_; X_];
     linhas := [ [(F_, py "{MUNICIPIO}"); (X_, py "{A, B}")];
                 [(X_, py "{A}")];
                 [(F_, py "{Pessoa Fisica}"); (X_, py "{B}")] ] |}.

Lemma sus_completa_se_filtro_e_analisado_witness :
  exists registro res,
    AnaliseOutputSus.analisar_frequencias_entes_publicos 1 fonte_entes [X_; F_] F_
      [py "MUNICIPIO"]
    = (registro, Some res).
Proof.
  apply (sus_completa_se_filtro_e_analisado 1 fonte_entes [X_; F_] F_ [py "MUNICIPIO"]).
  - simpl. auto.
  - simpl. auto.
Defined.

(* ===================================================================== *)
(** * analise_output.py: what the scan counts and when it ends           *)
(* ===================================================================== *)

(** The column has this counter. *)
Definition em_simples (col : str) (est : AnaliseOutput.estado_simples) (c : Counter) : Prop :=
  dict_get (AnaliseOutput.w_contadores est) col = Some c.

Lemma counter_update_app (c : Counter) (a b : list str) :
  counter_update c (a ++ b) = counter_update (counter_update c a) b.
Proof. unfold counter_update. apply fold_left_app. Qed.

Lemma ao_conta_coluna_mesma chunk col est est' c :
  em_simples col est c ->
  AnaliseOutput.conta_coluna chunk est col = Some est' ->
  em_simples col est' (counter_update c (itens col chunk)).
Proof.
  unfold em_simples, AnaliseOutput.conta_coluna, itens. intros Hc.
  destruct (dropna (coluna_de chunk col)) as [|v vs]; cbn [truthy].
  - intros H. injection H as <-. exact Hc.
  - destruct (concat (map (fun v0 => parse_multi_valor (Some v0)) (v :: vs))) as [|t ts];
      cbn [truthy].
    + intros H. injection H as <-. exact Hc.
    + rewrite Hc. intros H. injection H as <-. cbn [AnaliseOutput.w_contadores].
      apply dict_get_set_eq.
Qed.

Lemma ao_conta_coluna_outra chunk coluna col est est' c :
  coluna <> col ->
  em_simples col est c ->
  AnaliseOutput.conta_coluna chunk est coluna = Some est' ->
  em_simples col est' c.
Proof.
  unfold em_simples, AnaliseOutput.conta_coluna. intros Hneq Hc.
  destruct (truthy (dropna (coluna_de chunk coluna))).
  - destruct (truthy (concat _)).
    + destruct (dict_get (AnaliseOutput.w_contadores est) coluna); [|discriminate].
      intros H. injection H as <-. cbn [AnaliseOutput.w_contadores].
      rewrite dict_get_set_neq by exact Hneq. exact Hc.
    + intros H. injection H as <-. exact Hc.
  - intros H. injection H as <-. exact Hc.
Qed.

Lemma ao_colunas_em chunk colunas col :
  NoDup colunas ->
  forall est est' c,
    em_simples col est c ->
    foldM (AnaliseOutput.conta_coluna chunk) colunas est = Some est' ->
    em_simples col est'
      (if pertence col colunas then counter_update c (itens col chunk) else c).
Proof.
  intros Hnd. induction colunas as [|x xs IH]; intros est est' c Hem H; simpl in H.
  - injection H as <-. exact Hem.
  - inversion Hnd as [|? ? Hnotin Hnd']; subst. rewrite pertence_cons.
    destruct (AnaliseOutput.conta_coluna chunk est x) as [est1|] eqn:E1; [|discriminate].
    destruct (str_eqb col x) eqn:E.
    + apply str_eqb_eq in E. subst x. cbn [orb].
      pose proof (IH Hnd' est1 est' _ (ao_conta_coluna_mesma _ _ _ _ _ Hem E1) H) as Hfim.
      apply pertence_not_In in Hnotin. rewrite Hnotin in Hfim. exact Hfim.
    + apply str_eqb_neq in E. cbn [orb]. apply (IH Hnd' est1 est' c); [|exact H].
      eapply ao_conta_coluna_outra; [|exact Hem|exact E1]. congruence.
Qed.

Lemma ao_processa_chunk_em chunk colunas col est est' c :
  NoDup colunas -> In col colunas ->
  em_simples col est c ->
  AnaliseOutput.processa_chunk colunas est chunk = Some est' ->
  em_simples col est' (counter_update c (itens col chunk)).
Proof.
  intros Hnd Hin Hem. unfold AnaliseOutput.processa_chunk.
  destruct (foldM (AnaliseOutput.conta_coluna chunk) colunas est) as [est1|] eqn:E1;
    [|discriminate].
  pose proof (ao_colunas_em _ _ col Hnd _ _ _ Hem E1) as H1.
  rewrite (proj2 (pertence_In _ _) Hin) in H1.
  destruct (_ && _)%bool; [|discriminate].
  intros H. injection H as <-. exact H1.
Qed.

Lemma ao_chunks_em chunks colunas col :
  NoDup colunas -> In col colunas ->
  forall est est' c,
    em_simples col est c ->
    foldM (AnaliseOutput.processa_chunk colunas) chunks est = Some est' ->
    em_simples col est' (counter_update c (itens col (concat chunks))).
Proof.
  intros Hnd Hin. induction chunks as [|chunk chunks IH]; intros est est' c Hem H; simpl in H.
  - injection H as <-. exact Hem.
  - destruct (AnaliseOutput.processa_chunk colunas est chunk) as [est1|] eqn:E; [|discriminate].
    cbn [concat]. rewrite itens_app, counter_update_app.
    apply (IH est1 est' _ (ao_processa_chunk_em _ _ _ _ _ _ Hnd Hin Hem E) H).
Qed.

(** The value that analise_output.py stores for a counter. *)
Definition entrada_simples (contador : Counter) : AnaliseOutput.dados_simples :=
  if negb (truthy contador)
  then {| AnaliseOutput.s_contagens := []; AnaliseOutput.s_total_ocorrencias := 0 |}
  else {| AnaliseOutput.s_contagens := sort_values_desc contador;
          AnaliseOutput.s_total_ocorrencias := soma (sort_values_desc contador) |}.

Lemma ao_resultados_get (est : AnaliseOutput.estado_simples) (colunas : list str) (col : str) :
  forall acc acc',
    foldM
      (fun (acc : list evento * dict AnaliseOutput.dados_simples) coluna =>
         match dict_get (AnaliseOutput.w_contadores est) coluna with
         | Some contador =>
             if negb (truthy contador)
             then Some (fst acc ++ [AvisoColunaSemValores coluna],
                        dict_set (snd acc) coluna
                          {| AnaliseOutput.s_contagens := [];
                             AnaliseOutput.s_total_ocorrencias := 0 |})
             else
               let series_contagem := sort_values_desc contador in
               Some (fst acc,
                     dict_set (snd acc) coluna
                       {| AnaliseOutput.s_contagens := series_contagem;
                          AnaliseOutput.s_total_ocorrencias := soma series_contagem |})
         | None => None
         end)
      colunas acc = Some acc' ->
    dict_get (snd acc') col
    = if pertence col colunas
      then option_map entrada_simples (dict_get (AnaliseOutput.w_contadores est) col)
      else dict_get (snd acc) col.
Proof.
  induction colunas as [|x xs IH]; intros acc acc' H; simpl in H.
  - injection H as <-. reflexivity.
  - destruct (dict_get (AnaliseOutput.w_contadores est) x) as [cx|] eqn:Ex; [|discriminate].
    rewrite pertence_cons.
    cbv zeta in H.
    match type of H with
    | match ?m with _ => _ end = _ => destruct m as [acc1|] eqn:E1; [|discriminate]
    end.
    assert (Hs : snd acc1 = dict_set (snd acc) x (entrada_simples cx)).
    { unfold entrada_simples. destruct (negb (truthy cx)); injection E1 as <-; reflexivity. }
    rewrite (IH acc1 acc' H), Hs.
    destruct (str_eqb col x) eqn:E; cbn [orb].
    + apply str_eqb_eq in E. subst x. rewrite Ex, dict_get_set_eq.
      destruct (pertence col xs); reflexivity.
    + apply str_eqb_neq in E. rewrite dict_get_set_neq by congruence. reflexivity.
Qed.

(** X16. In a completed scan of analise_output.py over distinct requested
    columns, the entry of a requested column that is in the file counts
    every token of every row exactly once, the SIGILOSO tokens like any
    other: total_ocorrencias is the number of tokens of the column, and
    the distribution has an entry (item, k) exactly when item occurs
    k > 0 times; the distribution is ranked by decreasing count. *)
Theorem analise_output_conta_cada_ocorrencia
    (chunksize : positive) (csv : fonte) (colunas_analise : list str)
    (registro : list evento) (res : dict AnaliseOutput.dados_simples) (coluna : str) :
  NoDup colunas_analise ->
  AnaliseOutput.analisar_frequencias chunksize csv colunas_analise = (registro, Some res) ->
  In coluna colunas_analise ->
  In coluna (colunas_presentes csv) ->
  exists d,
    dict_get res coluna = Some d
    /\ AnaliseOutput.s_total_ocorrencias d = Z.of_nat (length (itens coluna (linhas csv)))
    /\ decrescente (AnaliseOutput.s_contagens d)
    /\ forall item k,
         In (item, k) (AnaliseOutput.s_contagens d)
         <-> 0 < k /\ k = ocorrencias item (itens coluna (linhas csv)).
Proof.
  intros Hnd H Hin Hpres. unfold AnaliseOutput.analisar_frequencias in H.
  fold (existentes_em csv colunas_analise) in H.
  set (ex := existentes_em csv colunas_analise) in *.
  set (toks := itens coluna (linhas csv)).
  destruct (negb (truthy ex)); [discriminate|].
  destruct (foldM _ (read_csv_chunks chunksize (linhas csv)) _) as [est|] eqn:E; [|discriminate].
  destruct (AnaliseOutput.resultados_finais ex est) as [[avisos res']|] eqn:Er; [|discriminate].
  injection H as _ <-.
  assert (Hex : In coluna ex) by (apply existentes_em_In; split; assumption).
  assert (Hc : dict_get (AnaliseOutput.w_contadores est) coluna = Some (counter_update [] toks)).
  { assert (H0 : em_simples coluna
                   {| AnaliseOutput.w_contadores := dict_de colunas_analise ([] : Counter);
                      AnaliseOutput.w_col_data := false;
                      AnaliseOutput.w_items_exploded := false |} []).
    { unfold em_simples. cbn [AnaliseOutput.w_contadores].
      rewrite dict_get_dict_de, (proj2 (pertence_In _ _) Hin). reflexivity. }
    pose proof (ao_chunks_em _ ex coluna (NoDup_filter _ _ Hnd) Hex _ _ _ H0 E) as H1.
    rewrite read_csv_chunks_concat in H1. exact H1. }
  unfold AnaliseOutput.resultados_finais in Er.
  pose proof (ao_resultados_get est ex coluna _ _ Er) as Hget.
  cbn [snd] in Hget. rewrite (proj2 (pertence_In _ _) Hex), Hc in Hget. cbn [option_map] in Hget.
  exists (entrada_simples (counter_update [] toks)). split; [exact Hget|].
  pose proof (soma_counter_update toks []) as Hsoma.
  change (soma []) with 0 in Hsoma.
  assert (Hocc : forall item,
             dict_get (counter_update [] toks) item
             = if ocorrencias item toks =? 0 then None else Some (ocorrencias item toks)).
  { intros item. rewrite dict_get_counter_update. reflexivity. }
  assert (Hk : NoDup (map fst (counter_update [] toks)))
    by (apply counter_update_chaves_unicas; constructor).
  unfold entrada_simples.
  destruct (counter_update [] toks) as [|x c] eqn:Ec; cbn [truthy negb
    AnaliseOutput.s_contagens AnaliseOutput.s_total_ocorrencias].
  - change (soma []) with 0 in Hsoma.
    assert (Hv : toks = []) by (destruct toks; [reflexivity | simpl in Hsoma; lia]).
    split; [lia|]. split; [exact I|].
    intros item k. rewrite Hv. unfold ocorrencias. simpl. split; [intros [] | lia].
  - rewrite soma_sort_values_desc. split; [exact Hsoma|].
    split; [apply sort_values_desc_decrescente|].
    intros item k. split.
    + intros Hi. apply (Permutation_in _ (sort_values_desc_perm _)) in Hi.
      apply (In_dict_get _ _ _ Hk) in Hi. rewrite Hocc in Hi.
      destruct (ocorrencias item toks =? 0) eqn:Ez; [discriminate|].
      injection Hi as <-. apply Z.eqb_neq in Ez. unfold ocorrencias in *. lia.
    + intros (Hpos & ->).
      apply (Permutation_in _ (Permutation_sym (sort_values_desc_perm _))).
      apply dict_get_In. rewrite Hocc.
      destruct (ocorrencias item toks =? 0) eqn:Ez; [apply Z.eqb_eq in Ez; lia | reflexivity].
Qed.

Lemma analise_output_conta_cada_ocorrencia_witness :
  exists d,
    dict_get [(X_, {| AnaliseOutput.s_contagens := [(py "A", 2); (py "B", 1); (py "SIGILOSO", 1)];
                      AnaliseOutput.s_total_ocorrencias := 4 |})] X_ = Some d
    /\ AnaliseOutput.s_total_ocorrencias d = Z.of_nat (length (itens X_ (linhas fonte_cenario)))
    /\ decrescente (AnaliseOutput.s_contagens d)
    /\ forall item k,
         In (item, k) (AnaliseOutput.s_contagens d)
         <-> 0 < k /\ k = ocorrencias item (itens X_ (linhas fonte_cenario)).
Proof.
  apply (analise_output_conta_cada_ocorrencia 2 fonte_cenario [X_; Y_] [AvisoColunasAusentes]).
  - repeat constructor; simpl; intuition discriminate.
  - vm_compute. reflexivity.
  - simpl. auto.
  - simpl. auto.
Defined.

(** X17. analisar_frequencias of analise_output.py returns None, after
    logging an unexpected error, when no requested column of the file
    has a value in any row of the first chunk: the del at the end of the
    first iteration names items_exploded, which was never bound.  A file
    with a header and no rows is such a case. *)
Theorem analise_output_falha_sem_valor_no_primeiro_chunk
    (chunksize : positive) (csv : fonte) (colunas_analise : list str) :
  (forall l col, In l (hd [] (read_csv_chunks chunksize (linhas csv))) ->
                 In col colunas_analise -> In col (colunas_presentes csv) ->
                 dict_get l col = None) ->
  snd (AnaliseOutput.analisar_frequencias chunksize csv colunas_analise) = None
  /\ (existentes_em csv colunas_analise <> [] ->
      In ErroInesperado (fst (AnaliseOutput.analisar_frequencias chunksize csv colunas_analise))).
Proof.
  intros Hsem. unfold AnaliseOutput.analisar_frequencias.
  fold (existentes_em csv colunas_analise).
  set (ex := existentes_em csv colunas_analise).
  destruct ex as [|e ex'] eqn:Eex; [split; [reflexivity | congruence]|].
  cbn [truthy negb]. rewrite <- Eex.
  set (est0 := {| AnaliseOutput.w_contadores := dict_de colunas_analise ([] : Counter);
                  AnaliseOutput.w_col_data := false;
                  AnaliseOutput.w_items_exploded := false |}).
  assert (Hfalha : foldM (AnaliseOutput.processa_chunk ex)
                         (read_csv_chunks chunksize (linhas csv)) est0 = None).
  { destruct (read_csv_chunks chunksize (linhas csv)) as [|chunk resto] eqn:Ech.
    - unfold read_csv_chunks in Ech. destruct (linhas csv) as [|l ls]; [discriminate Ech|].
      pose proof (read_csv_chunks_concat chunksize (l :: ls)) as Hcc.
      unfold read_csv_chunks in Hcc. rewrite Ech in Hcc. discriminate Hcc.
    - cbn [hd] in Hsem. cbn [foldM].
      assert (Hp : AnaliseOutput.processa_chunk ex est0 chunk = None).
      { unfold AnaliseOutput.processa_chunk.
        destruct (foldM (AnaliseOutput.conta_coluna chunk) ex est0) as [est1|] eqn:E1;
          [|reflexivity].
        assert (Hi : AnaliseOutput.w_items_exploded est1 = false).
        { apply (foldM_inv (fun e => AnaliseOutput.w_items_exploded e = false)
                   (AnaliseOutput.conta_coluna chunk) ex) with (s := est0);
            [|reflexivity | exact E1].
          intros s col s' Hcol Hs. unfold AnaliseOutput.conta_coluna.
          assert (Hvazio : dropna (coluna_de chunk col) = []).
          { destruct (dropna (coluna_de chunk col)) as [|v vs] eqn:Ed; [reflexivity|].
            assert (Hv : In v (dropna (coluna_de chunk col))) by (rewrite Ed; left; reflexivity).
            apply col_data_In in Hv as (l & Hl & Hget).
            apply existentes_em_In in Hcol as [Hc1 Hc2].
            rewrite (Hsem l col Hl Hc1 Hc2) in Hget. discriminate Hget. }
          rewrite Hvazio. cbn [truthy]. intros H. injection H as <-. exact Hs. }
        rewrite Hi, andb_false_r. reflexivity. }
      rewrite Hp. reflexivity. }
  rewrite Hfalha. cbn [fst snd]. split; [reflexivity|].
  intros _. apply in_or_app. right. left. reflexivity.
Qed.

Definition fonte_so_cabecalho : fonte := {| colunas_presentes := [X_; Y_]; linhas := [] |}.

Lemma analise_output_falha_sem_valor_no_primeiro_chunk_witness :
  snd (AnaliseOutput.analisar_frequencias 100 fonte_so_cabecalho [X_]) = None
  /\ (existentes_em fonte_so_cabecalho [X_] <> [] ->
      In ErroInesperado (fst (AnaliseOutput.analisar_frequencias 100 fonte_so_cabecalho [X_]))).
Proof.
  apply (analise_output_falha_sem_valor_no_primeiro_chunk 100 fonte_so_cabecalho [X_]).
  intros l col H. destruct H.
Defined.

(** Every column of [cols] has its counter. *)
Definition pronto_simples (cols : list str) (est : AnaliseOutput.estado_simples) : Prop :=
  forall c, In c cols -> exists k, em_simples c est k.

Lemma ao_conta_coluna_pronto (cols : list str) (chunk : list linha) (coluna : str)
    (est : AnaliseOutput.estado_simples) :
  pronto_simples cols est -> In coluna cols ->
  exists est',
    AnaliseOutput.conta_coluna chunk est coluna = Some est'
    /\ pronto_simples cols est'
    /\ AnaliseOutput.w_col_data est' = true
    /\ AnaliseOutput.w_items_exploded est'
       = truthy (dropna (coluna_de chunk coluna)) || AnaliseOutput.w_items_exploded est.
Proof.
  intros Hp Hin.
  assert (Hex : exists est',
             AnaliseOutput.conta_coluna chunk est coluna = Some est'
             /\ AnaliseOutput.w_col_data est' = true
             /\ AnaliseOutput.w_items_exploded est'
                = truthy (dropna (coluna_de chunk coluna)) || AnaliseOutput.w_items_exploded est).
  { destruct (Hp coluna Hin) as (k & Hk). unfold em_simples in Hk.
    unfold AnaliseOutput.conta_coluna.
    destruct (truthy (dropna (coluna_de chunk coluna))); cbn [orb].
    - destruct (truthy (concat _)); [rewrite Hk|]; eexists; repeat split; reflexivity.
    - eexists. repeat split; reflexivity. }
  destruct Hex as (est' & E & Hc & Hi). exists est'. split; [exact E|].
  split; [|split; assumption].
  intros c Hc0. destruct (Hp c Hc0) as (k & Hk).
  destruct (str_eqb coluna c) eqn:Ec.
  - apply str_eqb_eq in Ec. subst c. eexists. apply (ao_conta_coluna_mesma _ _ _ _ _ Hk E).
  - apply str_eqb_neq in Ec. exists k. apply (ao_conta_coluna_outra _ _ _ _ _ _ Ec Hk E).
Qed.

Lemma ao_colunas_pronto (cols : list str) (chunk : list linha) (colunas : list str) :
  (forall c, In c colunas -> In c cols) ->
  forall est,
    pronto_simples cols est ->
    exists est',
      foldM (AnaliseOutput.conta_coluna chunk) colunas est = Some est'
      /\ pronto_simples cols est'
      /\ ((AnaliseOutput.w_col_data est = true /\ AnaliseOutput.w_items_exploded est = true)
          \/ existsb (fun c => truthy (dropna (coluna_de chunk c))) colunas = true ->
          AnaliseOutput.w_col_data est' = true /\ AnaliseOutput.w_items_exploded est' = true).
Proof.
  induction colunas as [|c cs IH]; intros Hsub est Hp.
  - exists est. split; [reflexivity|]. split; [exact Hp|].
    intros [H | H]; [exact H | discriminate H].
  - cbn [foldM existsb].
    assert (Hsub' : forall c0, In c0 cs -> In c0 cols) by (intros c0 H0; apply Hsub; right; exact H0).
    destruct (ao_conta_coluna_pronto cols chunk c est Hp (Hsub c (or_introl eq_refl)))
      as (est1 & E1 & Hp1 & Hc1 & Hi1).
    rewrite E1. destruct (IH Hsub' est1 Hp1) as (est' & E & Hp' & Hfl).
    exists est'. split; [exact E|]. split; [exact Hp'|].
    intros H. apply Hfl. destruct H as [[_ Hi] | H].
    + left. split; [exact Hc1|]. rewrite Hi1, Hi. apply orb_true_r.
    + apply orb_true_iff in H as [H | H]; [|right; exact H].
      left. split; [exact Hc1|]. rewrite Hi1, H. reflexivity.
Qed.

Lemma ao_processa_chunk_pronto (colunas : list str) (chunk : list linha)
    (est : AnaliseOutput.estado_simples) :
  pronto_simples colunas est ->
  (exists l col v, In l chunk /\ In col colunas /\ dict_get l col = Some v) ->
  exists est',
    AnaliseOutput.processa_chunk colunas est chunk = Some est' /\ pronto_simples colunas est'.
Proof.
  intros Hp (l & col & v & Hl & Hcol & Hget). unfold AnaliseOutput.processa_chunk.
  destruct (ao_colunas_pronto colunas chunk colunas (fun c H => H) est Hp)
    as (est1 & E & Hp1 & Hfl).
  rewrite E. destruct Hfl as [Hc Hi].
  { right. apply existsb_exists. exists col. split; [exact Hcol|].
    assert (Hin : In v (dropna (coluna_de chunk col)))
      by (apply col_data_In; exists l; split; assumption).
    destruct (dropna (coluna_de chunk col)); [destruct Hin | reflexivity]. }
  rewrite Hc, Hi. cbn [andb]. eexists. split; [reflexivity | exact Hp1].
Qed.

(** X18. analisar_frequencias of analise_output.py returns a result, for
    every chunk size, when the file has at least one row and every row
    has a value in at least one requested column of the file. *)
Theorem analise_output_completa_se_toda_linha_tem_valor
    (chunksize : positive) (csv : fonte) (colunas_analise : list str) :
  linhas csv <> [] ->
  (forall l, In l (linhas csv) ->
             exists col, In col colunas_analise /\ In col (colunas_presentes csv)
                         /\ dict_get l col <> None) ->
  exists registro res,
    AnaliseOutput.analisar_frequencias chunksize csv colunas_analise = (registro, Some res).
Proof.
  intros Hne Hlinhas. unfold AnaliseOutput.analisar_frequencias.
  fold (existentes_em csv colunas_analise).
  set (ex := existentes_em csv colunas_analise).
  assert (Hval : forall l, In l (linhas csv) ->
                           exists col v, In col ex /\ dict_get l col = Some v).
  { intros l Hl. destruct (Hlinhas l Hl) as (col & H1 & H2 & H3).
    destruct (dict_get l col) as [v|] eqn:Ev; [|congruence].
    exists col, v. split; [apply existentes_em_In; split; assumption | exact Ev]. }
  assert (Hex : truthy ex = true).
  { destruct (linhas csv) as [|l ls] eqn:El; [congruence|].
    destruct (Hval l (or_introl eq_refl)) as (col & _ & Hcol & _).
    destruct ex; [destruct Hcol | reflexivity]. }
  rewrite Hex. cbn [negb].
  set (est0 := {| AnaliseOutput.w_contadores := dict_de colunas_analise ([] : Counter);
                  AnaliseOutput.w_col_data := false;
                  AnaliseOutput.w_items_exploded := false |}).
  assert (Hp0 : pronto_simples ex est0).
  { intros c Hc. apply existentes_em_In in Hc as [Hc _]. exists [].
    unfold em_simples, est0. cbn [AnaliseOutput.w_contadores].
    rewrite dict_get_dict_de, (proj2 (pertence_In _ _) Hc). reflexivity. }
  destruct (foldM_ok (pronto_simples ex) (AnaliseOutput.processa_chunk ex)
              (read_csv_chunks chunksize (linhas csv))) with (s := est0) as (est & E & Hp).
  { intros s chunk Hch Hs. apply ao_processa_chunk_pronto; [exact Hs|].
    assert (Hchunk : chunk <> []).
    { unfold read_csv_chunks in Hch. destruct (linhas csv) as [|l0 ls0]; [congruence|].
      exact (proj1 (Forall_forall _ _) (agrupa_nao_vazios _ _ _ _) chunk Hch). }
    destruct chunk as [|l chunk']; [congruence|].
    destruct (Hval l (read_csv_chunks_In _ _ _ _ Hch (or_introl eq_refl)))
      as (col & v & Hcol & Hget).
    exists l, col, v. split; [left; reflexivity|]. split; assumption. }
  { exact Hp0. }
  rewrite E.
  assert (Hfim : exists r, AnaliseOutput.resultados_finais ex est = Some r).
  { unfold AnaliseOutput.resultados_finais.
    destruct (foldM_ok (fun _ : list evento * dict AnaliseOutput.dados_simples => True)
                (fun (acc : list evento * dict AnaliseOutput.dados_simples) coluna =>
                   match dict_get (AnaliseOutput.w_contadores est) coluna with
                   | Some contador =>
                       if negb (truthy contador)
                       then Some (fst acc ++ [AvisoColunaSemValores coluna],
                                  dict_set (snd acc) coluna
                                    {| AnaliseOutput.s_contagens := [];
                                       AnaliseOutput.s_total_ocorrencias := 0 |})
                       else
                         let series_contagem := sort_values_desc contador in
                         Some (fst acc,
                               dict_set (snd acc) coluna
                                 {| AnaliseOutput.s_contagens := series_contagem;
                                    AnaliseOutput.s_total_ocorrencias := soma series_contagem |})
                   | None => None
                   end) ex)
      with (s := (@nil evento, @nil (str * AnaliseOutput.dados_simples))) as (r & Er & _).
    - intros s coluna Hc _. destruct (Hp coluna Hc) as (k & Hk). unfold em_simples in Hk.
      rewrite Hk. destruct (negb (truthy k)); eexists; split; try reflexivity; exact I.
    - exact I.
    - exists r. exact Er. }
  destruct Hfim as ([avisos res] & Er). rewrite Er. eexists. eexists. reflexivity.
Qed.

Lemma analise_output_completa_se_toda_linha_tem_valor_witness :
  exists registro res,
    AnaliseOutput.analisar_frequencias 1 fonte_cenario [X_; Y_] = (registro, Some res).
Proof.
  apply (analise_output_completa_se_toda_linha_tem_valor 1 fonte_cenario [X_; Y_]).
  - discriminate.
  - intros l [<- | [<- | [<- | []]]]; exists X_;
      (split; [simpl; auto | split; [simpl; auto | vm_compute; discriminate]]).
Defined.

(* ===================================================================== *)
(** * Cells written between braces                                       *)
(* ===================================================================== *)

Lemma limpo_de_strip (t : str) :
  t <> [] -> ~ In ","%char t -> strip t = t -> token_limpo t.
Proof.
  intros Hne Hv Hs. destruct (strip_limpo t) as [H1 H2]. rewrite Hs in H1, H2.
  repeat split; assumption.
Qed.

(** X19. Writing tokens as a cell and reading the cell gives the tokens
    back: for tokens that are non-empty, without comma and without
    whitespace at either end, parse_multi_valor of the text made of an
    opening brace, the tokens joined by ", " and a closing brace returns
    exactly those tokens, in order and with duplicates. *)
Theorem parse_multi_valor_de_celula_entre_chaves (toks : list str) :
  Forall (fun t => t <> [] /\ ~ In ","%char t /\ strip t = t) toks ->
  parse_multi_valor (Some (py "{" ++ join separador toks ++ py "}")) = toks.
Proof.
  intros H.
  assert (Hl : Forall token_limpo toks).
  { eapply Forall_impl; [|exact H]. intros t (H1 & H2 & H3). apply limpo_de_strip; assumption. }
  set (j := join separador toks).
  assert (Hcel : strip (py "{" ++ j ++ py "}") = py "{" ++ j ++ py "}").
  { apply strip_fixo; [reflexivity|].
    rewrite !rev_app_distr. reflexivity. }
  unfold parse_multi_valor. rewrite Hcel.
  replace (truthy (py "{" ++ j ++ py "}")) with true by reflexivity. cbn [negb].
  replace (startswith "{" (py "{" ++ j ++ py "}")) with true by reflexivity.
  replace (endswith "}" (py "{" ++ j ++ py "}")) with true
    by (unfold endswith; rewrite !rev_app_distr; reflexivity).
  cbn [andb].
  replace (miolo (py "{" ++ j ++ py "}")) with j
    by (unfold miolo; change (tl (py "{" ++ j ++ py "}")) with (j ++ ["}"%char]);
        rewrite removelast_last; reflexivity).
  destruct toks as [|t toks]; [reflexivity|].
  unfold j. rewrite (re_split_join (t :: toks) ltac:(discriminate) Hl).
  apply filter_map_strip_limpos. exact Hl.
Qed.

Lemma parse_multi_valor_de_celula_entre_chaves_witness :
  parse_multi_valor
    (Some (py "{" ++ join separador [py "12480"; py "Direito da Saude"; py "12480"] ++ py "}"))
  = [py "12480"; py "Direito da Saude"; py "12480"].
Proof.
  apply (parse_multi_valor_de_celula_entre_chaves
           [py "12480"; py "Direito da Saude"; py "12480"]).
  repeat (apply Forall_cons || apply Forall_nil);
    (split; [discriminate | split; [vm_compute; intuition discriminate | vm_compute; reflexivity]]).
Defined.

(* ===================================================================== *)
(** * The result does not depend on the chunks nor on the script          *)
(* ===================================================================== *)

Lemma foldM_fold_left {S A} (f : S -> A -> option S) (g : S -> A -> S) (l : list A) :
  (forall s a, In a l -> f s a = Some (g s a)) ->
  forall s, foldM f l s = Some (fold_left g l s).
Proof.
  induction l as [|a l IH]; intros H s; simpl; [reflexivity|].
  rewrite (H s a (or_introl eq_refl)). apply IH. intros s0 a0 Hin. apply H. right. exact Hin.
Qed.

(** The entry of a column, from the rows of the source alone. *)
Definition entrada_de (csv : fonte) (filtro : option str) (palavras : list str) (col : str)
    : dados_contagem :=
  if negb (pertence col (colunas_presentes csv)) then dados_vazios
  else finaliza
         (fst (fold_left passo_par (itens col (passa filtro palavras (linhas csv))) ([], 0)))
         (snd (fold_left passo_par (itens col (passa filtro palavras (linhas csv))) ([], 0))).

(** The result of a completed scan, from the rows of the source alone. *)
Lemma varredura_resultado chunksize csv cols filtro palavras res :
  NoDup cols ->
  varredura_filtrada chunksize csv cols filtro palavras res ->
  res = fold_left (fun d c => dict_set d c (entrada_de csv filtro palavras c)) cols [].
Proof.
  intros Hnd [(filtrar & cfe & registro & H & ->) | (natjur & registro & H & ->)].
  - apply gerar_analisar_varre in H. unfold GerarRelatorio.varre in H.
    set (ex := existentes_em csv cols) in *.
    set (fl := filtro_ativo csv filtrar cfe) in *.
    set (lidas := conjunto (ex ++ match fl with Some f => [f] | None => [] end)) in *.
    destruct (foldM _ (read_csv_chunks chunksize (linhas csv)) _) as [est|] eqn:E;
      [|discriminate].
    injection H as <-. unfold GerarRelatorio.resultados_finais. apply fold_set_ext.
    intros col Hcol. unfold entrada_de.
    destruct (pertence col (colunas_presentes csv)) eqn:Ep.
    + assert (Hex : In col ex)
        by (apply existentes_em_In; split; [exact Hcol | apply pertence_In; exact Ep]).
      rewrite (proj2 (pertence_In _ _) Hex). cbn [negb].
      assert (Hl : pertence col lidas = true).
      { unfold lidas. rewrite pertence_conjunto. apply pertence_In. apply in_or_app.
        left. exact Hex. }
      pose proof (gerar_chunks_em _ _ _ _ col _ (NoDup_filter _ _ Hnd) Hl Hex _ _ _
                    (em_inicial ex col Hex) E) as [Hc Hz].
      rewrite read_csv_chunks_concat in Hc, Hz.
      unfold dict_get_ou. rewrite Hc, Hz. reflexivity.
    + replace (pertence col ex) with false; [reflexivity|].
      symmetry. apply pertence_not_In. intros Hex. apply existentes_em_In in Hex as [_ Hex].
      apply pertence_In in Hex. congruence.
  - unfold AnaliseOutputSus.analisar_frequencias_entes_publicos in H.
    set (lidas := filter (fun col => pertence col (colunas_presentes csv))
                         (conjunto (cols ++ [natjur]))) in *.
    destruct (negb (truthy lidas) || negb (pertence natjur lidas)); [discriminate|].
    destruct (foldM _ (read_csv_chunks chunksize (linhas csv)) _) as [est|] eqn:E;
      [|discriminate].
    destruct (AnaliseOutputSus.resultados_finais cols (colunas_presentes csv) est)
      as [res'|] eqn:Er; [|discriminate].
    injection H as _ <-.
    unfold AnaliseOutputSus.resultados_finais in Er.
    rewrite (foldM_fold_left _ (fun d c => dict_set d c (entrada_de csv (Some natjur) palavras c)))
      in Er.
    + injection Er as <-. reflexivity.
    + intros d col Hcol. unfold entrada_de.
      destruct (pertence col (colunas_presentes csv)) eqn:Ep; cbn [negb]; [|reflexivity].
      assert (Hl : pertence col lidas = true).
      { apply pertence_In. unfold lidas. apply filter_In. split; [|exact Ep].
        apply In_conjunto. apply in_or_app. left. exact Hcol. }
      pose proof (gerar_chunks_em (Some natjur) palavras lidas cols col _
                    Hnd Hl Hcol _ _ _ (em_inicial cols col Hcol) E) as [Hc Hz].
      rewrite read_csv_chunks_concat in Hc, Hz. rewrite Hc, Hz. reflexivity.
Qed.

(** X20. Two completed scans of the same source over the same distinct
    requested columns, with the same filter in force and the same
    keywords, return the same result, whatever their chunk sizes and
    whichever of gerar_relatorio_analise_cnj.py and
    analise_output_sus.py ran them: the filtered analysis of the first
    script and the analysis of the second agree. *)
Theorem varredura_independe_do_chunksize_e_do_script
    (n m : positive) (csv : fonte) (colunas_analise : list str)
    (filtro : option str) (palavras : list str) (res1 res2 : dict dados_contagem) :
  NoDup colunas_analise ->
  varredura_filtrada n csv colunas_analise filtro palavras res1 ->
  varredura_filtrada m csv colunas_analise filtro palavras res2 ->
  res1 = res2.
Proof.
  intros Hnd H1 H2.
  rewrite (varredura_resultado _ _ _ _ _ _ Hnd H1), (varredura_resultado _ _ _ _ _ _ Hnd H2).
  reflexivity.
Qed.

Lemma varredura_independe_do_chunksize_e_do_script_witness :
  snd (GerarRelatorio.analisar_frequencias 1 fonte_entes [X_; F_] true (Some F_) [py "MUNICIPIO"])
  = snd (AnaliseOutputSus.analisar_frequencias_entes_publicos 2 fonte_entes [X_; F_] F_
           [py "MUNICIPIO"]).
Proof.
  destruct (GerarRelatorio.analisar_frequencias 1 fonte_entes [X_; F_] true (Some F_)
              [py "MUNICIPIO"]) as [r1 [res1|]] eqn:E1; [|vm_compute in E1; discriminate E1].
  destruct (AnaliseOutputSus.analisar_frequencias_entes_publicos 2 fonte_entes [X_; F_] F_
              [py "MUNICIPIO"]) as [r2 [res2|]] eqn:E2; [|vm_compute in E2; discriminate E2].
  cbn [snd]. apply f_equal.
  apply (varredura_independe_do_chunksize_e_do_script 1 2 fonte_entes [X_; F_] (Some F_)
           [py "MUNICIPIO"] res1 res2).
  - repeat constructor; simpl; intuition discriminate.
  - left. exists true, (Some F_), r1. split; [exact E1 | reflexivity].
  - right. exists F_, r2. split; [exact E2 | reflexivity].
Defined.
